(** * Key-scan driver and fixed-block pool: a shallow embedding

    The development follows the C sources
      - [inc/keyboard_config.h]  (compile-time constants),
      - [inc/keyboard_driver.h]  (data types, result codes),
      - [src/keyboard_driver.c]  (registration and the poll state machine),
      - [inc/inc/mypool.h], [src/src/mypool.c] (the block pool).

    Conventions.  A [uintN_t] value is a [Z] and every C operation that can
    wrap is written with its reduction modulo [2^N].  A pointer that the code
    tests against [NULL] is an [option] (data) or a [bool] (function
    pointers: [true] means non-NULL).  What the external read primitives
    return during one tick is a value of [kb_hw]. *)

From Stdlib Require Import ZArith Lia Bool String.
From stdpp Require Import base list.

Open Scope Z_scope.

(** ** Machine integers *)

Definition u8 (x : Z) : Z := x mod 2 ^ 8.
Definition u16 (x : Z) : Z := x mod 2 ^ 16.
Definition u32 (x : Z) : Z := x mod 2 ^ 32.

(** ** keyboard_config.h *)

Definition KEYBOARD_POOL_SIZE : Z := 512.
Definition KB_MAX_KEYS : Z := 16.
Definition KB_DEBOUNCE_MS : Z := 20.
Definition KB_LONGPRESS_MS : Z := 800.
Definition KB_REPEAT_START_MS : Z := 500.
Definition KB_REPEAT_PERIOD_MS : Z := 80.
Definition KB_DOUBLE_CLICK_MS : Z := 250.
Definition KB_GPIO_ACTIVE_LEVEL : Z := 1.
Definition KB_MATRIX_ACTIVE_LEVEL : Z := 1.
Definition KB_BACKEND_GPIO : Z := 1.
Definition KB_BACKEND_MATRIX : Z := 2.
Definition KB_BACKEND_CUSTOM : Z := 3.
Definition KB_BACKEND_MODE : Z := KB_BACKEND_MATRIX.
Definition KB_MATRIX_MAX_ROW : Z := 8.
Definition KB_MATRIX_MAX_COL : Z := 8.

(** ** keyboard_driver.h *)

(** [keyboard_hw_ref_t] is a two-byte union: [gpio_pin] and [matrix.row]
    name its first byte, [matrix.col] its second, [hw_code] both. *)
Record keyboard_hw_ref_t := mk_hw { hw_byte0 : Z; hw_byte1 : Z }.

Definition gpio_pin (h : keyboard_hw_ref_t) : Z := hw_byte0 h.
Definition matrix_row (h : keyboard_hw_ref_t) : Z := hw_byte0 h.
Definition matrix_col (h : keyboard_hw_ref_t) : Z := hw_byte1 h.
Definition hw_code (h : keyboard_hw_ref_t) : Z := hw_byte0 h + 2 ^ 8 * hw_byte1 h.

Record keyboard_key_cfg_t := mk_cfg {
  cfg_keyname : option string;
  cfg_key_id : Z;
  cfg_hw : keyboard_hw_ref_t
}.

(** The operation table: one flag per function pointer. *)
Record keyboard_ops_t := mk_ops {
  read_pin : bool;
  matrix_select_row : bool;
  matrix_read_col : bool;
  matrix_unselect_row : bool;
  scan_snapshot : bool;
  get_tick_ms : bool;
  lock : bool;
  unlock : bool
}.

Inductive kb_event_t :=
  | KB_EVT_PRESS
  | KB_EVT_RELEASE
  | KB_EVT_CLICK
  | KB_EVT_LONGPRESS
  | KB_EVT_LONGPRESS_RELEASE
  | KB_EVT_REPEAT
  | KB_EVT_DOUBLE_CLICK.

Definition kb_event_eq_dec (x y : kb_event_t) : {x = y} + {x <> y}.
Proof. decide equality. Defined.

Record keyboard_cb_t := mk_cb { on_event : bool }.

(** A registry node.  The chain [head -> next -> ... -> NULL] is kept as
    the list of its nodes in link order, so [next] is the list structure. *)
Record keyboard_que_t := mk_que {
  keyname : string;
  key_id : Z;
  hw : keyboard_hw_ref_t
}.

Record keyboard_control_t := mk_ctl {
  backend_mode : Z;
  keyboard_ops : keyboard_ops_t;
  keyboard_cb : keyboard_cb_t;
  head : list keyboard_que_t;
  key_num : Z;
  keyboard_pool : bool   (* false: NULL, true: &key_pool *)
}.

Definition KB_OK : Z := 0.
Definition KB_ERR_PARAM : Z := -1.
Definition KB_ERR_BACKEND : Z := -2.
Definition KB_ERR_POOL_CFG : Z := -3.
Definition KB_ERR_RANGE : Z := -4.
Definition KB_ERR_DUPLICATE : Z := -5.
Definition KB_ERR_FULL : Z := -6.
Definition KB_ERR_NOMEM : Z := -7.

(** ** keyboard_driver.c: runtime records and the scratch sequence *)

Record kb_key_runtime_t := mk_rt {
  raw_last : Z;
  stable : Z;
  long_sent : Z;
  click_count : Z;
  debounce_ms : Z;
  press_ms : Z;
  repeat_ms : Z;
  click_wait_ms : Z
}.

Definition set_raw_last (v : Z) (rt : kb_key_runtime_t) :=
  mk_rt v (stable rt) (long_sent rt) (click_count rt)
        (debounce_ms rt) (press_ms rt) (repeat_ms rt) (click_wait_ms rt).
Definition set_stable (v : Z) (rt : kb_key_runtime_t) :=
  mk_rt (raw_last rt) v (long_sent rt) (click_count rt)
        (debounce_ms rt) (press_ms rt) (repeat_ms rt) (click_wait_ms rt).
Definition set_long_sent (v : Z) (rt : kb_key_runtime_t) :=
  mk_rt (raw_last rt) (stable rt) v (click_count rt)
        (debounce_ms rt) (press_ms rt) (repeat_ms rt) (click_wait_ms rt).
Definition set_click_count (v : Z) (rt : kb_key_runtime_t) :=
  mk_rt (raw_last rt) (stable rt) (long_sent rt) v
        (debounce_ms rt) (press_ms rt) (repeat_ms rt) (click_wait_ms rt).
Definition set_debounce_ms (v : Z) (rt : kb_key_runtime_t) :=
  mk_rt (raw_last rt) (stable rt) (long_sent rt) (click_count rt)
        v (press_ms rt) (repeat_ms rt) (click_wait_ms rt).
Definition set_press_ms (v : Z) (rt : kb_key_runtime_t) :=
  mk_rt (raw_last rt) (stable rt) (long_sent rt) (click_count rt)
        (debounce_ms rt) v (repeat_ms rt) (click_wait_ms rt).
Definition set_repeat_ms (v : Z) (rt : kb_key_runtime_t) :=
  mk_rt (raw_last rt) (stable rt) (long_sent rt) (click_count rt)
        (debounce_ms rt) (press_ms rt) v (click_wait_ms rt).
Definition set_click_wait_ms (v : Z) (rt : kb_key_runtime_t) :=
  mk_rt (raw_last rt) (stable rt) (long_sent rt) (click_count rt)
        (debounce_ms rt) (press_ms rt) (repeat_ms rt) v.

(** [memset(key_rt, 0, sizeof(key_rt))] *)
Definition rt_zero : kb_key_runtime_t := mk_rt 0 0 0 0 0 0 0 0.
Definition key_rt_zero : list kb_key_runtime_t :=
  replicate (Z.to_nat KB_MAX_KEYS) rt_zero.

Record kb_pending_evt_t := mk_pending {
  pe_node : keyboard_que_t;
  pe_evt : kb_event_t
}.

(** Capacity of [pending_evt[KB_MAX_KEYS * 4u]]. *)
Definition PENDING_CAP : Z := KB_MAX_KEYS * 4.

(** The guarded append that the poll loop repeats at each emission site:
    [if (evt_num < KB_MAX_KEYS * 4u) { pending_evt[evt_num] = ...; evt_num++; }].
    [evt_num] is the length of the sequence. *)
Definition kb_record (node : keyboard_que_t) (evt : kb_event_t)
    (pending : list kb_pending_evt_t) : list kb_pending_evt_t :=
  if Z.of_nat (length pending) <? PENDING_CAP
  then pending ++ [mk_pending node evt]
  else pending.

(** ** The per-key body of the [while] loop of [keyboard_poll] *)

(** Lines 292-303: debounce accumulator. *)
Definition kb_debounce (dt_ms raw : Z) (rt : kb_key_runtime_t) : kb_key_runtime_t :=
  if negb (raw =? raw_last rt) then
    set_debounce_ms 0 (set_raw_last raw rt)
  else if debounce_ms rt <? KB_DEBOUNCE_MS then
    set_debounce_ms (u32 (debounce_ms rt + dt_ms)) rt
  else rt.

(** Lines 305-370: a stable-level flip and the events it produces. *)
Definition kb_stabilize (node : keyboard_que_t) (rt : kb_key_runtime_t)
    (pending : list kb_pending_evt_t) : kb_key_runtime_t * list kb_pending_evt_t :=
  if (KB_DEBOUNCE_MS <=? debounce_ms rt) && negb (stable rt =? raw_last rt) then
    let rt := set_stable (raw_last rt) rt in
    if negb (stable rt =? 0) then
      let rt := set_long_sent 0 (set_repeat_ms 0 (set_press_ms 0 rt)) in
      (rt, kb_record node KB_EVT_PRESS pending)
    else
      let pending := kb_record node KB_EVT_RELEASE pending in
      let '(rt, pending) :=
        if negb (long_sent rt =? 0) then
          (set_click_wait_ms 0 (set_click_count 0 rt),
           kb_record node KB_EVT_LONGPRESS_RELEASE pending)
        else if click_count rt =? 0 then
          (set_click_wait_ms 0 (set_click_count 1 rt), pending)
        else if (click_count rt =? 1) && (click_wait_ms rt <=? KB_DOUBLE_CLICK_MS) then
          (set_click_wait_ms 0 (set_click_count 0 rt),
           kb_record node KB_EVT_DOUBLE_CLICK pending)
        else
          (set_click_wait_ms 0 (set_click_count 1 rt), pending) in
      (set_long_sent 0 (set_repeat_ms 0 (set_press_ms 0 rt)), pending)
  else (rt, pending).

(** Lines 372-419: timers that run while the stable level is held. *)
Definition kb_gesture (dt_ms : Z) (node : keyboard_que_t) (rt : kb_key_runtime_t)
    (pending : list kb_pending_evt_t) : kb_key_runtime_t * list kb_pending_evt_t :=
  if negb (stable rt =? 0) then
    let rt := set_press_ms (u32 (press_ms rt + dt_ms)) rt in
    let '(rt, pending) :=
      if (long_sent rt =? 0) && (KB_LONGPRESS_MS <=? press_ms rt) then
        (set_long_sent 1 rt, kb_record node KB_EVT_LONGPRESS pending)
      else (rt, pending) in
    if KB_REPEAT_START_MS <=? press_ms rt then
      let rt := set_repeat_ms (u32 (repeat_ms rt + dt_ms)) rt in
      if KB_REPEAT_PERIOD_MS <=? repeat_ms rt then
        (set_repeat_ms 0 rt, kb_record node KB_EVT_REPEAT pending)
      else (rt, pending)
    else (rt, pending)
  else
    if click_count rt =? 1 then
      let rt := set_click_wait_ms (u32 (click_wait_ms rt + dt_ms)) rt in
      if KB_DOUBLE_CLICK_MS <=? click_wait_ms rt then
        (set_click_wait_ms 0 (set_click_count 0 rt),
         kb_record node KB_EVT_CLICK pending)
      else (rt, pending)
    else (rt, pending).

(** The whole loop body for one key, given its raw sample. *)
Definition kb_scan_key (dt_ms raw : Z) (node : keyboard_que_t)
    (rt : kb_key_runtime_t) (pending : list kb_pending_evt_t)
    : kb_key_runtime_t * list kb_pending_evt_t :=
  let rt := kb_debounce dt_ms raw rt in
  let '(rt, pending) := kb_stabilize node rt pending in
  kb_gesture dt_ms node rt pending.

(** ** Sampling: [kb_read_raw] *)

(** What the external primitives answer during one tick: the level read on
    a pin, the level read on a column while a row is selected, and the
    return code and buffer contents of the custom snapshot call. *)
Record kb_hw := mk_kb_hw {
  hw_read_pin : Z -> Z;
  hw_matrix_read_col : Z -> Z -> Z;
  hw_scan_snapshot : Z -> Z * list Z
}.

(** [snapshot[index]] in the local array [custom_snapshot[KB_MAX_KEYS] = {0}]
    after the callback has filled it with [buf]. *)
Definition snapshot_at (buf : list Z) (index : nat) : Z :=
  match buf !! index with
  | Some v => u8 v
  | None => 0
  end.

Definition kb_read_raw (ctl : keyboard_control_t) (hwst : kb_hw)
    (node : keyboard_que_t) (index : nat) (snapshot : list Z) : Z :=
  if backend_mode ctl =? KB_BACKEND_GPIO then
    if negb (read_pin (keyboard_ops ctl)) then 0
    else if u8 (hw_read_pin hwst (gpio_pin (hw node))) =? KB_GPIO_ACTIVE_LEVEL
         then 1 else 0
  else if backend_mode ctl =? KB_BACKEND_MATRIX then
    if negb (matrix_select_row (keyboard_ops ctl))
       || negb (matrix_read_col (keyboard_ops ctl))
       || negb (matrix_unselect_row (keyboard_ops ctl)) then 0
    else
      let level := u8 (hw_matrix_read_col hwst (matrix_row (hw node))
                                          (matrix_col (hw node))) in
      if level =? KB_MATRIX_ACTIVE_LEVEL then 1 else 0
  else
    if KB_MAX_KEYS <=? Z.of_nat index then 0
    else if negb (snapshot_at snapshot index =? 0) then 1 else 0.

(** ** [keyboard_poll] *)

(** One invocation of the callback by [kb_emit_event]. *)
Record kb_delivery := mk_delivery {
  dl_keyname : string;
  dl_key_id : Z;
  dl_evt : kb_event_t
}.

Definition kb_emit_event (ctl : keyboard_control_t) (p : kb_pending_evt_t)
    : list kb_delivery :=
  if on_event (keyboard_cb ctl)
  then [mk_delivery (keyname (pe_node p)) (key_id (pe_node p)) (pe_evt p)]
  else [].

(** The [while (node != NULL && idx < ctl->key_num && idx < KB_MAX_KEYS)]
    loop.  [nodes] is the chain from the current node on; [key_rt] is the
    static array of [KB_MAX_KEYS] records, so [key_rt[idx]] exists whenever
    the loop condition holds. *)
Fixpoint kb_scan_loop (ctl : keyboard_control_t) (dt_ms : Z) (hwst : kb_hw)
    (snapshot : list Z) (nodes : list keyboard_que_t) (idx : nat)
    (key_rt : list kb_key_runtime_t) (pending : list kb_pending_evt_t)
    : list kb_key_runtime_t * list kb_pending_evt_t :=
  match nodes with
  | [] => (key_rt, pending)
  | node :: rest =>
    if (Z.of_nat idx <? key_num ctl) && (Z.of_nat idx <? KB_MAX_KEYS) then
      match key_rt !! idx with
      | Some rt =>
        let raw := kb_read_raw ctl hwst node idx snapshot in
        let '(rt', pending') := kb_scan_key dt_ms raw node rt pending in
        kb_scan_loop ctl dt_ms hwst snapshot rest (S idx)
                     (<[idx := rt']> key_rt) pending'
      | None => (key_rt, pending)
      end
    else (key_rt, pending)
  end.

(** Scan pass followed by the delivery loop. *)
Definition kb_scan_and_deliver (ctl : keyboard_control_t) (dt_ms : Z)
    (hwst : kb_hw) (snapshot : list Z) (key_rt : list kb_key_runtime_t)
    : list kb_key_runtime_t * list kb_delivery :=
  let '(key_rt', pending) :=
    kb_scan_loop ctl dt_ms hwst snapshot (head ctl) 0 key_rt [] in
  (key_rt', flat_map (kb_emit_event ctl) pending).

Definition keyboard_poll (ctl : option keyboard_control_t) (dt_ms : Z)
    (hwst : kb_hw) (key_rt : list kb_key_runtime_t)
    : list kb_key_runtime_t * list kb_delivery :=
  match ctl with
  | None => (key_rt, [])
  | Some c =>
    if dt_ms =? 0 then (key_rt, [])
    else if backend_mode c =? KB_BACKEND_CUSTOM then
      if negb (scan_snapshot (keyboard_ops c)) then (key_rt, [])
      else
        let '(ret, buf) := hw_scan_snapshot hwst (key_num c) in
        if negb (ret =? 0) then (key_rt, [])
        else kb_scan_and_deliver c dt_ms hwst buf key_rt
    else kb_scan_and_deliver c dt_ms hwst [] key_rt
  end.

(** A sequence of ticks, each with its delta and hardware answers; the
    result keeps the deliveries of every tick apart. *)
Fixpoint keyboard_poll_run (ctl : option keyboard_control_t)
    (ticks : list (Z * kb_hw)) (key_rt : list kb_key_runtime_t)
    : list kb_key_runtime_t * list (list kb_delivery) :=
  match ticks with
  | [] => (key_rt, [])
  | (dt_ms, hwst) :: rest =>
    let '(key_rt1, evs) := keyboard_poll ctl dt_ms hwst key_rt in
    let '(key_rt2, evss) := keyboard_poll_run ctl rest key_rt1 in
    (key_rt2, evs :: evss)
  end.

(** ** One key in isolation *)

(** The loop body run on an empty scratch sequence, keeping only the event
    kinds: what a tick produces for a key that is the only one registered. *)
Definition kb_key_tick (dt_ms raw : Z) (rt : kb_key_runtime_t)
    : kb_key_runtime_t * list kb_event_t :=
  let '(rt', pending) := kb_scan_key dt_ms raw (mk_que EmptyString 0 (mk_hw 0 0)) rt [] in
  (rt', map pe_evt pending).

Fixpoint kb_key_run (dt_ms : Z) (raws : list Z) (rt : kb_key_runtime_t)
    : kb_key_runtime_t * list (list kb_event_t) :=
  match raws with
  | [] => (rt, [])
  | raw :: rest =>
    let '(rt1, evs) := kb_key_tick dt_ms raw rt in
    let '(rt2, evss) := kb_key_run dt_ms rest rt1 in
    (rt2, evs :: evss)
  end.

Definition count_evt (e : kb_event_t) (evs : list kb_event_t) : nat :=
  count_occ kb_event_eq_dec evs e.

(** The stabilisation step and the timer step of one tick, each run on an
    empty scratch sequence: the events that step produces for a key. *)
Definition kb_stab_step (rt : kb_key_runtime_t) : kb_key_runtime_t * list kb_event_t :=
  let '(rt', pending) := kb_stabilize (mk_que EmptyString 0 (mk_hw 0 0)) rt [] in
  (rt', map pe_evt pending).

Definition kb_gest_step (dt_ms : Z) (rt : kb_key_runtime_t)
    : kb_key_runtime_t * list kb_event_t :=
  let '(rt', pending) := kb_gesture dt_ms (mk_que EmptyString 0 (mk_hw 0 0)) rt [] in
  (rt', map pe_evt pending).

(** Every event of one tick of one key, with no capacity bound. *)
Definition kb_key_events (dt_ms raw : Z) (rt : kb_key_runtime_t) : list kb_event_t :=
  let '(rt1, e1) := kb_stab_step (kb_debounce dt_ms raw rt) in
  e1 ++ snd (kb_gest_step dt_ms rt1).

Definition kb_key_next (dt_ms raw : Z) (rt : kb_key_runtime_t) : kb_key_runtime_t :=
  fst (kb_gest_step dt_ms (fst (kb_stab_step (kb_debounce dt_ms raw rt)))).

(** ** mypool.h / mypool.c *)

(** [sizeof(mpool_node_t)] and [sizeof(keyboard_que_t)] on the 32-bit
    targets the driver is written for (one pointer; pointer, [uint16_t],
    two-byte union, pointer). *)
Definition SIZEOF_MPOOL_NODE : Z := 4.
Definition SIZEOF_KEYBOARD_QUE : Z := 12.

(** [(((s) + 3u) & ~3u)] in 32-bit unsigned arithmetic. *)
Definition MPOOL_ALIGN_UP (s : Z) : Z := Z.land (u32 (s + 3)) (u32 (Z.lnot 3)).

Record mpool_t := mk_pool {
  free_list : Z;    (* address of the first free block, 0 is NULL *)
  blk_size : Z;
  total : Z;
  used : Z
}.

(** The [next] field of the header found at each block address.  Payload
    bytes lie between headers and are not represented. *)
Definition links := Z -> Z.

Definition store (m : links) (a v : Z) : links :=
  fun x => if x =? a then v else m x.

(** The [for (uint16_t i = 0; i < count - 1; i++)] loop of [mpool_init];
    [count - 1] is an [int], so the loop runs [Z.to_nat (count - 1)] times. *)
Fixpoint mpool_init_loop (n : nat) (stride p : Z) (m : links) : Z * links :=
  match n with
  | O => (p, m)
  | S n' => mpool_init_loop n' stride (p + stride) (store m p (p + stride))
  end.

(** [uint16_t stride = MPOOL_ALIGN_UP(blk_size + sizeof(mpool_node_t))] *)
Definition mpool_stride (blk : Z) : Z :=
  u16 (MPOOL_ALIGN_UP (blk + SIZEOF_MPOOL_NODE)).

Definition mpool_init (buf blk count : Z) (m : links) : mpool_t * links :=
  let stride := mpool_stride blk in
  let '(p, m1) := mpool_init_loop (Z.to_nat (count - 1)) stride buf m in
  (mk_pool buf blk count 0, store m1 p 0).

(** Returns the payload handle, 0 for NULL.  [memset(ptr, 0, blk_size)]
    clears payload bytes only. *)
Definition mpool_alloc (pool : mpool_t) (m : links) : Z * mpool_t * links :=
  let node := free_list pool in
  if node =? 0 then (0, pool, m)
  else
    (node + SIZEOF_MPOOL_NODE,
     mk_pool (m node) (blk_size pool) (total pool) (u16 (used pool + 1)),
     m).

Definition mpool_free (pool : mpool_t) (m : links) (ptr : Z) : mpool_t * links :=
  if ptr =? 0 then (pool, m)
  else
    let node := ptr - SIZEOF_MPOOL_NODE in
    (mk_pool node (blk_size pool) (total pool) (u16 (used pool - 1)),
     store m node (free_list pool)).

Definition mpool_used_count (p : mpool_t) : Z := used p.
Definition mpool_free_count (p : mpool_t) : Z := u16 (total p - used p).

(** The chain of free blocks reached from [p], if it ends within [fuel]
    links. *)
Fixpoint free_chain (fuel : nat) (m : links) (p : Z) : option (list Z) :=
  if p =? 0 then Some []
  else
    match fuel with
    | O => None
    | S fuel' =>
      match free_chain fuel' m (m p) with
      | Some l => Some (p :: l)
      | None => None
      end
    end.

(** Calls on a pool and the handles each allocation returned. *)
Inductive pool_call :=
  | PoolAlloc
  | PoolFree (ptr : Z).

(** [live] without the handle [ptr]. *)
Fixpoint drop_handle (ptr : Z) (live : list Z) : list Z :=
  match live with
  | [] => []
  | h :: rest => if h =? ptr then drop_handle ptr rest else h :: drop_handle ptr rest
  end.

(** Runs the calls in order.  [live] is the list of handles that were
    returned by an allocation and not released since. *)
Fixpoint pool_run (calls : list pool_call) (pool : mpool_t) (m : links)
    (live : list Z) : mpool_t * links * list Z :=
  match calls with
  | [] => (pool, m, live)
  | PoolAlloc :: rest =>
    let '(ptr, pool', m') := mpool_alloc pool m in
    pool_run rest pool' m' (if ptr =? 0 then live else ptr :: live)
  | PoolFree ptr :: rest =>
    let '(pool', m') := mpool_free pool m ptr in
    pool_run rest pool' m' (drop_handle ptr live)
  end.

(** A sequence of calls is well formed when every release passes NULL or a
    handle that is live at that point. *)
Fixpoint pool_calls_ok (calls : list pool_call) (pool : mpool_t) (m : links)
    (live : list Z) : bool :=
  match calls with
  | [] => true
  | PoolAlloc :: rest =>
    let '(ptr, pool', m') := mpool_alloc pool m in
    pool_calls_ok rest pool' m' (if ptr =? 0 then live else ptr :: live)
  | PoolFree ptr :: rest =>
    ((ptr =? 0) || existsb (Z.eqb ptr) live) &&
    let '(pool', m') := mpool_free pool m ptr in
    pool_calls_ok rest pool' m' (drop_handle ptr live)
  end.

(** The handles returned by [n] consecutive allocations. *)
Fixpoint alloc_many (n : nat) (pool : mpool_t) (m : links)
    : list Z * mpool_t * links :=
  match n with
  | O => ([], pool, m)
  | S n' =>
    let '(ptr, pool1, m1) := mpool_alloc pool m in
    let '(ptrs, pool2, m2) := alloc_many n' pool1 m1 in
    (ptr :: ptrs, pool2, m2)
  end.

(** ** Pool invariant *)

(** [l] is the chain of free blocks starting at [p]: consecutive [next]
    links, no NULL block, NULL after the last. *)
Fixpoint chain (m : links) (p : Z) (l : list Z) : Prop :=
  match l with
  | [] => p = 0
  | a :: l' => p = a /\ a <> 0 /\ chain m (m a) l'
  end.

(** The block addresses laid out by [mpool_init]. *)
Fixpoint blocks (p stride : Z) (k : nat) : list Z :=
  match k with
  | O => []
  | S k' => p :: blocks (p + stride) stride k'
  end.

(** The free blocks [fl] and the allocated blocks (one per live handle) are
    distinct non-NULL addresses, the free list links exactly [fl], and the
    counters agree with them. *)
Definition pool_inv (pool : mpool_t) (m : links) (live : list Z) (fl : list Z) : Prop :=
  chain m (free_list pool) fl
  /\ NoDup (fl ++ map (fun h => h - SIZEOF_MPOOL_NODE) live)
  /\ Forall (fun a => 0 < a) (fl ++ map (fun h => h - SIZEOF_MPOOL_NODE) live)
  /\ used pool = Z.of_nat (length live)
  /\ total pool = Z.of_nat (length fl) + Z.of_nat (length live)
  /\ total pool < 2 ^ 16.

(** ** keyboard_driver.c: globals, initialisation, registration *)

(** The file-scope objects: the address of [key_pool_buf], [key_pool], the
    block headers inside the buffer, and [key_rt]. *)
Record kb_globals := mk_globals {
  key_pool_buf : Z;
  key_pool : mpool_t;
  key_pool_links : links;
  key_rt : list kb_key_runtime_t
}.

Definition kb_hw_equal (mode : Z) (a b : keyboard_hw_ref_t) : bool :=
  if mode =? KB_BACKEND_GPIO then gpio_pin a =? gpio_pin b
  else if mode =? KB_BACKEND_MATRIX then
    (matrix_row a =? matrix_row b) && (matrix_col a =? matrix_col b)
  else hw_code a =? hw_code b.

Definition keyboard_init (ctl : option keyboard_control_t)
    (ops : option keyboard_ops_t) (cb : option keyboard_cb_t) (g : kb_globals)
    : Z * option keyboard_control_t * kb_globals :=
  match ctl, ops with
  | Some _, Some o =>
    if (KB_BACKEND_MODE =? KB_BACKEND_GPIO) && negb (read_pin o) then
      (KB_ERR_BACKEND, ctl, g)
    else if (KB_BACKEND_MODE =? KB_BACKEND_MATRIX)
            && (negb (matrix_select_row o) || negb (matrix_read_col o)
                || negb (matrix_unselect_row o)) then
      (KB_ERR_BACKEND, ctl, g)
    else
      let stride :=
        u16 (MPOOL_ALIGN_UP (u16 (SIZEOF_KEYBOARD_QUE + SIZEOF_MPOOL_NODE))) in
      let count := u16 (KEYBOARD_POOL_SIZE / stride) in
      if count =? 0 then (KB_ERR_POOL_CFG, ctl, g)
      else
        let count := if KB_MAX_KEYS <? count then KB_MAX_KEYS else count in
        let '(pool, m) :=
          mpool_init (key_pool_buf g) (u16 SIZEOF_KEYBOARD_QUE) count
                     (key_pool_links g) in
        (KB_OK,
         Some (mk_ctl (u8 KB_BACKEND_MODE) o
                      (mk_cb (match cb with Some c => on_event c | None => false end))
                      [] 0 true),
         mk_globals (key_pool_buf g) pool m key_rt_zero)
  | _, _ => (KB_ERR_PARAM, ctl, g)
  end.

(** The duplicate scan of [keyboard_register_key]: walks the chain and
    stops at the first node with the same id or an equal hardware
    location. *)
Fixpoint kb_find_duplicate (mode : Z) (cfg : keyboard_key_cfg_t)
    (nodes : list keyboard_que_t) : bool :=
  match nodes with
  | [] => false
  | tail :: rest =>
    if (key_id tail =? cfg_key_id cfg) || kb_hw_equal mode (hw tail) (cfg_hw cfg)
    then true
    else kb_find_duplicate mode cfg rest
  end.

Definition keyboard_register_key (cfg : option keyboard_key_cfg_t)
    (ctl : option keyboard_control_t) (g : kb_globals)
    : Z * option keyboard_control_t * kb_globals :=
  match ctl, cfg with
  | Some c, Some cf =>
    match cfg_keyname cf with
    | None => (KB_ERR_PARAM, ctl, g)
    | Some name =>
      if negb (keyboard_pool c) then (KB_ERR_PARAM, ctl, g)
      else if (backend_mode c =? KB_BACKEND_MATRIX)
              && ((KB_MATRIX_MAX_ROW <=? matrix_row (cfg_hw cf))
                  || (KB_MATRIX_MAX_COL <=? matrix_col (cfg_hw cf))) then
        (KB_ERR_RANGE, ctl, g)
      else if kb_find_duplicate (backend_mode c) cf (head c) then
        (KB_ERR_DUPLICATE, ctl, g)
      else if KB_MAX_KEYS <=? key_num c then (KB_ERR_FULL, ctl, g)
      else
        let '(ptr, pool', m') := mpool_alloc (key_pool g) (key_pool_links g) in
        if ptr =? 0 then (KB_ERR_NOMEM, ctl, g)
        else
          let node := mk_que name (cfg_key_id cf) (cfg_hw cf) in
          (KB_OK,
           Some (mk_ctl (backend_mode c) (keyboard_ops c) (keyboard_cb c)
                        (head c ++ [node]) (u16 (key_num c + 1))
                        (keyboard_pool c)),
           mk_globals (key_pool_buf g) pool' m' (key_rt g))
    end
  | _, _ => (KB_ERR_PARAM, ctl, g)
  end.

(** The conditions under which registration fails, in the order the code
    tests them. *)
Definition kb_cfg_out_of_range (c : keyboard_control_t) (cf : keyboard_key_cfg_t) : Prop :=
  backend_mode c = KB_BACKEND_MATRIX
  /\ (KB_MATRIX_MAX_ROW <= matrix_row (cfg_hw cf)
      \/ KB_MATRIX_MAX_COL <= matrix_col (cfg_hw cf)).

Definition kb_cfg_duplicate (c : keyboard_control_t) (cf : keyboard_key_cfg_t) : Prop :=
  Exists (fun n => key_id n = cfg_key_id cf
                   \/ kb_hw_equal (backend_mode c) (hw n) (cfg_hw cf) = true)
         (head c).

(** ** Driving the API *)

Inductive kb_call :=
  | CallRegister (cfg : option keyboard_key_cfg_t)
  | CallPoll (dt_ms : Z) (hwst : kb_hw).

Definition kb_do_call (call : kb_call) (st : option keyboard_control_t * kb_globals)
    : option keyboard_control_t * kb_globals :=
  let '(ctl, g) := st in
  match call with
  | CallRegister cfg =>
    let '(_, ctl', g') := keyboard_register_key cfg ctl g in (ctl', g')
  | CallPoll dt_ms hwst =>
    let '(rts, _) := keyboard_poll ctl dt_ms hwst (key_rt g) in
    (ctl, mk_globals (key_pool_buf g) (key_pool g) (key_pool_links g) rts)
  end.

Definition kb_do_calls (calls : list kb_call)
    (st : option keyboard_control_t * kb_globals)
    : option keyboard_control_t * kb_globals :=
  fold_left (fun st call => kb_do_call call st) calls st.

(** The scratch capacity as a list length. *)
Definition cap : nat := Z.to_nat PENDING_CAP.

(** ** The scan pass without the capacity bound *)

(** The same traversal as [kb_scan_loop], collecting every event each key
    produces: the events of a tick in emission order. *)
Fixpoint kb_scan_all (ctl : keyboard_control_t) (dt_ms : Z) (hwst : kb_hw)
    (snapshot : list Z) (nodes : list keyboard_que_t) (idx : nat)
    (key_rt : list kb_key_runtime_t)
    : list kb_key_runtime_t * list kb_pending_evt_t :=
  match nodes with
  | [] => (key_rt, [])
  | node :: rest =>
    if (Z.of_nat idx <? key_num ctl) && (Z.of_nat idx <? KB_MAX_KEYS) then
      match key_rt !! idx with
      | Some rt =>
        let raw := kb_read_raw ctl hwst node idx snapshot in
        let '(key_rt', evs) :=
          kb_scan_all ctl dt_ms hwst snapshot rest (S idx)
                      (<[idx := kb_key_next dt_ms raw rt]> key_rt) in
        (key_rt', map (mk_pending node) (kb_key_events dt_ms raw rt) ++ evs)
      | None => (key_rt, [])
      end
    else (key_rt, [])
  end.

(** ** Invariants of the runtime records *)

Definition click_count_ok (rt : kb_key_runtime_t) : Prop :=
  click_count rt = 0 \/ click_count rt = 1.

(** The debounce accumulator stays below the threshold plus the largest
    tick delta [D]. *)
Definition debounce_below (D : Z) (rt : kb_key_runtime_t) : Prop :=
  0 <= debounce_ms rt < KB_DEBOUNCE_MS + D.

(** Every poll of [calls] has a delta of at most [D]. *)
Definition poll_deltas_upto (D : Z) (calls : list kb_call) : Prop :=
  Forall (fun call => match call with
                      | CallPoll dt_ms _ => 0 <= dt_ms <= D
                      | CallRegister _ => True
                      end) calls.

(** ** Poll-time failures *)

(** The NULL tests on the operation table made while polling: [read_pin]
    and the matrix triple in [kb_read_raw], [scan_snapshot] in
    [keyboard_poll]. *)
Definition kb_missing_capability (c : keyboard_control_t) : bool :=
  if backend_mode c =? KB_BACKEND_GPIO then negb (read_pin (keyboard_ops c))
  else if backend_mode c =? KB_BACKEND_MATRIX then
    negb (matrix_select_row (keyboard_ops c))
    || negb (matrix_read_col (keyboard_ops c))
    || negb (matrix_unselect_row (keyboard_ops c))
  else if backend_mode c =? KB_BACKEND_CUSTOM then
    negb (scan_snapshot (keyboard_ops c))
  else false.

(** The state the API starts from once [keyboard_init] has run. *)
Definition kb_after_init (ctl : option keyboard_control_t)
    (ops : option keyboard_ops_t) (cb : option keyboard_cb_t) (g : kb_globals)
    : option keyboard_control_t * kb_globals :=
  (snd (fst (keyboard_init ctl ops cb g)), snd (keyboard_init ctl ops cb g)).

(** ** A key alone in the registry *)

(** The raw level that a tick samples for [node] at index 0, or [None] when
    [keyboard_poll] returns before the scan (custom backend without a
    snapshot function, or whose snapshot call fails). *)
Definition kb_first_raw (c : keyboard_control_t) (node : keyboard_que_t)
    (hwst : kb_hw) : option Z :=
  if backend_mode c =? KB_BACKEND_CUSTOM then
    if scan_snapshot (keyboard_ops c) then
      let '(ret, buf) := hw_scan_snapshot hwst (key_num c) in
      if ret =? 0 then Some (kb_read_raw c hwst node 0 buf) else None
    else None
  else Some (kb_read_raw c hwst node 0 []).

(** [node] is the only registered key and a callback is installed. *)
Definition kb_single_key (c : keyboard_control_t) (node : keyboard_que_t) : Prop :=
  head c = [node] /\ 1 <= key_num c /\ on_event (keyboard_cb c) = true.

(** Every tick of [ticks] has delta [dt_ms], and the levels sampled for
    [node] are [raws], in order. *)
Definition kb_levels (c : keyboard_control_t) (node : keyboard_que_t)
    (dt_ms : Z) (ticks : list (Z * kb_hw)) (raws : list Z) : Prop :=
  Forall2 (fun tick raw => fst tick = dt_ms
                           /\ kb_first_raw c node (snd tick) = Some raw)
          ticks raws.

(** The event kinds delivered on each tick. *)
Definition kb_kinds (evss : list (list kb_delivery)) : list (list kb_event_t) :=
  map (map dl_evt) evss.

(** ** Sample configurations *)

(** A pin-backend control block with one key on pin 0, and a tick on which
    every pin reads [level]. *)
Definition demo_node : keyboard_que_t := mk_que "K_A" 1 (mk_hw 0 0).

Definition demo_ops : keyboard_ops_t :=
  mk_ops true false false false false false false false.

Definition demo_ctl : keyboard_control_t :=
  mk_ctl KB_BACKEND_GPIO demo_ops (mk_cb true) [demo_node] 1 true.

Definition demo_tick (dt_ms level : Z) : Z * kb_hw :=
  (dt_ms, mk_kb_hw (fun _ => level) (fun _ _ => 0) (fun _ => (0, []))).

(** A matrix-backend start-up: uninitialised control block, the operation
    table of a matrix keyboard, a callback, and the globals as the loader
    leaves them, with [key_pool_buf] at some address. *)
Definition demo_blank_ctl : keyboard_control_t :=
  mk_ctl 0 (mk_ops false false false false false false false false)
         (mk_cb false) [] 0 false.

Definition demo_matrix_ops : keyboard_ops_t :=
  mk_ops false true true true false false false false.

Definition demo_globals : kb_globals :=
  mk_globals 536870912 (mk_pool 0 0 0 0) (fun _ => 0) key_rt_zero.

Definition demo_cfg : keyboard_key_cfg_t := mk_cfg (Some "K_A"%string) 1 (mk_hw 0 0).

Definition demo_idle_hw : kb_hw :=
  mk_kb_hw (fun _ => 0) (fun _ _ => 0) (fun _ => (0, [])).

(** A pin-backend control block whose [read_pin] is NULL, and a
    custom-backend control block whose [scan_snapshot] is NULL. *)
Definition demo_ctl_no_read_pin : keyboard_control_t :=
  mk_ctl KB_BACKEND_GPIO
         (mk_ops false false false false false false false false)
         (mk_cb true) [demo_node] 1 true.

Definition demo_ctl_no_snapshot : keyboard_control_t :=
  mk_ctl KB_BACKEND_CUSTOM
         (mk_ops false false false false false false false false)
         (mk_cb true) [demo_node] 1 true.

(** ** Auxiliary notions used to state the timing results *)

(** The test that guards a stable-level flip (line 305). *)
Definition kb_flips (rt : kb_key_runtime_t) : bool :=
  (KB_DEBOUNCE_MS <=? debounce_ms rt) && negb (stable rt =? raw_last rt).

(** The fields read and written by the timer step. *)
Definition gest_of (rt : kb_key_runtime_t) : Z * Z * Z * Z * Z * Z :=
  (stable rt, long_sent rt, click_count rt,
   press_ms rt, repeat_ms rt, click_wait_ms rt).

(** [n] timer steps in a row, with the events of each. *)
Fixpoint kb_gest_run (dt_ms : Z) (n : nat) (rt : kb_key_runtime_t)
    : kb_key_runtime_t * list (list kb_event_t) :=
  match n with
  | O => (rt, [])
  | S n' =>
    let '(rt1, evs) := kb_gest_step dt_ms rt in
    let '(rt2, evss) := kb_gest_run dt_ms n' rt1 in
    (rt2, evs :: evss)
  end.

(** The least number of ticks of [dt_ms] whose sum reaches [t]. *)
Definition ticks_for (t dt_ms : Z) : nat := Z.to_nat ((t + dt_ms - 1) / dt_ms).

(** The events of a held key. *)
Definition hold_evt (e : kb_event_t) : Prop :=
  e = KB_EVT_LONGPRESS \/ e = KB_EVT_REPEAT.

(** Prepends [pre] to the events of the first tick. *)
Definition cons_first {A} (pre : list A) (l : list (list A)) : list (list A) :=
  match l with
  | [] => []
  | x :: l' => (pre ++ x) :: l'
  end.

(** ** The events of a held key, tick by tick *)

(** Ticks are numbered from 1, the tick that recognises the press.  With a
    fixed delta the press time after tick [i] is [i * dt_ms]. *)
Definition hold_longpress_due (dt_ms : Z) (i : nat) : bool :=
  (i =? ticks_for KB_LONGPRESS_MS dt_ms)%nat.

Definition hold_repeat_due (dt_ms : Z) (i : nat) : bool :=
  let n0 := ticks_for KB_REPEAT_START_MS dt_ms in
  let p := ticks_for KB_REPEAT_PERIOD_MS dt_ms in
  (n0 <=? i)%nat && ((i - n0 + 1) mod p =? 0)%nat.

Definition hold_events (dt_ms : Z) (i : nat) : list kb_event_t :=
  (if hold_longpress_due dt_ms i then [KB_EVT_LONGPRESS] else [])
  ++ (if hold_repeat_due dt_ms i then [KB_EVT_REPEAT] else []).

(** The repeat accumulator after tick [n] of a press. *)
Definition hold_repeat_ms (dt_ms : Z) (n : nat) : Z :=
  let n0 := ticks_for KB_REPEAT_START_MS dt_ms in
  let p := ticks_for KB_REPEAT_PERIOD_MS dt_ms in
  if (n0 <=? n)%nat then Z.of_nat ((n - n0 + 1) mod p) * dt_ms else 0.

(** ** Convenience registration *)

(** [keyboard_register_matrix] fills a local descriptor field by field;
    [row] and [col] are the two bytes of the union. *)
Definition keyboard_register_matrix (row col : Z) (key_name : option string)
    (key_id : Z) (ctl : option keyboard_control_t) (g : kb_globals)
    : Z * option keyboard_control_t * kb_globals :=
  keyboard_register_key (Some (mk_cfg key_name key_id (mk_hw row col))) ctl g.

(** [keyboard_register_gpio] writes [cfg.hw.gpio_pin] only, the first byte
    of the union; the second byte of the local [cfg] keeps what the stack
    held, [stale]. *)
Definition keyboard_register_gpio (pin : Z) (key_name : option string)
    (key_id : Z) (ctl : option keyboard_control_t) (g : kb_globals) (stale : Z)
    : Z * option keyboard_control_t * kb_globals :=
  keyboard_register_key (Some (mk_cfg key_name key_id (mk_hw pin stale))) ctl g.

(** A matrix key as the arguments of [keyboard_register_matrix], and the
    node a successful registration links. *)
Record kb_matrix_key := mk_matrix_key {
  mx_row : Z;
  mx_col : Z;
  mx_name : string;
  mx_id : Z
}.

Definition kb_matrix_node (k : kb_matrix_key) : keyboard_que_t :=
  mk_que (mx_name k) (mx_id k) (mk_hw (mx_row k) (mx_col k)).

(** [keyboard_register_matrix] called once per key, in order, with the
    code of each call. *)
Fixpoint kb_register_matrix_all (keys : list kb_matrix_key)
    (ctl : option keyboard_control_t) (g : kb_globals)
    : list Z * option keyboard_control_t * kb_globals :=
  match keys with
  | [] => ([], ctl, g)
  | k :: rest =>
    let '(code, ctl1, g1) :=
      keyboard_register_matrix (mx_row k) (mx_col k) (Some (mx_name k)) (mx_id k) ctl g in
    let '(codes, ctl2, g2) := kb_register_matrix_all rest ctl1 g1 in
    (code :: codes, ctl2, g2)
  end.

(** ** Registry consistency *)

(** The key count is the length of the chain and at most [KB_MAX_KEYS];
    no two nodes share an id or a hardware location under the backend's
    rule; every node lies inside the matrix. *)
Definition kb_registry_ok (c : keyboard_control_t) : Prop :=
  key_num c = Z.of_nat (length (head c))
  /\ key_num c <= KB_MAX_KEYS
  /\ NoDup (map key_id (head c))
  /\ (forall i j a b,
        head c !! i = Some a -> head c !! j = Some b -> i <> j ->
        kb_hw_equal (backend_mode c) (hw a) (hw b) = false)
  /\ Forall (fun n => matrix_row (hw n) < KB_MATRIX_MAX_ROW
                      /\ matrix_col (hw n) < KB_MATRIX_MAX_COL) (head c).

(** ** The scan pass key by key *)

(** The snapshot buffer that the scan pass of a tick reads, or [None] when
    [keyboard_poll] returns before the scan. *)
Definition kb_snapshot (c : keyboard_control_t) (hwst : kb_hw) : option (list Z) :=
  if backend_mode c =? KB_BACKEND_CUSTOM then
    if scan_snapshot (keyboard_ops c) then
      let '(ret, buf) := hw_scan_snapshot hwst (key_num c) in
      if ret =? 0 then Some buf else None
    else None
  else Some [].

(** What the keys of [nodes], at indices [idx], [idx + 1], ..., deliver on
    one tick when each is taken with its own record of [key_rt]. *)
Fixpoint kb_keys_deliver (c : keyboard_control_t) (dt_ms : Z) (hwst : kb_hw)
    (snapshot : list Z) (nodes : list keyboard_que_t) (idx : nat)
    (key_rt : list kb_key_runtime_t) : list kb_delivery :=
  match nodes with
  | [] => []
  | node :: rest =>
    match key_rt !! idx with
    | Some rt =>
      map (mk_delivery (keyname node) (key_id node))
          (kb_key_events dt_ms (kb_read_raw c hwst node idx snapshot) rt)
      ++ kb_keys_deliver c dt_ms hwst snapshot rest (S idx) key_rt
    | None => []
    end
  end.

(** ** More invariants of the runtime records *)

(** Levels and the long-press flag are 0 or 1; a released key has its press
    timers and its long-press flag cleared; the repeat accumulator is below
    the repeat period and the click wait below the double-click window; no
    click wait runs without a pending click. *)
Definition kb_rt_ok (rt : kb_key_runtime_t) : Prop :=
  (raw_last rt = 0 \/ raw_last rt = 1)
  /\ (stable rt = 0 \/ stable rt = 1)
  /\ (long_sent rt = 0 \/ long_sent rt = 1)
  /\ (stable rt = 0 -> long_sent rt = 0 /\ press_ms rt = 0 /\ repeat_ms rt = 0)
  /\ 0 <= repeat_ms rt < KB_REPEAT_PERIOD_MS
  /\ 0 <= click_wait_ms rt < KB_DOUBLE_CLICK_MS
  /\ (click_count rt = 0 -> click_wait_ms rt = 0)
  /\ 0 <= press_ms rt < 2 ^ 32
  /\ 0 <= debounce_ms rt < 2 ^ 32.

(** ** Edges *)

Definition kb_is_edge (e : kb_event_t) : bool :=
  match e with
  | KB_EVT_PRESS | KB_EVT_RELEASE => true
  | _ => false
  end.

(** [evs] is PRESS, RELEASE, PRESS, ... when the stable level [s] is 0 and
    RELEASE, PRESS, RELEASE, ... otherwise. *)
Fixpoint kb_alternates (s : Z) (evs : list kb_event_t) : Prop :=
  match evs with
  | [] => True
  | e :: rest =>
    e = (if s =? 0 then KB_EVT_PRESS else KB_EVT_RELEASE)
    /\ kb_alternates (if s =? 0 then 1 else 0) rest
  end.

(** ** The pool declaration macros *)

(** [MPOOL_DEFINE(name, type, count)]: the length of the array [name_buf]
    (a 32-bit unsigned expression) and the initial value of [name]. *)
Definition MPOOL_DEFINE_buf_len (sizeof_type count : Z) : Z :=
  u32 (count * MPOOL_ALIGN_UP (sizeof_type + SIZEOF_MPOOL_NODE)).

Definition MPOOL_DEFINE_pool (sizeof_type count : Z) : mpool_t :=
  mk_pool 0 (u16 sizeof_type) (u16 count) 0.

(** [MPOOL_INIT(name)] with [name_buf] at address [buf]. *)
Definition MPOOL_INIT (buf : Z) (name : mpool_t) (m : links) : mpool_t * links :=
  mpool_init buf (blk_size name) (total name) m.

(** The handle of block number [i] of a pool laid out at [buf]. *)
Definition mpool_handle (buf stride : Z) (i : Z) : Z :=
  buf + i * stride + SIZEOF_MPOOL_NODE.

(** A tick of the matrix demo: every column reads [level]. *)
Definition demo_matrix_tick (level : Z) : kb_hw :=
  mk_kb_hw (fun _ => 0) (fun _ _ => level) (fun _ => (0, [])).

(** ** Reachable driver states *)

(** What holds of the control block and the pool once [keyboard_init] has
    succeeded: a consistent registry under the compiled backend, and a
    pool with one live handle per registered key. *)
Definition kb_state_ok (st : option keyboard_control_t * kb_globals) : Prop :=
  exists c live fl,
    fst st = Some c /\ kb_registry_ok c
    /\ backend_mode c = KB_BACKEND_MODE /\ keyboard_pool c = true
    /\ pool_inv (key_pool (snd st)) (key_pool_links (snd st)) live fl
    /\ Z.of_nat (length live) = key_num c
    /\ total (key_pool (snd st)) = KB_MAX_KEYS.

(** ** Pool layout *)

(** Every block, free or live, is one of the blocks [B]. *)
Definition pool_within (B : list Z) (live fl : list Z) : Prop :=
  Forall (fun a => a ∈ B) (fl ++ map (fun h => h - SIZEOF_MPOOL_NODE) live).

(** ** One key among several *)

(** The deliveries that carry the id [id], and the levels sampled on each
    tick for the node at index [i] (the pin and matrix backends read no
    snapshot). *)
Definition kb_deliveries_of (id : Z) (evs : list kb_delivery) : list kb_delivery :=
  List.filter (fun d => dl_key_id d =? id) evs.

Definition kb_samples (c : keyboard_control_t) (node : keyboard_que_t) (i : nat)
    (ticks : list (Z * kb_hw)) : list Z :=
  map (fun tick => kb_read_raw c (snd tick) node i []) ticks.

(** ** Records of keys not yet registered *)

(** Every record from the key count on is the zero record. *)
Definition kb_spare_records_zero (st : option keyboard_control_t * kb_globals) : Prop :=
  exists c,
    fst st = Some c /\ 0 <= key_num c
    /\ forall i, key_num c <= Z.of_nat i -> (i < 16)%nat ->
                 key_rt (snd st) !! i = Some rt_zero.

(** ** Proof tactics *)

(** Case analysis on every integer test of the goal. *)
Ltac zsimpl :=
  cbn [raw_last stable long_sent click_count debounce_ms press_ms
       repeat_ms click_wait_ms negb andb orb fst snd map pe_evt
       set_raw_last set_stable set_long_sent set_click_count
       set_debounce_ms set_press_ms set_repeat_ms set_click_wait_ms] in *.

Ltac zcases :=
  repeat (zsimpl;
          match goal with
          | |- context [Z.eqb ?a ?b] => destruct (Z.eqb_spec a b)
          | |- context [Z.ltb ?a ?b] => destruct (Z.ltb_spec a b)
          | |- context [Z.leb ?a ?b] => destruct (Z.leb_spec a b)
          end);
  zsimpl.

Ltac split_tests :=
  repeat match goal with
         | |- context [if ?b then _ else _] => destruct b
         end.

Ltac forall_solve :=
  repeat first [apply Forall_nil | apply Forall_cons]; auto.

(** Replaces every 32-bit reduction by a number within the range. *)
Ltac u32_bounds :=
  repeat match goal with
         | |- context [u32 ?x] =>
           let H := fresh "Hu" in
           pose proof (Z.mod_pos_bound x (2 ^ 32) eq_refl) as H;
           change (x mod 2 ^ 32) with (u32 x) in H;
           generalize dependent (u32 x); intros
         | H : context [u32 ?x] |- _ =>
           let H := fresh "Hu" in
           pose proof (Z.mod_pos_bound x (2 ^ 32) eq_refl) as H;
           change (x mod 2 ^ 32) with (u32 x) in H;
           generalize dependent (u32 x); intros
         end.

(** Membership in a list given by its elements. *)
Ltac elem_solve :=
  solve [repeat first [apply list_elem_of_here | apply list_elem_of_further]].


(** * Proofs *)

(** ** The embedding at work *)

Example keyboard_init_example :
  let r := keyboard_init (Some demo_blank_ctl) (Some demo_matrix_ops)
                         (Some (mk_cb true)) demo_globals in
  fst (fst r) = KB_OK
  /\ total (key_pool (snd r)) = 16 /\ used (key_pool (snd r)) = 0
  /\ free_list (key_pool (snd r)) = key_pool_buf demo_globals
  /\ free_chain 16 (key_pool_links (snd r)) (free_list (key_pool (snd r)))
     = Some (blocks (key_pool_buf demo_globals) 16 16).
Proof. repeat split. Qed.

Example register_example :
  let st := kb_after_init (Some demo_blank_ctl) (Some demo_matrix_ops)
                          (Some (mk_cb true)) demo_globals in
  let r1 := keyboard_register_key (Some demo_cfg) (fst st) (snd st) in
  let r2 := keyboard_register_key (Some demo_cfg) (snd (fst r1)) (snd r1) in
  let r3 := keyboard_register_key (Some (mk_cfg (Some "K_B"%string) 2 (mk_hw 9 0)))
                                  (snd (fst r2)) (snd r2) in
  (fst (fst r1), fst (fst r2), fst (fst r3))
  = (KB_OK, KB_ERR_DUPLICATE, KB_ERR_RANGE)
  /\ used (key_pool (snd r3)) = 1.
Proof. repeat split. Qed.

Example click_example :
  concat (snd (kb_key_run 10 (replicate 5 1 ++ replicate 40 0) rt_zero))
  = [KB_EVT_PRESS; KB_EVT_RELEASE; KB_EVT_CLICK].
Proof. reflexivity. Qed.

Example double_click_example :
  concat (snd (kb_key_run 10 (replicate 5 1 ++ replicate 10 0
                              ++ replicate 5 1 ++ replicate 40 0) rt_zero))
  = [KB_EVT_PRESS; KB_EVT_RELEASE; KB_EVT_PRESS; KB_EVT_RELEASE;
     KB_EVT_DOUBLE_CLICK].
Proof. reflexivity. Qed.

Example long_press_example :
  concat (snd (kb_key_run 10 (replicate 90 1 ++ replicate 40 0) rt_zero))
  = [KB_EVT_PRESS; KB_EVT_REPEAT; KB_EVT_REPEAT; KB_EVT_REPEAT;
     KB_EVT_LONGPRESS; KB_EVT_REPEAT; KB_EVT_REPEAT;
     KB_EVT_RELEASE; KB_EVT_LONGPRESS_RELEASE].
Proof. reflexivity. Qed.

Example pool_example :
  let '(pool0, m0) := mpool_init 536870912 12 2 (fun _ => 0) in
  let '(p1, pool1, m1) := mpool_alloc pool0 m0 in
  let '(p2, pool2, m2) := mpool_alloc pool1 m1 in
  let '(p3, pool3, m3) := mpool_alloc pool2 m2 in
  let '(pool4, m4) := mpool_free pool3 m3 p1 in
  let '(p5, pool5, m5) := mpool_alloc pool4 m4 in
  (p1, p2, p3, p5) = (536870916, 536870932, 0, 536870916)
  /\ (used pool2, used pool4, used pool5) = (2, 1, 2).
Proof. repeat split. Qed.

(** ** The scratch sequence *)

Section Scratch.

Lemma kb_record_take node evt pending :
  (length pending <= cap)%nat ->
  kb_record node evt pending = take cap (pending ++ [mk_pending node evt]).
Proof.
  intros Hlen. unfold kb_record.
  destruct (Z.ltb_spec (Z.of_nat (length pending)) PENDING_CAP) as [Hlt|Hge].
  - rewrite take_ge; [reflexivity|].
    rewrite length_app. simpl. unfold cap. lia.
  - assert (length pending = cap) as Heq by (unfold cap in *; lia).
    rewrite take_app_le by lia. rewrite take_ge by lia. reflexivity.
Qed.

Lemma take_take_app {A} (n : nat) (l1 l2 : list A) :
  take n (take n l1 ++ l2) = take n (l1 ++ l2).
Proof.
  destruct (Nat.le_gt_cases (length l1) n) as [Hle|Hgt].
  - rewrite (take_ge l1) by lia. reflexivity.
  - rewrite take_app_le by (rewrite length_take; lia).
    rewrite take_take, Nat.min_id.
    rewrite (take_app_le l1) by lia. reflexivity.
Qed.

Lemma length_take_cap {A} (l : list A) : (length (take cap l) <= cap)%nat.
Proof. rewrite length_take. lia. Qed.

End Scratch.

(** ** One tick of one key: debounce, stabilise, timers *)

Section KeyTick.

Variable node : keyboard_que_t.

Lemma kb_record_nil n evt : kb_record n evt [] = [mk_pending n evt].
Proof. reflexivity. Qed.

Lemma kb_record_one n e1 evt : kb_record n evt [e1] = [e1; mk_pending n evt].
Proof. reflexivity. Qed.

Lemma kb_record_length n evt p :
  (length p <= cap)%nat -> (length (kb_record n evt p) <= cap)%nat.
Proof.
  intros H. rewrite kb_record_take by exact H. apply length_take_cap.
Qed.

Lemma kb_record_twice n e1 e2 p :
  (length p <= cap)%nat ->
  kb_record n e2 (kb_record n e1 p)
  = take cap (p ++ [mk_pending n e1; mk_pending n e2]).
Proof.
  intros H. rewrite (kb_record_take n e2) by (apply kb_record_length; exact H).
  rewrite kb_record_take by exact H. rewrite take_take_app.
  rewrite <- app_assoc. reflexivity.
Qed.

Lemma kb_stabilize_take rt p :
  (length p <= cap)%nat ->
  kb_stabilize node rt p
  = (fst (kb_stab_step rt),
     take cap (p ++ map (mk_pending node) (snd (kb_stab_step rt)))).
Proof.
  intros H. unfold kb_stab_step, kb_stabilize.
  split_tests; cbn [fst snd map pe_evt];
    rewrite ?kb_record_nil, ?kb_record_one; cbn [fst snd map pe_evt];
    rewrite ?kb_record_twice, ?kb_record_take by exact H;
    rewrite ?app_nil_r, ?take_ge by exact H; reflexivity.
Qed.

Lemma kb_gesture_take dt rt p :
  (length p <= cap)%nat ->
  kb_gesture dt node rt p
  = (fst (kb_gest_step dt rt),
     take cap (p ++ map (mk_pending node) (snd (kb_gest_step dt rt)))).
Proof.
  intros H. unfold kb_gest_step, kb_gesture.
  split_tests; cbn [fst snd map pe_evt];
    rewrite ?kb_record_nil, ?kb_record_one; cbn [fst snd map pe_evt];
    rewrite ?kb_record_twice, ?kb_record_take by exact H;
    rewrite ?app_nil_r, ?take_ge by exact H; reflexivity.
Qed.

(** The loop body appends the key's events to the scratch sequence and
    cuts the result at the capacity; the runtime record it leaves does not
    depend on the scratch sequence. *)
Lemma kb_scan_key_take dt raw rt p :
  (length p <= cap)%nat ->
  kb_scan_key dt raw node rt p
  = (kb_key_next dt raw rt,
     take cap (p ++ map (mk_pending node) (kb_key_events dt raw rt))).
Proof.
  intros H. unfold kb_scan_key, kb_key_next, kb_key_events.
  rewrite kb_stabilize_take by exact H.
  destruct (kb_stab_step (kb_debounce dt raw rt)) as [rt1 e1]; cbn [fst snd].
  rewrite kb_gesture_take by apply length_take_cap.
  destruct (kb_gest_step dt rt1) as [rt2 e2]; cbn [fst snd].
  rewrite take_take_app, map_app, app_assoc. reflexivity.
Qed.

End KeyTick.

(** ** Ticks without a flip *)

Section Quiet.

Lemma ticks_for_spec t dt (n : nat) :
  0 < dt -> 0 < t -> (t <= Z.of_nat n * dt <-> (ticks_for t dt <= n)%nat).
Proof.
  intros Hdt Ht. unfold ticks_for.
  assert (0 <= (t + dt - 1) / dt) by (apply Z.div_pos; lia).
  pose proof (Z.div_mod (t + dt - 1) dt ltac:(lia)) as Hdm.
  pose proof (Z.mod_pos_bound (t + dt - 1) dt Hdt) as Hmb.
  split; intros H1.
  - apply Nat2Z.inj_le. rewrite Z2Nat.id by assumption.
    apply Z.lt_succ_r. apply Z.div_lt_upper_bound; [lia|]. nia.
  - apply Nat2Z.inj_le in H1. rewrite Z2Nat.id in H1 by assumption. nia.
Qed.

Lemma ticks_for_pos t dt : 0 < dt -> 0 < t -> (1 <= ticks_for t dt)%nat.
Proof.
  intros Hdt Ht.
  destruct (ticks_for t dt) eqn:E; [|lia].
  pose proof (proj2 (ticks_for_spec t dt 0 Hdt Ht)) as H. rewrite E in H.
  specialize (H (Nat.le_refl _)). lia.
Qed.

Lemma gest_of_debounce dt raw rt : gest_of (kb_debounce dt raw rt) = gest_of rt.
Proof. unfold kb_debounce. destruct rt. zcases; reflexivity. Qed.

Lemma gest_step_db dt rt :
  raw_last (fst (kb_gest_step dt rt)) = raw_last rt
  /\ debounce_ms (fst (kb_gest_step dt rt)) = debounce_ms rt
  /\ stable (fst (kb_gest_step dt rt)) = stable rt.
Proof.
  unfold kb_gest_step, kb_gesture. destruct rt. zcases; auto.
Qed.

Lemma gest_step_congr dt a b :
  gest_of a = gest_of b ->
  gest_of (fst (kb_gest_step dt a)) = gest_of (fst (kb_gest_step dt b))
  /\ snd (kb_gest_step dt a) = snd (kb_gest_step dt b).
Proof.
  unfold gest_of. destruct a, b. cbn. intros [= -> -> -> -> -> ->].
  unfold kb_gest_step, kb_gesture. zcases; auto.
Qed.

Lemma stab_step_quiet rt : kb_flips rt = false -> kb_stab_step rt = (rt, []).
Proof.
  unfold kb_flips, kb_stab_step, kb_stabilize. intros ->. reflexivity.
Qed.

Lemma kb_key_events_length dt raw rt :
  (length (kb_key_events dt raw rt) <= 3)%nat.
Proof.
  unfold kb_key_events, kb_stab_step, kb_stabilize, kb_gest_step, kb_gesture,
    kb_debounce, KB_DEBOUNCE_MS.
  destruct rt. zcases; vm_compute; lia.
Qed.

(** A key alone in the registry never fills the scratch sequence. *)
Lemma kb_key_tick_eq dt raw rt :
  kb_key_tick dt raw rt = (kb_key_next dt raw rt, kb_key_events dt raw rt).
Proof.
  unfold kb_key_tick. rewrite kb_scan_key_take by (cbn; lia).
  cbn [app]. rewrite take_ge.
  - rewrite map_map. cbn [pe_evt]. rewrite map_id. reflexivity.
  - rewrite length_map. pose proof (kb_key_events_length dt raw rt).
    unfold cap, PENDING_CAP, KB_MAX_KEYS. lia.
Qed.

Lemma kb_key_run_cons dt r rs rt :
  kb_key_run dt (r :: rs) rt
  = (fst (kb_key_run dt rs (kb_key_next dt r rt)),
     kb_key_events dt r rt :: snd (kb_key_run dt rs (kb_key_next dt r rt))).
Proof.
  cbn [kb_key_run]. rewrite kb_key_tick_eq.
  destruct (kb_key_run dt rs (kb_key_next dt r rt)). reflexivity.
Qed.

Lemma kb_key_run_app dt l1 l2 rt :
  kb_key_run dt (l1 ++ l2) rt
  = (fst (kb_key_run dt l2 (fst (kb_key_run dt l1 rt))),
     snd (kb_key_run dt l1 rt) ++ snd (kb_key_run dt l2 (fst (kb_key_run dt l1 rt)))).
Proof.
  revert rt. induction l1 as [|r l1 IH]; intros rt.
  - cbn [app kb_key_run fst snd]. destruct (kb_key_run dt l2 rt); reflexivity.
  - rewrite <- app_comm_cons, !kb_key_run_cons, IH. reflexivity.
Qed.

Lemma kb_key_run_length dt raws rt :
  length (snd (kb_key_run dt raws rt)) = length raws.
Proof.
  revert rt. induction raws as [|r rs IH]; intros rt; [reflexivity|].
  rewrite kb_key_run_cons. cbn [snd length]. rewrite IH. reflexivity.
Qed.

Lemma kb_gest_run_S dt n rt :
  kb_gest_run dt (S n) rt
  = (fst (kb_gest_run dt n (fst (kb_gest_step dt rt))),
     snd (kb_gest_step dt rt) :: snd (kb_gest_run dt n (fst (kb_gest_step dt rt)))).
Proof.
  cbn [kb_gest_run]. destruct (kb_gest_step dt rt) as [rt1 e]. cbn [fst snd].
  destruct (kb_gest_run dt n rt1). reflexivity.
Qed.

Lemma kb_gest_run_add dt n m rt :
  kb_gest_run dt (n + m) rt
  = (fst (kb_gest_run dt m (fst (kb_gest_run dt n rt))),
     snd (kb_gest_run dt n rt) ++ snd (kb_gest_run dt m (fst (kb_gest_run dt n rt)))).
Proof.
  revert rt. induction n as [|n IH]; intros rt.
  - cbn [Nat.add kb_gest_run fst snd app]. destruct (kb_gest_run dt m rt); reflexivity.
  - cbn [Nat.add]. rewrite !kb_gest_run_S, IH. reflexivity.
Qed.

Lemma kb_gest_run_congr dt n a b :
  gest_of a = gest_of b ->
  gest_of (fst (kb_gest_run dt n a)) = gest_of (fst (kb_gest_run dt n b))
  /\ snd (kb_gest_run dt n a) = snd (kb_gest_run dt n b).
Proof.
  revert a b. induction n as [|n IH]; intros a b Hab; [split; auto|].
  rewrite !kb_gest_run_S. cbn [fst snd].
  destruct (gest_step_congr dt a b Hab) as [H1 H2].
  destruct (IH _ _ H1) as [H3 H4]. rewrite H2, H4. auto.
Qed.

Lemma kb_gest_run_db dt n rt :
  raw_last (fst (kb_gest_run dt n rt)) = raw_last rt
  /\ debounce_ms (fst (kb_gest_run dt n rt)) = debounce_ms rt
  /\ stable (fst (kb_gest_run dt n rt)) = stable rt.
Proof.
  revert rt. induction n as [|n IH]; intros rt; [auto|].
  rewrite kb_gest_run_S. cbn [fst].
  destruct (IH (fst (kb_gest_step dt rt))) as (H1 & H2 & H3).
  destruct (gest_step_db dt rt) as (H4 & H5 & H6).
  rewrite H1, H2, H3. auto.
Qed.

(** A tick on which the flip test fails runs the timer step only. *)
Lemma quiet_tick dt raw rt :
  kb_flips (kb_debounce dt raw rt) = false ->
  gest_of (kb_key_next dt raw rt) = gest_of (fst (kb_gest_step dt rt))
  /\ kb_key_events dt raw rt = snd (kb_gest_step dt rt)
  /\ raw_last (kb_key_next dt raw rt) = raw_last (kb_debounce dt raw rt)
  /\ debounce_ms (kb_key_next dt raw rt) = debounce_ms (kb_debounce dt raw rt).
Proof.
  intros Hq. unfold kb_key_next, kb_key_events.
  rewrite (stab_step_quiet _ Hq). cbn [fst snd app].
  destruct (gest_step_congr dt _ _ (gest_of_debounce dt raw rt)) as [H1 H2].
  destruct (gest_step_db dt (kb_debounce dt raw rt)) as (H3 & H4 & _).
  auto.
Qed.

Lemma gest_of_stable a b : gest_of a = gest_of b -> stable a = stable b.
Proof. unfold gest_of. congruence. Qed.

(** The raw level agrees with the stable level: no flip, for any number
    of ticks. *)
Lemma run_settled dt r n rt :
  raw_last rt = r -> stable rt = r ->
  gest_of (fst (kb_key_run dt (replicate n r) rt))
    = gest_of (fst (kb_gest_run dt n rt))
  /\ snd (kb_key_run dt (replicate n r) rt) = snd (kb_gest_run dt n rt)
  /\ raw_last (fst (kb_key_run dt (replicate n r) rt)) = r.
Proof.
  revert rt. induction n as [|n IH]; intros rt Hr Hs; [cbn; auto|].
  cbn [replicate]. rewrite kb_key_run_cons, kb_gest_run_S. cbn [fst snd].
  assert (kb_flips (kb_debounce dt r rt) = false) as Hq.
  { unfold kb_flips, kb_debounce. destruct rt; cbn in *; subst.
    zcases; cbn; try reflexivity; lia. }
  destruct (quiet_tick dt r rt Hq) as (H1 & H2 & H3 & _).
  assert (raw_last (kb_key_next dt r rt) = r) as Hr1.
  { rewrite H3. unfold kb_debounce. destruct rt; cbn in *; subst.
    zcases; cbn; try reflexivity; lia. }
  assert (stable (kb_key_next dt r rt) = r) as Hs1.
  { rewrite (gest_of_stable _ _ H1).
    destruct (gest_step_db dt rt) as (_ & _ & ->). exact Hs. }
  destruct (IH _ Hr1 Hs1) as (H4 & H5 & H6).
  destruct (kb_gest_run_congr dt n _ _ H1) as [H7 H8].
  rewrite H4, H5, H6, H7, H8, H2. auto.
Qed.

(** The raw level differs from the stable level and the accumulator stays
    below the threshold. *)
Lemma run_pending dt r n rt x :
  0 <= dt ->
  raw_last rt = r -> stable rt <> r -> debounce_ms rt = x -> 0 <= x ->
  x + Z.of_nat n * dt < KB_DEBOUNCE_MS ->
  gest_of (fst (kb_key_run dt (replicate n r) rt))
    = gest_of (fst (kb_gest_run dt n rt))
  /\ snd (kb_key_run dt (replicate n r) rt) = snd (kb_gest_run dt n rt)
  /\ raw_last (fst (kb_key_run dt (replicate n r) rt)) = r
  /\ debounce_ms (fst (kb_key_run dt (replicate n r) rt)) = x + Z.of_nat n * dt.
Proof.
  intros Hdt. revert rt x.
  induction n as [|n IH]; intros rt x Hr Hs Hx Hx0 Hlt; [cbn; split_and!; auto; lia|].
  cbn [replicate]. rewrite kb_key_run_cons, kb_gest_run_S. cbn [fst snd].
  assert (kb_debounce dt r rt = set_debounce_ms (x + dt) rt) as HD.
  { unfold kb_debounce, KB_DEBOUNCE_MS, u32 in *. destruct rt; cbn in *; subst.
    zcases; cbn; try lia. rewrite Z.mod_small by lia. reflexivity. }
  assert (kb_flips (kb_debounce dt r rt) = false) as Hq.
  { rewrite HD. unfold kb_flips, KB_DEBOUNCE_MS in *. destruct rt; cbn in *; subst.
    zcases; cbn; try reflexivity; lia. }
  destruct (quiet_tick dt r rt Hq) as (H1 & H2 & H3 & H4).
  rewrite HD in H3, H4. cbn [set_debounce_ms raw_last debounce_ms] in H3, H4.
  set (rt1 := kb_key_next dt r rt) in *.
  assert (stable rt1 <> r) as Hs1.
  { rewrite (gest_of_stable _ _ H1).
    destruct (gest_step_db dt rt) as (_ & _ & ->). exact Hs. }
  destruct (IH rt1 (x + dt)) as (H5 & H6 & H7 & H8); [congruence | exact Hs1 | exact H4 | lia | lia |].
  destruct (kb_gest_run_congr dt n _ _ H1) as [H9 H10].
  rewrite H5, H6, H7, H8, H9, H10, H2. split_and!; auto. lia.
Qed.

(** The raw level has just changed and is held: the accumulator restarts
    and, below the threshold, no flip occurs. *)
Lemma run_bounce dt s r n rt :
  0 <= dt ->
  raw_last rt = s -> stable rt = s -> r <> s ->
  (1 <= n)%nat -> (Z.of_nat n - 1) * dt < KB_DEBOUNCE_MS ->
  gest_of (fst (kb_key_run dt (replicate n r) rt))
    = gest_of (fst (kb_gest_run dt n rt))
  /\ snd (kb_key_run dt (replicate n r) rt) = snd (kb_gest_run dt n rt)
  /\ raw_last (fst (kb_key_run dt (replicate n r) rt)) = r
  /\ debounce_ms (fst (kb_key_run dt (replicate n r) rt)) = (Z.of_nat n - 1) * dt.
Proof.
  intros Hdt Hr Hs Hne Hn Hlt.
  destruct n as [|n]; [lia|].
  cbn [replicate]. rewrite kb_key_run_cons, kb_gest_run_S. cbn [fst snd].
  assert (kb_debounce dt r rt = set_debounce_ms 0 (set_raw_last r rt)) as HD.
  { unfold kb_debounce. destruct rt; cbn in *; subst.
    zcases; cbn; try reflexivity; congruence. }
  assert (kb_flips (kb_debounce dt r rt) = false) as Hq.
  { rewrite HD. unfold kb_flips, KB_DEBOUNCE_MS. destruct rt; cbn.
    zcases; cbn; try reflexivity; lia. }
  destruct (quiet_tick dt r rt Hq) as (H1 & H2 & H3 & H4).
  rewrite HD in H3, H4.
  cbn [set_debounce_ms set_raw_last raw_last debounce_ms] in H3, H4.
  set (rt1 := kb_key_next dt r rt) in *.
  assert (stable rt1 <> r) as Hs1.
  { rewrite (gest_of_stable _ _ H1).
    destruct (gest_step_db dt rt) as (_ & _ & ->). congruence. }
  destruct (run_pending dt r n rt1 0 Hdt H3 Hs1 H4 ltac:(lia) ltac:(lia))
    as (H5 & H6 & H7 & H8).
  destruct (kb_gest_run_congr dt n _ _ H1) as [H9 H10].
  rewrite H5, H6, H7, H8, H9, H10, H2. split_and!; auto. lia.
Qed.

(** The tick on which the accumulator reaches the threshold. *)
Lemma flip_tick dt r rt x :
  raw_last rt = r -> stable rt <> r -> debounce_ms rt = x ->
  0 <= x < KB_DEBOUNCE_MS -> KB_DEBOUNCE_MS <= x + dt < 2 ^ 32 ->
  let D := kb_debounce dt r rt in
  kb_flips D = true /\ raw_last D = r /\ gest_of D = gest_of rt
  /\ kb_key_next dt r rt = fst (kb_gest_step dt (fst (kb_stab_step D)))
  /\ kb_key_events dt r rt
     = snd (kb_stab_step D) ++ snd (kb_gest_step dt (fst (kb_stab_step D))).
Proof.
  intros Hr Hs Hx Hx0 Hx1 D.
  assert (D = set_debounce_ms (x + dt) rt) as HD.
  { unfold D, kb_debounce, KB_DEBOUNCE_MS, u32 in *. destruct rt; cbn in *; subst.
    zcases; cbn; try lia. rewrite Z.mod_small by lia. reflexivity. }
  split_and!.
  - rewrite HD. unfold kb_flips, KB_DEBOUNCE_MS in *. destruct rt; cbn in *; subst.
    zcases; cbn; try reflexivity; try lia; congruence.
  - rewrite HD. destruct rt; cbn in *; auto.
  - apply gest_of_debounce.
  - reflexivity.
  - unfold kb_key_events. fold D. destruct (kb_stab_step D). reflexivity.
Qed.

Lemma stab_flip_levels D :
  kb_flips D = true ->
  stable (fst (kb_stab_step D)) = raw_last D
  /\ raw_last (fst (kb_stab_step D)) = raw_last D
  /\ debounce_ms (fst (kb_stab_step D)) = debounce_ms D.
Proof.
  unfold kb_flips, kb_stab_step, kb_stabilize. intros ->.
  destruct D. zcases; auto.
Qed.

Lemma debounce_ticks_bounds dt :
  0 < dt < 2 ^ 32 ->
  let d := ticks_for KB_DEBOUNCE_MS dt in
  (1 <= d)%nat
  /\ (Z.of_nat d - 1) * dt < KB_DEBOUNCE_MS <= Z.of_nat d * dt
  /\ Z.of_nat d * dt < 2 ^ 32.
Proof.
  intros Hdt d. assert (0 < KB_DEBOUNCE_MS) as H20 by reflexivity.
  pose proof (ticks_for_pos KB_DEBOUNCE_MS dt ltac:(lia) H20) as Hpos. fold d in Hpos.
  pose proof (proj2 (ticks_for_spec KB_DEBOUNCE_MS dt d ltac:(lia) H20)) as Hge.
  fold d in Hge. specialize (Hge (Nat.le_refl _)).
  assert ((Z.of_nat d - 1) * dt < KB_DEBOUNCE_MS) as Hlt.
  { destruct (Z.lt_ge_cases ((Z.of_nat d - 1) * dt) KB_DEBOUNCE_MS) as [|Hc]; [assumption|].
    replace (Z.of_nat d - 1) with (Z.of_nat (d - 1)) in Hc by lia.
    apply (ticks_for_spec KB_DEBOUNCE_MS dt (d - 1) ltac:(lia) H20) in Hc.
    fold d in Hc. lia. }
  unfold KB_DEBOUNCE_MS in *. split_and!; try lia.
  destruct (Nat.eq_dec d 1%nat) as [->|Hne]; [lia|].
  assert (dt <= (Z.of_nat d - 1) * dt) by nia. nia.
Qed.

(** Going from one settled level to the other: [d] ticks of debounce with
    the timers of the old level still running, the flip on tick [d + 1],
    then the timers of the new level. *)
Lemma run_edge dt s r m rt :
  0 < dt < 2 ^ 32 ->
  raw_last rt = s -> stable rt = s -> r <> s ->
  let d := ticks_for KB_DEBOUNCE_MS dt in
  (d < m)%nat ->
  exists D,
    kb_flips D = true /\ raw_last D = r
    /\ gest_of D = gest_of (fst (kb_gest_run dt d rt))
    /\ snd (kb_key_run dt (replicate m r) rt)
       = snd (kb_gest_run dt d rt)
         ++ cons_first (snd (kb_stab_step D))
                       (snd (kb_gest_run dt (m - d) (fst (kb_stab_step D))))
    /\ gest_of (fst (kb_key_run dt (replicate m r) rt))
       = gest_of (fst (kb_gest_run dt (m - d) (fst (kb_stab_step D))))
    /\ raw_last (fst (kb_key_run dt (replicate m r) rt)) = r.
Proof.
  intros Hdt Hr Hs Hne d Hm.
  destruct (debounce_ticks_bounds dt Hdt) as (Hd1 & Hd2 & Hd3). fold d in Hd1, Hd2, Hd3.
  assert (replicate m r = replicate d r ++ r :: replicate (m - d - 1) r) as ->.
  { replace m with (d + S (m - d - 1))%nat at 1 by lia.
    rewrite replicate_add. reflexivity. }
  rewrite kb_key_run_app. cbn [fst snd].
  destruct (run_bounce dt s r d rt ltac:(lia) Hr Hs Hne Hd1 ltac:(lia))
    as (A1 & A2 & A3 & A4).
  set (rtA := fst (kb_key_run dt (replicate d r) rt)) in *.
  assert (stable rtA <> r) as HsA.
  { rewrite (gest_of_stable _ _ A1).
    destruct (kb_gest_run_db dt d rt) as (_ & _ & ->). congruence. }
  rewrite kb_key_run_cons. cbn [fst snd].
  destruct (flip_tick dt r rtA _ A3 HsA A4) as (F1 & F2 & F3 & F4 & F5);
    [unfold KB_DEBOUNCE_MS in *; nia | unfold KB_DEBOUNCE_MS in *; nia |].
  set (D := kb_debounce dt r rtA) in *.
  destruct (stab_flip_levels D F1) as (L1 & L2 & _).
  set (S1 := fst (kb_stab_step D)) in *.
  destruct (gest_step_db dt S1) as (G1 & _ & G3).
  assert (raw_last (kb_key_next dt r rtA) = r) as HrB by (rewrite F4; congruence).
  assert (stable (kb_key_next dt r rtA) = r) as HsB by (rewrite F4; congruence).
  destruct (run_settled dt r (m - d - 1) _ HrB HsB) as (B1 & B2 & B3).
  set (k := (m - d - 1)%nat) in *.
  exists D. replace (m - d)%nat with (S k) by lia.
  rewrite kb_gest_run_S. cbn [fst snd cons_first].
  split_and!; auto; try congruence.
  rewrite A2, B2, F5, F4. reflexivity.
Qed.

(** A glitch: the raw level leaves the settled level for at most [d]
    ticks and returns.  No flip occurs, only the timers of the settled
    level run. *)
Lemma run_glitch dt s r m k rt :
  0 < dt < 2 ^ 32 ->
  raw_last rt = s -> stable rt = s -> r <> s ->
  (1 <= m)%nat -> (Z.of_nat m - 1) * dt < KB_DEBOUNCE_MS ->
  gest_of (fst (kb_key_run dt (replicate m r ++ replicate k s) rt))
    = gest_of (fst (kb_gest_run dt (m + k) rt))
  /\ snd (kb_key_run dt (replicate m r ++ replicate k s) rt)
     = snd (kb_gest_run dt (m + k) rt).
Proof.
  intros Hdt Hr Hs Hne Hm Hlt.
  rewrite kb_key_run_app, kb_gest_run_add. cbn [fst snd].
  destruct (run_bounce dt s r m rt ltac:(lia) Hr Hs Hne Hm Hlt)
    as (A1 & A2 & A3 & A4).
  set (rtA := fst (kb_key_run dt (replicate m r) rt)) in *.
  assert (stable rtA = s) as HsA.
  { rewrite (gest_of_stable _ _ A1).
    destruct (kb_gest_run_db dt m rt) as (_ & _ & ->). exact Hs. }
  destruct k as [|k].
  { cbn [replicate kb_key_run kb_gest_run fst snd]. rewrite A2. auto. }
  cbn [replicate]. rewrite kb_key_run_cons, kb_gest_run_S. cbn [fst snd].
  assert (kb_debounce dt s rtA = set_debounce_ms 0 (set_raw_last s rtA)) as HD.
  { unfold kb_debounce. destruct rtA; cbn in *; subst.
    zcases; cbn; try reflexivity; congruence. }
  assert (kb_flips (kb_debounce dt s rtA) = false) as Hq.
  { rewrite HD. unfold kb_flips, KB_DEBOUNCE_MS. destruct rtA; cbn.
    zcases; cbn; try reflexivity; lia. }
  destruct (quiet_tick dt s rtA Hq) as (H1 & H2 & H3 & _).
  rewrite HD in H3. cbn [set_debounce_ms set_raw_last raw_last] in H3.
  assert (stable (kb_key_next dt s rtA) = s) as HsB.
  { rewrite (gest_of_stable _ _ H1).
    destruct (gest_step_db dt rtA) as (_ & _ & ->). exact HsA. }
  destruct (run_settled dt s k _ H3 HsB) as (B1 & B2 & _).
  destruct (gest_step_congr dt _ _ A1) as [C1 C2].
  destruct (kb_gest_run_congr dt k _ _ H1) as [C3 C4].
  destruct (kb_gest_run_congr dt k _ _ C1) as [C5 C6].
  rewrite A2, B1, B2, H2, C2, C3, C4, C5, C6. auto.
Qed.

End Quiet.

(** ** What the stabilisation step does on a flip *)

Section Flip.

Lemma stab_press D :
  kb_flips D = true -> raw_last D <> 0 ->
  snd (kb_stab_step D) = [KB_EVT_PRESS]
  /\ gest_of (fst (kb_stab_step D))
     = (raw_last D, 0, click_count D, 0, 0, click_wait_ms D).
Proof.
  unfold kb_flips, kb_stab_step, kb_stabilize. intros -> Hr.
  destruct D. zcases; try contradiction; auto.
Qed.

Lemma stab_release_long D :
  kb_flips D = true -> raw_last D = 0 -> long_sent D <> 0 ->
  snd (kb_stab_step D) = [KB_EVT_RELEASE; KB_EVT_LONGPRESS_RELEASE]
  /\ gest_of (fst (kb_stab_step D)) = (0, 0, 0, 0, 0, 0).
Proof.
  unfold kb_flips, kb_stab_step, kb_stabilize. intros -> Hr Hl.
  destruct D. cbn in Hr, Hl. subst. zcases; try contradiction; auto.
Qed.

Lemma stab_release_first D :
  kb_flips D = true -> raw_last D = 0 -> long_sent D = 0 -> click_count D = 0 ->
  snd (kb_stab_step D) = [KB_EVT_RELEASE]
  /\ gest_of (fst (kb_stab_step D)) = (0, 0, 1, 0, 0, 0).
Proof.
  unfold kb_flips, kb_stab_step, kb_stabilize. intros -> Hr Hl Hc.
  destruct D. cbn in Hr, Hl, Hc. subst. zcases; try contradiction; auto; lia.
Qed.

Lemma stab_release_second D :
  kb_flips D = true -> raw_last D = 0 -> long_sent D = 0 -> click_count D = 1 ->
  click_wait_ms D <= KB_DOUBLE_CLICK_MS ->
  snd (kb_stab_step D) = [KB_EVT_RELEASE; KB_EVT_DOUBLE_CLICK]
  /\ gest_of (fst (kb_stab_step D)) = (0, 0, 0, 0, 0, 0).
Proof.
  unfold kb_flips, kb_stab_step, kb_stabilize. intros -> Hr Hl Hc Hw.
  destruct D. cbn in Hr, Hl, Hc, Hw. subst. zcases; try contradiction; auto; lia.
Qed.

End Flip.

(** ** The timers between flips *)

Section Timers.

(** Released, no click pending: nothing moves. *)
Lemma gest_step_idle dt rt :
  stable rt = 0 -> click_count rt <> 1 -> kb_gest_step dt rt = (rt, []).
Proof.
  unfold kb_gest_step, kb_gesture. intros Hs Hc.
  destruct rt. cbn in Hs, Hc. subst. zcases; try contradiction; auto.
Qed.

Lemma gest_run_idle dt n rt :
  stable rt = 0 -> click_count rt <> 1 ->
  kb_gest_run dt n rt = (rt, replicate n []).
Proof.
  intros Hs Hc. induction n as [|n IH]; [reflexivity|].
  rewrite kb_gest_run_S, gest_step_idle by assumption. cbn [fst snd].
  rewrite IH. reflexivity.
Qed.

(** Released with a click pending, window not yet elapsed. *)
Lemma gest_step_wait dt rt :
  stable rt = 0 -> click_count rt = 1 ->
  0 <= click_wait_ms rt -> 0 <= dt ->
  click_wait_ms rt + dt < KB_DOUBLE_CLICK_MS ->
  kb_gest_step dt rt = (set_click_wait_ms (click_wait_ms rt + dt) rt, []).
Proof.
  unfold kb_gest_step, kb_gesture, KB_DOUBLE_CLICK_MS, u32. intros Hs Hc Hw Hdt Hlt.
  destruct rt. cbn in Hs, Hc, Hw, Hlt. subst.
  zcases; try contradiction; rewrite ?Z.mod_small in * by lia; try lia; auto.
Qed.

(** Released with a click pending, window elapsing on this tick. *)
Lemma gest_step_click dt rt :
  stable rt = 0 -> click_count rt = 1 ->
  KB_DOUBLE_CLICK_MS <= click_wait_ms rt + dt < 2 ^ 32 ->
  kb_gest_step dt rt
  = (set_click_wait_ms 0 (set_click_count 0 rt), [KB_EVT_CLICK]).
Proof.
  unfold kb_gest_step, kb_gesture, KB_DOUBLE_CLICK_MS, u32. intros Hs Hc Hw.
  destruct rt. cbn in Hs, Hc, Hw. subst.
  zcases; try contradiction; rewrite ?Z.mod_small in * by lia; try lia; auto.
Qed.

Lemma gest_run_wait dt n rt :
  stable rt = 0 -> click_count rt = 1 ->
  0 <= click_wait_ms rt -> 0 <= dt ->
  click_wait_ms rt + Z.of_nat n * dt < KB_DOUBLE_CLICK_MS ->
  kb_gest_run dt n rt
  = (set_click_wait_ms (click_wait_ms rt + Z.of_nat n * dt) rt, replicate n []).
Proof.
  revert rt. induction n as [|n IH]; intros rt Hs Hc Hw Hdt Hlt.
  - cbn. rewrite Z.add_0_r. destruct rt; reflexivity.
  - assert (0 <= Z.of_nat n * dt) as Hnd by (apply Z.mul_nonneg_nonneg; lia).
    assert (click_wait_ms rt + dt + Z.of_nat n * dt < KB_DOUBLE_CLICK_MS) as Hlt' by lia.
    rewrite kb_gest_run_S, gest_step_wait by (try assumption; lia).
    cbn [fst snd]. rewrite IH; destruct rt; cbn in *; try assumption; try lia.
    unfold set_click_wait_ms. cbn. do 2 f_equal. lia.
Qed.

(** A pending click resolves on tick [c], the first at which the wait
    reaches the double-click window, and the key is idle afterwards. *)
Lemma gest_run_click dt n rt :
  0 < dt < 2 ^ 32 ->
  stable rt = 0 -> click_count rt = 1 -> click_wait_ms rt = 0 ->
  let c := ticks_for KB_DOUBLE_CLICK_MS dt in
  (c <= n)%nat ->
  kb_gest_run dt n rt
  = (set_click_wait_ms 0 (set_click_count 0 rt),
     replicate (c - 1) [] ++ [KB_EVT_CLICK] :: replicate (n - c) []).
Proof.
  intros Hdt Hs Hc Hw c Hn.
  assert (0 < KB_DOUBLE_CLICK_MS) as H250 by reflexivity.
  pose proof (ticks_for_pos KB_DOUBLE_CLICK_MS dt ltac:(lia) H250) as Hpos. fold c in Hpos.
  pose proof (proj2 (ticks_for_spec KB_DOUBLE_CLICK_MS dt c ltac:(lia) H250)) as Hge.
  fold c in Hge. specialize (Hge (Nat.le_refl _)).
  assert (Z.of_nat (c - 1) * dt < KB_DOUBLE_CLICK_MS) as Hlt.
  { destruct (Z.lt_ge_cases (Z.of_nat (c - 1) * dt) KB_DOUBLE_CLICK_MS) as [|Hc']; [assumption|].
    apply (ticks_for_spec KB_DOUBLE_CLICK_MS dt (c - 1) ltac:(lia) H250) in Hc'.
    fold c in Hc'. lia. }
  assert (Z.of_nat c * dt < 2 ^ 32) as Hnw.
  { destruct (Nat.eq_dec c 1%nat) as [->|Hne]; [lia|].
    assert (dt <= Z.of_nat (c - 1) * dt) by nia.
    unfold KB_DOUBLE_CLICK_MS in *. nia. }
  destruct rt as [rl st ls cc db pm rm wm]. cbn in Hs, Hc, Hw. subst.
  replace n with ((c - 1) + S (n - c))%nat at 1 by lia.
  rewrite kb_gest_run_add, kb_gest_run_S.
  rewrite (gest_run_wait dt (c - 1)) by (cbn; lia).
  cbn [fst snd]. rewrite gest_step_click; [|reflexivity|reflexivity|].
  - cbn [fst snd]. rewrite gest_run_idle by (cbn; lia). reflexivity.
  - cbn. replace (0 + Z.of_nat (c - 1) * dt + dt) with (Z.of_nat c * dt) by nia. lia.
Qed.

(** Pressed: the timer step emits only LONGPRESS and REPEAT and leaves the
    click bookkeeping alone. *)
Lemma gest_step_hold dt rt :
  stable rt <> 0 ->
  let r := kb_gest_step dt rt in
  stable (fst r) = stable rt
  /\ click_count (fst r) = click_count rt
  /\ click_wait_ms (fst r) = click_wait_ms rt
  /\ press_ms (fst r) = u32 (press_ms rt + dt)
  /\ Forall hold_evt (snd r)
  /\ (long_sent rt <> 0 \/ press_ms (fst r) < KB_LONGPRESS_MS ->
      long_sent (fst r) = long_sent rt /\ Forall (eq KB_EVT_REPEAT) (snd r)).
Proof.
  unfold kb_gest_step, kb_gesture, hold_evt. intros Hs.
  destruct rt. cbn in Hs. unfold KB_LONGPRESS_MS.
  zcases; try contradiction;
    rewrite ?kb_record_nil, ?kb_record_one; zsimpl;
    split_and!; try reflexivity; try (forall_solve; fail);
    (intros [?|?]; try contradiction; try lia; (split; [reflexivity|forall_solve])).
Qed.

Lemma gest_run_hold dt n rt :
  stable rt <> 0 ->
  let r := kb_gest_run dt n rt in
  stable (fst r) = stable rt
  /\ click_count (fst r) = click_count rt
  /\ click_wait_ms (fst r) = click_wait_ms rt
  /\ Forall (Forall hold_evt) (snd r).
Proof.
  revert rt. induction n as [|n IH]; intros rt Hs; cbn zeta.
  - cbn. split_and!; auto.
  - rewrite kb_gest_run_S. cbn [fst snd].
    destruct (gest_step_hold dt rt Hs) as (H1 & H2 & H3 & _ & H5 & _).
    destruct (IH (fst (kb_gest_step dt rt))) as (I1 & I2 & I3 & I4); [congruence|].
    split_and!; try congruence. constructor; assumption.
Qed.

(** Pressed and short of the long-press threshold: press time adds up and
    LONGPRESS is not emitted. *)
Lemma gest_run_hold_short dt n rt :
  stable rt <> 0 -> long_sent rt = 0 ->
  0 <= press_ms rt -> 0 <= dt ->
  press_ms rt + Z.of_nat n * dt < KB_LONGPRESS_MS ->
  let r := kb_gest_run dt n rt in
  long_sent (fst r) = 0
  /\ press_ms (fst r) = press_ms rt + Z.of_nat n * dt
  /\ Forall (Forall (eq KB_EVT_REPEAT)) (snd r).
Proof.
  revert rt. induction n as [|n IH]; intros rt Hs Hl Hp Hdt Hlt; cbn zeta.
  - cbn. split_and!; auto. lia.
  - rewrite kb_gest_run_S. cbn [fst snd].
    assert (0 <= Z.of_nat n * dt) as Hnd by (apply Z.mul_nonneg_nonneg; lia).
    destruct (gest_step_hold dt rt Hs) as (H1 & _ & _ & H4 & _ & H6).
    unfold u32, KB_LONGPRESS_MS in *. rewrite Z.mod_small in H4 by lia.
    destruct H6 as [H6 H7]; [right; lia|].
    destruct (IH (fst (kb_gest_step dt rt))) as (I1 & I2 & I3);
      [congruence | congruence | lia | lia | lia |].
    split_and!; [assumption | lia | constructor; assumption].
Qed.

(** Released: the timer step emits only CLICK. *)
Lemma gest_step_released dt rt :
  stable rt = 0 ->
  stable (fst (kb_gest_step dt rt)) = 0
  /\ Forall (eq KB_EVT_CLICK) (snd (kb_gest_step dt rt)).
Proof.
  unfold kb_gest_step, kb_gesture. intros Hs.
  destruct rt. cbn in Hs. subst.
  zcases; try contradiction; rewrite ?kb_record_nil; zsimpl; split; auto; forall_solve.
Qed.

Lemma gest_run_released dt n rt :
  stable rt = 0 ->
  Forall (Forall (eq KB_EVT_CLICK)) (snd (kb_gest_run dt n rt)).
Proof.
  revert rt. induction n as [|n IH]; intros rt Hs; [constructor|].
  rewrite kb_gest_run_S. cbn [snd].
  destruct (gest_step_released dt rt Hs) as [H1 H2].
  constructor; [assumption|]. apply IH. assumption.
Qed.

Lemma kb_gest_run_length dt n rt : length (snd (kb_gest_run dt n rt)) = n.
Proof.
  revert rt. induction n as [|n IH]; intros rt; [reflexivity|].
  rewrite kb_gest_run_S. cbn [snd length]. rewrite IH. reflexivity.
Qed.

End Timers.

(** ** Counting events *)

Section Counting.

Lemma count_evt_app e l1 l2 :
  count_evt e (l1 ++ l2) = (count_evt e l1 + count_evt e l2)%nat.
Proof. apply count_occ_app. Qed.

Lemma count_evt_absent e (P : kb_event_t -> Prop) l :
  (forall x, P x -> x <> e) -> Forall P l -> count_evt e l = 0%nat.
Proof.
  intros HP Hl. apply count_occ_not_In. intros Hin.
  rewrite Forall_forall in Hl. apply list_elem_of_In in Hin.
  exact (HP _ (Hl _ Hin) eq_refl).
Qed.

Lemma count_evt_concat_absent e (P : kb_event_t -> Prop) ll :
  (forall x, P x -> x <> e) -> Forall (Forall P) ll ->
  count_evt e (concat ll) = 0%nat.
Proof.
  intros HP Hll. induction Hll as [|l ll Hl _ IH]; [reflexivity|].
  cbn [concat]. rewrite count_evt_app, IH, (count_evt_absent e P l HP Hl).
  reflexivity.
Qed.

Lemma concat_cons_first {A} (pre : list A) ll :
  ll <> [] -> concat (cons_first pre ll) = pre ++ concat ll.
Proof.
  destruct ll as [|l ll]; [congruence|]. intros _. cbn. apply eq_sym, app_assoc.
Qed.

Lemma gest_run_nonempty dt n rt : (0 < n)%nat -> snd (kb_gest_run dt n rt) <> [].
Proof.
  intros Hn Heq. pose proof (kb_gest_run_length dt n rt) as Hlen.
  rewrite Heq in Hlen. cbn in Hlen. lia.
Qed.

End Counting.

(** ** From one key to [keyboard_poll] *)

Section SingleKey.

Variables (c : keyboard_control_t) (node : keyboard_que_t).
Hypothesis Hsingle : kb_single_key c node.

Lemma keyboard_poll_single dt hwst raw rt rest :
  dt <> 0 -> kb_first_raw c node hwst = Some raw ->
  keyboard_poll (Some c) dt hwst (rt :: rest)
  = (kb_key_next dt raw rt :: rest,
     map (mk_delivery (keyname node) (key_id node)) (kb_key_events dt raw rt)).
Proof.
  destruct Hsingle as (Hh & Hn & Hcb). intros Hdt Hraw.
  assert (forall snap, raw = kb_read_raw c hwst node 0 snap ->
            kb_scan_and_deliver c dt hwst snap (rt :: rest)
            = (kb_key_next dt raw rt :: rest,
               map (mk_delivery (keyname node) (key_id node))
                   (kb_key_events dt raw rt))) as Hscan.
  { intros snap ->. unfold kb_scan_and_deliver. rewrite Hh. cbn [kb_scan_loop].
    replace (Z.of_nat 0 <? key_num c) with true by (symmetry; apply Z.ltb_lt; lia).
    cbn [andb lookup list_lookup]. change (Z.of_nat 0 <? KB_MAX_KEYS) with true.
    cbn match. rewrite kb_scan_key_take by (cbn; lia).
    cbn [app insert list_insert]. rewrite take_ge.
    - f_equal. induction (kb_key_events dt _ rt) as [|e es IH]; [reflexivity|].
      cbn [map flat_map]. rewrite IH. unfold kb_emit_event. rewrite Hcb. reflexivity.
    - rewrite length_map. pose proof (kb_key_events_length dt
        (kb_read_raw c hwst node 0 snap) rt).
      unfold cap, PENDING_CAP, KB_MAX_KEYS. lia. }
  unfold keyboard_poll, kb_first_raw in *.
  destruct (Z.eqb_spec dt 0) as [|_]; [contradiction|].
  destruct (backend_mode c =? KB_BACKEND_CUSTOM).
  - destruct (scan_snapshot (keyboard_ops c)); [|discriminate]. cbn [negb].
    destruct (hw_scan_snapshot hwst (key_num c)) as [ret buf].
    destruct (ret =? 0); [|discriminate]. cbn [negb].
    injection Hraw as <-. apply Hscan. reflexivity.
  - injection Hraw as <-. apply Hscan. reflexivity.
Qed.

(** Polling a lone key is running the per-key machine on its samples. *)
Lemma keyboard_poll_run_single dt ticks raws rt rest :
  dt <> 0 -> kb_levels c node dt ticks raws ->
  keyboard_poll_run (Some c) ticks (rt :: rest)
  = (fst (kb_key_run dt raws rt) :: rest,
     map (map (mk_delivery (keyname node) (key_id node)))
         (snd (kb_key_run dt raws rt))).
Proof.
  intros Hdt Hlv. revert rt.
  induction Hlv as [|[dt' hwst] raw ticks raws [Hd Hr] _ IH]; intros rt; [reflexivity|].
  cbn [fst snd] in Hd, Hr. subst dt'.
  cbn [keyboard_poll_run]. rewrite (keyboard_poll_single dt hwst raw) by assumption.
  rewrite IH, kb_key_run_cons. reflexivity.
Qed.

Lemma kb_kinds_single dt ticks raws rt rest :
  dt <> 0 -> kb_levels c node dt ticks raws ->
  kb_kinds (snd (keyboard_poll_run (Some c) ticks (rt :: rest)))
  = snd (kb_key_run dt raws rt).
Proof.
  intros Hdt Hlv. rewrite (keyboard_poll_run_single dt ticks raws) by assumption.
  cbn [snd]. unfold kb_kinds. rewrite map_map.
  rewrite <- (map_id (snd (kb_key_run dt raws rt))) at 2.
  apply map_ext. intros evs. rewrite map_map. cbn [dl_evt]. apply map_id.
Qed.

End SingleKey.

(** * Debounce (claim C1) *)

Section Debounce.

Lemma key_glitch_idle dt m k rt :
  0 < dt < 2 ^ 32 ->
  raw_last rt = 0 -> stable rt = 0 -> click_count rt = 0 ->
  (1 <= m)%nat -> (Z.of_nat m - 1) * dt < KB_DEBOUNCE_MS ->
  snd (kb_key_run dt (replicate m 1 ++ replicate k 0) rt) = replicate (m + k) [].
Proof.
  intros Hdt Hr Hs Hc Hm Hlt.
  destruct (run_glitch dt 0 1 m k rt Hdt Hr Hs ltac:(lia) Hm Hlt) as [_ ->].
  rewrite gest_run_idle by (try assumption; lia). reflexivity.
Qed.

Lemma key_glitch_transparent dt s r m k rt :
  0 < dt < 2 ^ 32 ->
  raw_last rt = s -> stable rt = s -> r <> s ->
  (1 <= m)%nat -> (Z.of_nat m - 1) * dt < KB_DEBOUNCE_MS ->
  snd (kb_key_run dt (replicate m r ++ replicate k s) rt)
  = snd (kb_key_run dt (replicate (m + k) s) rt).
Proof.
  intros Hdt Hr Hs Hne Hm Hlt.
  destruct (run_glitch dt s r m k rt Hdt Hr Hs Hne Hm Hlt) as [_ ->].
  destruct (run_settled dt s (m + k) rt Hr Hs) as (_ & -> & _). reflexivity.
Qed.

Lemma hold_evt_not e x : hold_evt x -> e <> KB_EVT_LONGPRESS -> e <> KB_EVT_REPEAT -> x <> e.
Proof. intros [->| ->] H1 H2; congruence. Qed.

Lemma key_press_once dt m rt :
  0 < dt < 2 ^ 32 ->
  raw_last rt = 0 -> stable rt = 0 ->
  KB_DEBOUNCE_MS <= (Z.of_nat m - 1) * dt ->
  count_evt KB_EVT_PRESS (concat (snd (kb_key_run dt (replicate m 1) rt))) = 1%nat.
Proof.
  intros Hdt Hr Hs Hge.
  assert (1 <= m)%nat as Hm.
  { destruct m; [|lia]. unfold KB_DEBOUNCE_MS in Hge. lia. }
  assert (ticks_for KB_DEBOUNCE_MS dt < m)%nat as Hd.
  { replace (Z.of_nat m - 1) with (Z.of_nat (m - 1)) in Hge by lia.
    apply ticks_for_spec in Hge; [lia | lia | reflexivity]. }
  destruct (run_edge dt 0 1 m rt Hdt Hr Hs ltac:(lia) Hd)
    as (D & F1 & F2 & F3 & -> & _).
  destruct (stab_press D F1 ltac:(lia)) as [-> HS].
  set (S1 := fst (kb_stab_step D)) in *.
  assert (stable S1 <> 0) as HsS.
  { unfold gest_of in HS. injection HS as -> _ _ _ _ _. lia. }
  rewrite concat_app, count_evt_app.
  rewrite concat_cons_first by (apply gest_run_nonempty; lia).
  rewrite count_evt_app.
  rewrite (count_evt_concat_absent KB_EVT_PRESS (eq KB_EVT_CLICK));
    [| intros x <-; discriminate | apply gest_run_released; exact Hs].
  rewrite (count_evt_concat_absent KB_EVT_PRESS hold_evt);
    [| intros x Hx; apply (hold_evt_not _ _ Hx); discriminate
     | apply gest_run_hold; exact HsS].
  reflexivity.
Qed.

End Debounce.

(** C1.  One registered key, polled with a fixed tick delta [dt].  The time
    a raw level has been held is what the debounce accumulator measures: the
    time since the tick on which the change was first sampled, so [m]
    consecutive samples amount to [(m - 1) * dt].
    (1) On a released key with no click pending, the active level sampled
    for less than the debounce threshold and then the inactive level again
    (for any number [k] of ticks) delivers no event on any of those ticks.
    (2) On any key whose raw and stable levels agree, such a short excursion
    to the other level delivers exactly what the same ticks deliver when the
    raw level never moves.
    (3) On a released key, the active level held for at least the debounce
    threshold delivers exactly one PRESS. *)
Theorem debounce_filters_short_levels
    (c : keyboard_control_t) (node : keyboard_que_t) (dt : Z)
    (rt : kb_key_runtime_t) (rest : list kb_key_runtime_t) (m k : nat) :
  kb_single_key c node ->
  0 < dt < 2 ^ 32 ->
  (1 <= m)%nat ->
  (forall ticks,
      raw_last rt = 0 -> stable rt = 0 -> click_count rt = 0 ->
      (Z.of_nat m - 1) * dt < KB_DEBOUNCE_MS ->
      kb_levels c node dt ticks (replicate m 1 ++ replicate k 0) ->
      kb_kinds (snd (keyboard_poll_run (Some c) ticks (rt :: rest)))
      = replicate (m + k) [])
  /\ (forall s r ticks ticks',
      raw_last rt = s -> stable rt = s -> r <> s ->
      (Z.of_nat m - 1) * dt < KB_DEBOUNCE_MS ->
      kb_levels c node dt ticks (replicate m r ++ replicate k s) ->
      kb_levels c node dt ticks' (replicate (m + k) s) ->
      kb_kinds (snd (keyboard_poll_run (Some c) ticks (rt :: rest)))
      = kb_kinds (snd (keyboard_poll_run (Some c) ticks' (rt :: rest))))
  /\ (forall ticks,
      raw_last rt = 0 -> stable rt = 0 ->
      KB_DEBOUNCE_MS <= (Z.of_nat m - 1) * dt ->
      kb_levels c node dt ticks (replicate m 1) ->
      count_evt KB_EVT_PRESS
        (concat (kb_kinds (snd (keyboard_poll_run (Some c) ticks (rt :: rest)))))
      = 1%nat).
Proof.
  intros Hsingle Hdt Hm. split_and!.
  - intros ticks Hr Hs Hc Hlt Hlv.
    rewrite (kb_kinds_single c node Hsingle dt ticks _ rt rest ltac:(lia) Hlv).
    apply key_glitch_idle; assumption.
  - intros s r ticks ticks' Hr Hs Hne Hlt Hlv Hlv'.
    rewrite (kb_kinds_single c node Hsingle dt ticks _ rt rest ltac:(lia) Hlv).
    rewrite (kb_kinds_single c node Hsingle dt ticks' _ rt rest ltac:(lia) Hlv').
    apply key_glitch_transparent; assumption.
  - intros ticks Hr Hs Hge Hlv.
    rewrite (kb_kinds_single c node Hsingle dt ticks _ rt rest ltac:(lia) Hlv).
    apply key_press_once; assumption.
Qed.

Lemma debounce_filters_short_levels_witness :
  kb_kinds (snd (keyboard_poll_run (Some demo_ctl)
                   [demo_tick 10 1; demo_tick 10 1; demo_tick 10 0] key_rt_zero))
  = replicate 3 []
  /\ count_evt KB_EVT_PRESS
       (concat (kb_kinds (snd (keyboard_poll_run (Some demo_ctl)
                                 (replicate 3 (demo_tick 10 1)) key_rt_zero))))
     = 1%nat.
Proof.
  assert (kb_single_key demo_ctl demo_node) as Hsingle
      by (split; [reflexivity|split; [cbn; lia|reflexivity]]).
  change key_rt_zero with (rt_zero :: replicate 15 rt_zero).
  split.
  - destruct (debounce_filters_short_levels demo_ctl demo_node 10 rt_zero
                (replicate 15 rt_zero) 2 1 Hsingle) as (H1 & _ & _); [lia | lia |].
    apply H1; [reflexivity | reflexivity | reflexivity
              | unfold KB_DEBOUNCE_MS; lia |].
    repeat constructor.
  - destruct (debounce_filters_short_levels demo_ctl demo_node 10 rt_zero
                (replicate 15 rt_zero) 3 0 Hsingle) as (_ & _ & H3); [lia | lia |].
    apply H3; [reflexivity | reflexivity | unfold KB_DEBOUNCE_MS; lia |].
    repeat constructor.
Defined.

(** * Long press and repeat (claim C2) *)

Section Hold.

(** One timer step of a pressed key, field by field. *)
Lemma gest_step_hold_exact dt rt :
  stable rt <> 0 ->
  let P := u32 (press_ms rt + dt) in
  let lp := (long_sent rt =? 0) && (KB_LONGPRESS_MS <=? P) in
  let rp := (KB_REPEAT_START_MS <=? P)
            && (KB_REPEAT_PERIOD_MS <=? u32 (repeat_ms rt + dt)) in
  let r := kb_gest_step dt rt in
  press_ms (fst r) = P
  /\ long_sent (fst r) = (if lp then 1 else long_sent rt)
  /\ repeat_ms (fst r)
     = (if KB_REPEAT_START_MS <=? P
        then (if rp then 0 else u32 (repeat_ms rt + dt))
        else repeat_ms rt)
  /\ stable (fst r) = stable rt
  /\ snd r = (if lp then [KB_EVT_LONGPRESS] else [])
             ++ (if rp then [KB_EVT_REPEAT] else []).
Proof.
  unfold kb_gest_step, kb_gesture. intros Hs. destruct rt. cbn in Hs.
  zcases; try contradiction;
    rewrite ?kb_record_nil, ?kb_record_one; zsimpl; split_and!; reflexivity.
Qed.

Lemma ticks_for_lt t dt (n : nat) :
  0 < dt -> 0 < t -> (Z.of_nat n * dt < t <-> (n < ticks_for t dt)%nat).
Proof.
  intros Hdt Ht. pose proof (ticks_for_spec t dt n Hdt Ht). lia.
Qed.

Lemma mod_succ_zero (j p : nat) :
  (0 < p)%nat ->
  ((S j) mod p = 0 <-> j mod p + 1 = p)%nat.
Proof.
  intros Hp.
  pose proof (Nat.div_mod_eq j p) as Hj.
  pose proof (Nat.mod_upper_bound j p ltac:(lia)) as Hr.
  split; intros H.
  - destruct (Nat.eq_dec (j mod p + 1)%nat p) as [|Hne]; [assumption|].
    assert (S j mod p = j mod p + 1)%nat as E.
    { symmetry. apply (Nat.mod_unique (S j) p (j / p)%nat); lia. }
    lia.
  - symmetry. apply (Nat.mod_unique (S j) p (S (j / p)%nat)); lia.
Qed.

Lemma mod_succ_nonzero (j p : nat) :
  (0 < p)%nat -> (j mod p + 1 <> p)%nat ->
  (S j mod p = j mod p + 1)%nat.
Proof.
  intros Hp Hne.
  pose proof (Nat.div_mod_eq j p) as Hj.
  pose proof (Nat.mod_upper_bound j p ltac:(lia)) as Hr.
  symmetry. apply (Nat.mod_unique (S j) p (j / p)%nat); lia.
Qed.

Lemma div_succ (j p : nat) :
  (0 < p)%nat ->
  (S j / p = j / p + (if S j mod p =? 0 then 1 else 0))%nat.
Proof.
  intros Hp.
  pose proof (Nat.div_mod_eq j p) as Hj.
  pose proof (Nat.mod_upper_bound j p ltac:(lia)) as Hr.
  destruct (Nat.eqb_spec (S j mod p)%nat 0%nat) as [E|E].
  - apply mod_succ_zero in E; [|assumption].
    symmetry. apply (Nat.div_unique (S j) p _ 0%nat); lia.
  - assert (j mod p + 1 <> p)%nat as Hne
        by (intros Hc; apply E, mod_succ_zero; assumption).
    symmetry. apply (Nat.div_unique (S j) p _ (j mod p + 1)%nat); lia.
Qed.

Lemma ticks_for_no_wrap t dt :
  0 < dt < 2 ^ 32 -> 0 < t < 2 ^ 31 ->
  let p := ticks_for t dt in
  (1 <= p)%nat /\ Z.of_nat p * dt < 2 ^ 32
  /\ forall x : nat, (t <= Z.of_nat x * dt <-> (p <= x)%nat).
Proof.
  intros Hdt Ht p.
  pose proof (ticks_for_pos t dt ltac:(lia) ltac:(lia)) as Hpos. fold p in Hpos.
  assert (forall x : nat, t <= Z.of_nat x * dt <-> (p <= x)%nat) as Hspec
      by (intros x; apply ticks_for_spec; lia).
  split_and!; [assumption | | assumption].
  assert (Z.of_nat (p - 1) * dt < t) as Hlt.
  { destruct (Z.lt_ge_cases (Z.of_nat (p - 1) * dt) t) as [|Hc]; [assumption|].
    apply Hspec in Hc. lia. }
  destruct (Nat.eq_dec p 1%nat) as [->|Hne]; [lia|].
  assert (dt <= Z.of_nat (p - 1) * dt) by nia. nia.
Qed.

Lemma kb_gest_run_snoc dt n rt :
  kb_gest_run dt (S n) rt
  = (fst (kb_gest_step dt (fst (kb_gest_run dt n rt))),
     snd (kb_gest_run dt n rt) ++ [snd (kb_gest_step dt (fst (kb_gest_run dt n rt)))]).
Proof.
  replace (S n) with (n + 1)%nat by lia. rewrite kb_gest_run_add.
  cbn [kb_gest_run fst snd].
  destruct (kb_gest_step dt (fst (kb_gest_run dt n rt))). reflexivity.
Qed.

(** The state and the events of the first [n] ticks of a press. *)
Lemma gest_run_hold_exact dt n rt :
  0 < dt < 2 ^ 32 -> Z.of_nat n * dt < 2 ^ 32 ->
  stable rt <> 0 -> long_sent rt = 0 -> press_ms rt = 0 -> repeat_ms rt = 0 ->
  let r := kb_gest_run dt n rt in
  press_ms (fst r) = Z.of_nat n * dt
  /\ long_sent (fst r) = (if KB_LONGPRESS_MS <=? Z.of_nat n * dt then 1 else 0)
  /\ repeat_ms (fst r) = hold_repeat_ms dt n
  /\ stable (fst r) = stable rt
  /\ snd r = map (hold_events dt) (seq 1 n).
Proof.
  intros Hdt Hn Hs Hl Hp Hr. cbn zeta.
  destruct (ticks_for_no_wrap KB_LONGPRESS_MS dt Hdt ltac:(split; reflexivity))
    as (L1 & _ & L3).
  destruct (ticks_for_no_wrap KB_REPEAT_START_MS dt Hdt ltac:(split; reflexivity))
    as (S1 & _ & S3).
  destruct (ticks_for_no_wrap KB_REPEAT_PERIOD_MS dt Hdt ltac:(split; reflexivity))
    as (P1 & P2 & P3).
  induction n as [|n IH].
  - cbn [kb_gest_run fst snd seq map]. unfold hold_repeat_ms.
    destruct (Nat.leb_spec (ticks_for KB_REPEAT_START_MS dt) 0); [lia|].
    rewrite Hp, Hl, Hr. split_and!; reflexivity.
  - destruct IH as (I1 & I2 & I3 & I4 & I5); [nia|].
    rewrite kb_gest_run_snoc. cbn [fst snd].
    set (rtn := fst (kb_gest_run dt n rt)) in *.
    assert (stable rtn <> 0) as Hsn by congruence.
    destruct (gest_step_hold_exact dt rtn Hsn) as (G1 & G2 & G3 & G4 & G5).
    destruct (kb_gest_step dt rtn) as [rt' evs]. cbn [fst snd] in *.
    rewrite I1, I2, I3 in *.
    assert (u32 (Z.of_nat n * dt + dt) = Z.of_nat (S n) * dt) as HP.
    { unfold u32. rewrite Z.mod_small by nia. lia. }
    rewrite HP in *. clear HP.
    rewrite seq_S, map_app, I5. cbn [map Nat.add].
    set (nL := ticks_for KB_LONGPRESS_MS dt) in *.
    set (n0 := ticks_for KB_REPEAT_START_MS dt) in *.
    set (p := ticks_for KB_REPEAT_PERIOD_MS dt) in *.
    pose proof (L3 n) as L3n. pose proof (L3 (S n)) as L3s.
    pose proof (S3 (S n)) as S3s.
    assert (((if KB_LONGPRESS_MS <=? Z.of_nat n * dt then 1 else 0) =? 0)
            && (KB_LONGPRESS_MS <=? Z.of_nat (S n) * dt)
            = hold_longpress_due dt (S n)) as Hlp.
    { unfold hold_longpress_due. fold nL.
      destruct (Z.leb_spec KB_LONGPRESS_MS (Z.of_nat n * dt));
        destruct (Z.leb_spec KB_LONGPRESS_MS (Z.of_nat (S n) * dt));
        destruct (Nat.eqb_spec (S n) nL); cbn; try reflexivity; lia. }
    rewrite Hlp in *.
    assert (long_sent rt'
            = (if KB_LONGPRESS_MS <=? Z.of_nat (S n) * dt then 1 else 0)) as HL.
    { rewrite G2. unfold hold_longpress_due. fold nL.
      destruct (Z.leb_spec KB_LONGPRESS_MS (Z.of_nat n * dt));
        destruct (Z.leb_spec KB_LONGPRESS_MS (Z.of_nat (S n) * dt));
        destruct (Nat.eqb_spec (S n) nL); cbn; try reflexivity; lia. }
    destruct (Nat.leb_spec n0 (S n)) as [Hge|Hlt].
    + set (j := (S n - n0)%nat).
      pose proof (Nat.mod_upper_bound j p ltac:(lia)) as Hjp.
      assert (hold_repeat_ms dt n = Z.of_nat (j mod p) * dt) as HR.
      { unfold hold_repeat_ms. fold n0 p. destruct (Nat.leb_spec n0 n).
        - replace (n - n0 + 1)%nat with j by lia. reflexivity.
        - replace j with 0%nat by lia. rewrite Nat.Div0.mod_0_l. lia. }
      assert (hold_repeat_ms dt (S n) = Z.of_nat (S j mod p) * dt) as HR'.
      { unfold hold_repeat_ms. fold n0 p.
        destruct (Nat.leb_spec n0 (S n)); [|lia].
        replace (S n - n0 + 1)%nat with (S j) by lia. reflexivity. }
      assert (hold_repeat_due dt (S n) = (S j mod p =? 0)%nat) as HD.
      { unfold hold_repeat_due. fold n0 p.
        destruct (Nat.leb_spec n0 (S n)); [|lia].
        replace (S n - n0 + 1)%nat with (S j) by lia. reflexivity. }
      assert (u32 (hold_repeat_ms dt n + dt) = Z.of_nat (j mod p + 1) * dt) as HU.
      { rewrite HR. unfold u32. rewrite Z.mod_small; [lia|]. split; [nia|].
        assert (Z.of_nat (j mod p + 1) * dt <= Z.of_nat p * dt) by nia. lia. }
      rewrite HU in *.
      replace (KB_REPEAT_START_MS <=? Z.of_nat (S n) * dt) with true in *
        by (symmetry; apply Z.leb_le, S3s; exact Hge).
      cbn [andb] in *.
      pose proof (P3 (j mod p + 1)%nat) as P3j.
      pose proof (mod_succ_zero j p ltac:(lia)) as Hz.
      assert ((KB_REPEAT_PERIOD_MS <=? Z.of_nat (j mod p + 1) * dt)
              = (S j mod p =? 0)%nat) as Hrp.
      { destruct (Z.leb_spec KB_REPEAT_PERIOD_MS (Z.of_nat (j mod p + 1) * dt));
          destruct (Nat.eqb_spec (S j mod p) 0); try reflexivity; lia. }
      rewrite Hrp in *. unfold hold_events. rewrite HD, HR', G5.
      split_and!; try assumption; try congruence.
      rewrite G3. destruct (Nat.eqb_spec (S j mod p) 0) as [E|E]; [lia|].
      rewrite (mod_succ_nonzero j p) by lia. reflexivity.
    + assert (hold_repeat_ms dt n = 0) as HR.
      { unfold hold_repeat_ms. fold n0 p. destruct (Nat.leb_spec n0 n); [lia|reflexivity]. }
      assert (hold_repeat_ms dt (S n) = 0) as HR'.
      { unfold hold_repeat_ms. fold n0 p.
        destruct (Nat.leb_spec n0 (S n)); [lia|reflexivity]. }
      assert (hold_repeat_due dt (S n) = false) as HD.
      { unfold hold_repeat_due. fold n0 p.
        destruct (Nat.leb_spec n0 (S n)); [lia|reflexivity]. }
      replace (KB_REPEAT_START_MS <=? Z.of_nat (S n) * dt) with false in *
        by (symmetry; apply Z.leb_gt; lia).
      cbn [andb] in *. unfold hold_events. rewrite HD, HR', G5.
      split_and!; try assumption; try congruence; reflexivity.
Qed.

Lemma count_hold_events_longpress dt i :
  count_evt KB_EVT_LONGPRESS (hold_events dt i)
  = if hold_longpress_due dt i then 1%nat else 0%nat.
Proof.
  unfold hold_events.
  destruct (hold_longpress_due dt i), (hold_repeat_due dt i); reflexivity.
Qed.

Lemma count_hold_events_repeat dt i :
  count_evt KB_EVT_REPEAT (hold_events dt i)
  = if hold_repeat_due dt i then 1%nat else 0%nat.
Proof.
  unfold hold_events.
  destruct (hold_longpress_due dt i), (hold_repeat_due dt i); reflexivity.
Qed.

Lemma count_hold_longpress dt n :
  0 < dt ->
  count_evt KB_EVT_LONGPRESS (concat (map (hold_events dt) (seq 1 n)))
  = if (ticks_for KB_LONGPRESS_MS dt <=? n)%nat then 1%nat else 0%nat.
Proof.
  intros Hdt.
  pose proof (ticks_for_pos KB_LONGPRESS_MS dt Hdt ltac:(reflexivity)) as Hpos.
  induction n as [|n IH].
  - cbn [seq map concat]. destruct (Nat.leb_spec (ticks_for KB_LONGPRESS_MS dt) 0); [lia|reflexivity].
  - rewrite seq_S, map_app, concat_app, count_evt_app, IH. cbn [map concat Nat.add].
    rewrite app_nil_r, count_hold_events_longpress. unfold hold_longpress_due.
    destruct (Nat.leb_spec (ticks_for KB_LONGPRESS_MS dt) n);
      destruct (Nat.leb_spec (ticks_for KB_LONGPRESS_MS dt) (S n));
      destruct (Nat.eqb_spec (S n) (ticks_for KB_LONGPRESS_MS dt)); lia.
Qed.

Lemma count_hold_repeat dt n :
  0 < dt ->
  let n0 := ticks_for KB_REPEAT_START_MS dt in
  let p := ticks_for KB_REPEAT_PERIOD_MS dt in
  count_evt KB_EVT_REPEAT (concat (map (hold_events dt) (seq 1 n)))
  = if (n0 <=? n)%nat then ((n - n0 + 1) / p)%nat else 0%nat.
Proof.
  intros Hdt n0 p.
  pose proof (ticks_for_pos KB_REPEAT_START_MS dt Hdt ltac:(reflexivity)) as Hn0.
  pose proof (ticks_for_pos KB_REPEAT_PERIOD_MS dt Hdt ltac:(reflexivity)) as Hp.
  fold n0 in Hn0. fold p in Hp.
  induction n as [|n IH].
  - cbn [seq map concat]. destruct (Nat.leb_spec n0 0); [lia|reflexivity].
  - rewrite seq_S, map_app, concat_app, count_evt_app, IH. cbn [map concat Nat.add].
    rewrite app_nil_r, count_hold_events_repeat. unfold hold_repeat_due. fold n0 p.
    destruct (Nat.leb_spec n0 (S n)) as [Hge|Hlt]; cbn [andb].
    + replace (S n - n0 + 1)%nat with (S (S n - n0)) by lia.
      rewrite (div_succ (S n - n0) p) by lia.
      destruct (Nat.leb_spec n0 n).
      * replace (n - n0 + 1)%nat with (S n - n0)%nat by lia. reflexivity.
      * replace (S n - n0)%nat with 0%nat by lia.
        rewrite Nat.Div0.div_0_l. reflexivity.
    + destruct (Nat.leb_spec n0 n); [lia|reflexivity].
Qed.

Lemma ticks_for_exact (a : nat) dt :
  0 < dt -> (0 < a)%nat -> ticks_for (Z.of_nat a * dt) dt = a.
Proof.
  intros Hdt Ha.
  assert (0 < Z.of_nat a * dt) as Hpos by nia.
  pose proof (ticks_for_spec (Z.of_nat a * dt) dt a Hdt Hpos) as H1.
  pose proof (ticks_for_spec (Z.of_nat a * dt) dt (ticks_for (Z.of_nat a * dt) dt) Hdt Hpos) as H2.
  assert (ticks_for (Z.of_nat a * dt) dt <= a)%nat by (apply H1; lia).
  assert (Z.of_nat a * dt <= Z.of_nat (ticks_for (Z.of_nat a * dt) dt) * dt)
    by (apply H2; lia).
  nia.
Qed.

(** When the tick delta divides the repeat start and the repeat period,
    [k] REPEAT events have been emitted once the press time is the repeat
    start plus [k] periods. *)
Lemma repeat_count_on_grid dt (n k : nat) :
  0 < dt ->
  (dt | KB_REPEAT_START_MS) -> (dt | KB_REPEAT_PERIOD_MS) ->
  Z.of_nat n * dt = KB_REPEAT_START_MS + KB_REPEAT_PERIOD_MS * Z.of_nat k ->
  let n0 := ticks_for KB_REPEAT_START_MS dt in
  let p := ticks_for KB_REPEAT_PERIOD_MS dt in
  (if (n0 <=? n)%nat then ((n - n0 + 1) / p)%nat else 0%nat) = k.
Proof.
  intros Hdt [a Ha] [b Hb] Hn n0 p.
  unfold KB_REPEAT_START_MS, KB_REPEAT_PERIOD_MS in *.
  assert (0 < a) as Ha0 by nia. assert (0 < b) as Hb0 by nia.
  assert (n0 = Z.to_nat a) as En0.
  { unfold n0. rewrite Ha. rewrite <- (Z2Nat.id a) at 1 by lia.
    apply ticks_for_exact; lia. }
  assert (p = Z.to_nat b) as Ep.
  { unfold p. rewrite Hb. rewrite <- (Z2Nat.id b) at 1 by lia.
    apply ticks_for_exact; lia. }
  assert (dt <= 20) as Hdt20.
  { assert (20 = (a - 6 * b) * dt) as H20 by lia. nia. }
  assert (4 <= b) as Hb4 by nia.
  assert (Z.of_nat n = a + b * Z.of_nat k) as Hnk by nia.
  destruct (Nat.leb_spec n0 n) as [Hge|Hlt]; [|nia].
  symmetry. apply (Nat.div_unique _ p k 1%nat); [lia|]. nia.
Qed.

(** On that grid the REPEAT ticks are those on which the press time is one
    delta short of the repeat start plus a positive number of periods. *)
Lemma repeat_due_on_grid dt (i : nat) :
  0 < dt ->
  (dt | KB_REPEAT_START_MS) -> (dt | KB_REPEAT_PERIOD_MS) ->
  hold_repeat_due dt i = true
  <-> exists j : nat, (1 <= j)%nat
      /\ Z.of_nat i * dt + dt
         = KB_REPEAT_START_MS + KB_REPEAT_PERIOD_MS * Z.of_nat j.
Proof.
  intros Hdt [a Ha] [b Hb]. unfold hold_repeat_due.
  set (n0 := ticks_for KB_REPEAT_START_MS dt).
  set (p := ticks_for KB_REPEAT_PERIOD_MS dt).
  unfold KB_REPEAT_START_MS, KB_REPEAT_PERIOD_MS in *.
  assert (0 < a) as Ha0 by nia. assert (0 < b) as Hb0 by nia.
  assert (n0 = Z.to_nat a) as En0.
  { unfold n0. rewrite Ha. rewrite <- (Z2Nat.id a) at 1 by lia.
    apply ticks_for_exact; lia. }
  assert (p = Z.to_nat b) as Ep.
  { unfold p. rewrite Hb. rewrite <- (Z2Nat.id b) at 1 by lia.
    apply ticks_for_exact; lia. }
  rewrite andb_true_iff, Nat.leb_le, Nat.eqb_eq. split.
  - intros [Hge Hmod].
    pose proof (Nat.div_mod_eq (i - n0 + 1) p) as Hdm. rewrite Hmod in Hdm.
    exists ((i - n0 + 1) / p)%nat. split; nia.
  - intros (j & Hj & Hij).
    assert (Z.of_nat i + 1 = a + b * Z.of_nat j) as Hi by nia.
    split; [nia|].
    symmetry. apply (Nat.mod_unique _ p j 0%nat); nia.
Qed.

(** A released key sees the active level for [d + n] ticks: [d] ticks of
    debounce, then the press and the events of a held key. *)
Lemma key_hold dt n rt :
  0 < dt < 2 ^ 32 ->
  raw_last rt = 0 -> stable rt = 0 ->
  (1 <= n)%nat -> Z.of_nat n * dt < 2 ^ 32 ->
  let d := ticks_for KB_DEBOUNCE_MS dt in
  snd (kb_key_run dt (replicate (d + n) 1) rt)
  = snd (kb_gest_run dt d rt)
    ++ cons_first [KB_EVT_PRESS] (map (hold_events dt) (seq 1 n)).
Proof.
  intros Hdt Hr Hs Hn Hnw d.
  destruct (run_edge dt 0 1 (d + n) rt Hdt Hr Hs ltac:(lia) ltac:(fold d; lia))
    as (D & F1 & F2 & F3 & -> & _).
  fold d. replace (d + n - d)%nat with n by lia.
  destruct (stab_press D F1 ltac:(lia)) as [-> HS].
  set (S1 := fst (kb_stab_step D)) in *.
  unfold gest_of in HS. injection HS as E1 E2 _ E4 E5 _.
  destruct (gest_run_hold_exact dt n S1 Hdt Hnw) as (_ & _ & _ & _ & ->);
    try assumption; [lia|reflexivity].
Qed.

End Hold.

(** C2, as the code has it.  One registered key, released and settled, sees
    the active level on [d + n] ticks of delta [dt], where [d] ticks are
    spent on debounce; tick [i] of the press is tick [d + i] of the run and
    the press time after it is [i * dt].
    (1) From the press on, the kinds delivered tick by tick are PRESS on
    tick 1 and, on tick [i], LONGPRESS when [i] is the first tick whose
    press time reaches the long-press threshold and REPEAT when the repeat
    accumulator, started at the repeat-start threshold, reaches the period.
    (2) LONGPRESS is delivered once if the press lasted the long-press
    threshold, and never twice.
    (3) The number of REPEAT events is counted from the repeat-start
    threshold alone.
    (4) When [dt] divides the repeat start and the repeat period, a press
    time of repeat start plus [k] periods has delivered exactly [k] REPEAT
    events, and REPEAT falls exactly on the ticks that end one delta before
    repeat start plus [j >= 1] periods: one period apart. *)
Theorem hold_longpress_once_and_repeat
    (c : keyboard_control_t) (node : keyboard_que_t) (dt : Z)
    (rt : kb_key_runtime_t) (rest : list kb_key_runtime_t) (n : nat)
    (ticks : list (Z * kb_hw)) :
  kb_single_key c node ->
  0 < dt < 2 ^ 32 ->
  raw_last rt = 0 -> stable rt = 0 ->
  (1 <= n)%nat -> Z.of_nat n * dt < 2 ^ 32 ->
  let d := ticks_for KB_DEBOUNCE_MS dt in
  kb_levels c node dt ticks (replicate (d + n) 1) ->
  let kinds := kb_kinds (snd (keyboard_poll_run (Some c) ticks (rt :: rest))) in
  drop d kinds = cons_first [KB_EVT_PRESS] (map (hold_events dt) (seq 1 n))
  /\ count_evt KB_EVT_LONGPRESS (concat kinds)
     = (if KB_LONGPRESS_MS <=? Z.of_nat n * dt then 1%nat else 0%nat)
  /\ count_evt KB_EVT_REPEAT (concat kinds)
     = (if (ticks_for KB_REPEAT_START_MS dt <=? n)%nat
        then ((n - ticks_for KB_REPEAT_START_MS dt + 1)
              / ticks_for KB_REPEAT_PERIOD_MS dt)%nat
        else 0%nat)
  /\ ((dt | KB_REPEAT_START_MS) -> (dt | KB_REPEAT_PERIOD_MS) ->
      (forall k : nat,
          Z.of_nat n * dt = KB_REPEAT_START_MS + KB_REPEAT_PERIOD_MS * Z.of_nat k ->
          count_evt KB_EVT_REPEAT (concat kinds) = k)
      /\ (forall i : nat,
             hold_repeat_due dt i = true
             <-> exists j : nat, (1 <= j)%nat
                 /\ Z.of_nat i * dt + dt
                    = KB_REPEAT_START_MS + KB_REPEAT_PERIOD_MS * Z.of_nat j)).
Proof.
  intros Hsingle Hdt Hr Hs Hn Hnw d Hlv kinds.
  assert (kinds = snd (kb_gest_run dt d rt)
                  ++ cons_first [KB_EVT_PRESS] (map (hold_events dt) (seq 1 n))) as Hk.
  { unfold kinds.
    rewrite (kb_kinds_single c node Hsingle dt ticks _ rt rest ltac:(lia) Hlv).
    apply key_hold; assumption. }
  assert (forall e, e <> KB_EVT_CLICK -> e <> KB_EVT_PRESS ->
            count_evt e (concat kinds)
            = count_evt e (concat (map (hold_events dt) (seq 1 n)))) as Hcount.
  { intros e He1 He2. rewrite Hk, concat_app, count_evt_app.
    rewrite (count_evt_concat_absent e (eq KB_EVT_CLICK));
      [| intros x <-; congruence | apply gest_run_released; exact Hs].
    rewrite concat_cons_first.
    - rewrite count_evt_app. cbn [count_evt count_occ].
      destruct (kb_event_eq_dec KB_EVT_PRESS e); [congruence|reflexivity].
    - destruct n; [lia|]. discriminate. }
  assert (count_evt KB_EVT_REPEAT (concat kinds)
          = (if (ticks_for KB_REPEAT_START_MS dt <=? n)%nat
             then ((n - ticks_for KB_REPEAT_START_MS dt + 1)
                   / ticks_for KB_REPEAT_PERIOD_MS dt)%nat
             else 0%nat)) as Hrep.
  { rewrite Hcount by discriminate. apply count_hold_repeat. lia. }
  split_and!.
  - rewrite Hk. rewrite <- (kb_gest_run_length dt d rt) at 1.
    apply drop_app_length.
  - rewrite Hcount by discriminate. rewrite count_hold_longpress by lia.
    pose proof (ticks_for_spec KB_LONGPRESS_MS dt n ltac:(lia) ltac:(reflexivity)) as Hsp.
    destruct (Nat.leb_spec (ticks_for KB_LONGPRESS_MS dt) n);
      destruct (Z.leb_spec KB_LONGPRESS_MS (Z.of_nat n * dt)); try reflexivity; lia.
  - exact Hrep.
  - intros Hd1 Hd2. split.
    + intros k Hnk. rewrite Hrep. apply repeat_count_on_grid; try assumption; lia.
    + intros i. apply repeat_due_on_grid; try assumption; lia.
Qed.

Lemma hold_longpress_once_and_repeat_witness :
  count_evt KB_EVT_LONGPRESS
    (concat (kb_kinds (snd (keyboard_poll_run (Some demo_ctl)
                              (replicate 66 (demo_tick 20 1)) key_rt_zero))))
  = 1%nat
  /\ count_evt KB_EVT_REPEAT
       (concat (kb_kinds (snd (keyboard_poll_run (Some demo_ctl)
                                 (replicate 66 (demo_tick 20 1)) key_rt_zero))))
     = 10%nat.
Proof.
  assert (kb_single_key demo_ctl demo_node) as Hsingle
      by (split; [reflexivity|split; [cbn; lia|reflexivity]]).
  change key_rt_zero with (rt_zero :: replicate 15 rt_zero).
  destruct (hold_longpress_once_and_repeat demo_ctl demo_node 20 rt_zero
              (replicate 15 rt_zero) 65 (replicate 66 (demo_tick 20 1)) Hsingle)
    as (_ & H2 & _ & H4);
    [lia | reflexivity | reflexivity | lia | lia | repeat constructor |].
  split.
  - rewrite H2. reflexivity.
  - destruct H4 as [H5 _]; [exists 25; reflexivity | exists 4; reflexivity |].
    apply H5. reflexivity.
Defined.

(** C2 as stated fails: REPEAT is not held back until the long-press
    threshold has passed.  With a delta of 20 ms, a press time of 1300 ms is
    the long-press threshold plus the repeat start plus zero periods, and
    ten REPEAT events have been delivered by then. *)
Lemma repeat_not_delayed_by_longpress_counterexample :
  ~ (forall n k : nat,
        Z.of_nat n * 20
        = KB_LONGPRESS_MS + KB_REPEAT_START_MS + KB_REPEAT_PERIOD_MS * Z.of_nat k ->
        count_evt KB_EVT_REPEAT
          (concat (kb_kinds (snd (keyboard_poll_run (Some demo_ctl)
                                    (replicate (1 + n) (demo_tick 20 1))
                                    key_rt_zero))))
        = k).
Proof.
  intros H. specialize (H 65%nat 0%nat eq_refl). vm_compute in H. discriminate H.
Qed.

(** * Click and double click (claim C3) *)

Section Click.

Lemma gest_of_fields a b :
  gest_of a = gest_of b ->
  stable a = stable b /\ long_sent a = long_sent b
  /\ click_count a = click_count b /\ press_ms a = press_ms b
  /\ repeat_ms a = repeat_ms b /\ click_wait_ms a = click_wait_ms b.
Proof. unfold gest_of. intros [= -> -> -> -> -> ->]. split_and!; reflexivity. Qed.

Lemma map_count_zero e (ll : list (list kb_event_t)) :
  Forall (Forall (fun x => x <> e)) ll ->
  map (count_evt e) ll = replicate (length ll) 0%nat.
Proof.
  induction 1 as [|l ll Hl _ IH]; [reflexivity|].
  cbn [map length replicate]. rewrite IH. f_equal.
  apply (count_evt_absent e (fun x => x <> e)); auto.
Qed.

Lemma Forall2_impl_evt (P Q : kb_event_t -> Prop) (ll : list (list kb_event_t)) :
  (forall x, P x -> Q x) -> Forall (Forall P) ll -> Forall (Forall Q) ll.
Proof.
  intros HPQ Hll. induction Hll as [|l ll Hl _ IH]; constructor; [|exact IH].
  induction Hl; constructor; auto.
Qed.

Lemma Forall_cons_first (Q : kb_event_t -> Prop) pre ll :
  Forall Q pre -> Forall (Forall Q) ll -> Forall (Forall Q) (cons_first pre ll).
Proof.
  intros Hpre Hll. destruct Hll as [|l ll Hl Hll]; [constructor|].
  cbn. constructor; [|assumption]. apply Forall_app. split; assumption.
Qed.

Lemma length_cons_first {A} (pre : list A) ll :
  length (cons_first pre ll) = length ll.
Proof. destruct ll; reflexivity. Qed.

Lemma Forall_replicate_nil (Q : kb_event_t -> Prop) n :
  Forall (Forall Q) (replicate n []).
Proof. apply Forall_replicate. constructor. Qed.

(** A released, settled key sees the active level for [m > d] ticks and
    is not held long enough for a long press. *)
Lemma key_press_segment dt m rt :
  0 < dt < 2 ^ 32 ->
  raw_last rt = 0 -> stable rt = 0 ->
  let d := ticks_for KB_DEBOUNCE_MS dt in
  (d < m)%nat -> Z.of_nat (m - d) * dt < KB_LONGPRESS_MS ->
  click_count rt = 0
  \/ (click_count rt = 1 /\ 0 <= click_wait_ms rt
      /\ click_wait_ms rt + Z.of_nat d * dt < KB_DOUBLE_CLICK_MS) ->
  let r := kb_key_run dt (replicate m 1) rt in
  raw_last (fst r) = 1 /\ stable (fst r) = 1
  /\ long_sent (fst r) = 0 /\ press_ms (fst r) = Z.of_nat (m - d) * dt
  /\ click_count (fst r) = click_count rt
  /\ click_wait_ms (fst r)
     = (if click_count rt =? 1 then click_wait_ms rt + Z.of_nat d * dt
        else click_wait_ms rt)
  /\ Forall (Forall (fun x => x = KB_EVT_PRESS \/ x = KB_EVT_REPEAT)) (snd r)
  /\ length (snd r) = m.
Proof.
  intros Hdt Hr Hs d Hm Hshort Hclick r.
  destruct (run_edge dt 0 1 m rt Hdt Hr Hs ltac:(lia) Hm)
    as (D & F1 & F2 & F3 & F4 & F5 & F6).
  fold d in F3, F4, F5. fold r in F4, F5, F6.
  assert (kb_gest_run dt d rt
          = (set_click_wait_ms
               (if click_count rt =? 1 then click_wait_ms rt + Z.of_nat d * dt
                else click_wait_ms rt) rt,
             replicate d [])) as Hpre.
  { destruct Hclick as [Hc|(Hc & Hw & Hlt)]; rewrite Hc; cbn [Z.eqb Pos.eqb].
    - rewrite gest_run_idle by (try assumption; lia). destruct rt; reflexivity.
    - apply gest_run_wait; try assumption; lia. }
  rewrite Hpre in F3, F4. cbn [fst snd] in F3, F4.
  destruct (gest_of_fields _ _ F3) as (D1 & D2 & D3 & D4 & D5 & D6).
  cbn [set_click_wait_ms stable long_sent click_count press_ms repeat_ms
       click_wait_ms] in D1, D2, D3, D4, D5, D6.
  destruct (stab_press D F1 ltac:(lia)) as [HE HS].
  set (S1 := fst (kb_stab_step D)) in *.
  rewrite F2, D3, D6 in HS.
  assert (gest_of S1 = gest_of S1) as HS' by reflexivity.
  unfold gest_of at 1 in HS'. rewrite HS in HS'.
  injection HS' as S1s S1l S1c S1p S1r S1w.
  assert (stable S1 <> 0) as HsS by lia.
  destruct (gest_run_hold dt (m - d) S1 HsS) as (H1 & H2 & H3 & H4).
  destruct (gest_run_hold_short dt (m - d) S1 HsS) as (H5 & H6 & H7);
    [congruence | lia | lia | lia |].
  destruct (gest_of_fields _ _ F5) as (E1 & E2 & E3 & E4 & E5 & E6).
  rewrite F4, HE.
  split_and!; try congruence; try lia.
  - apply Forall_app. split.
    + apply Forall_replicate_nil.
    + apply Forall_cons_first; [forall_solve|].
      eapply Forall2_impl_evt; [|exact H7]. intros x <-. auto.
  - rewrite length_app, length_replicate, length_cons_first, kb_gest_run_length. lia.
Qed.

(** A pressed, settled key, not yet long-pressed, sees the inactive level
    for [m > d] ticks: the timers of the press run for [d] more ticks,
    then the release is recognised. *)
Lemma key_release_edge dt m rt :
  0 < dt < 2 ^ 32 ->
  raw_last rt = 1 -> stable rt = 1 -> long_sent rt = 0 ->
  let d := ticks_for KB_DEBOUNCE_MS dt in
  0 <= press_ms rt -> press_ms rt + Z.of_nat d * dt < KB_LONGPRESS_MS ->
  (d < m)%nat ->
  let r := kb_key_run dt (replicate m 0) rt in
  exists D H,
    kb_flips D = true /\ raw_last D = 0 /\ long_sent D = 0
    /\ click_count D = click_count rt /\ click_wait_ms D = click_wait_ms rt
    /\ Forall (Forall (eq KB_EVT_REPEAT)) H /\ length H = d
    /\ snd r = H ++ cons_first (snd (kb_stab_step D))
                               (snd (kb_gest_run dt (m - d) (fst (kb_stab_step D))))
    /\ gest_of (fst r) = gest_of (fst (kb_gest_run dt (m - d) (fst (kb_stab_step D))))
    /\ raw_last (fst r) = 0.
Proof.
  intros Hdt Hr Hs Hl d Hp Hshort Hm r.
  destruct (run_edge dt 1 0 m rt Hdt Hr Hs ltac:(lia) Hm)
    as (D & F1 & F2 & F3 & F4 & F5 & F6).
  fold d in F3, F4, F5. fold r in F4, F5, F6.
  assert (stable rt <> 0) as Hs0 by lia.
  destruct (gest_run_hold dt d rt Hs0) as (H1 & H2 & H3 & _).
  destruct (gest_run_hold_short dt d rt Hs0 Hl Hp ltac:(lia) Hshort) as (H5 & _ & H7).
  destruct (gest_of_fields _ _ F3) as (D1 & D2 & D3 & D4 & D5 & D6).
  exists D, (snd (kb_gest_run dt d rt)).
  split_and!; try assumption; try congruence.
  apply kb_gest_run_length.
Qed.

Lemma key_release_first_short dt m rt :
  0 < dt < 2 ^ 32 ->
  raw_last rt = 1 -> stable rt = 1 -> long_sent rt = 0 ->
  let d := ticks_for KB_DEBOUNCE_MS dt in
  0 <= press_ms rt -> press_ms rt + Z.of_nat d * dt < KB_LONGPRESS_MS ->
  (d < m)%nat ->
  click_count rt = 0 -> Z.of_nat (m - d) * dt < KB_DOUBLE_CLICK_MS ->
  let r := kb_key_run dt (replicate m 0) rt in
  raw_last (fst r) = 0 /\ stable (fst r) = 0
  /\ click_count (fst r) = 1 /\ click_wait_ms (fst r) = Z.of_nat (m - d) * dt
  /\ Forall (Forall (fun x => x = KB_EVT_RELEASE \/ x = KB_EVT_REPEAT)) (snd r)
  /\ length (snd r) = m.
Proof.
  intros Hdt Hr Hs Hl d Hp Hshort Hm Hc Hw r.
  destruct (key_release_edge dt m rt Hdt Hr Hs Hl Hp Hshort Hm)
    as (D & H & F1 & F2 & F3 & F4 & F5 & F6 & F7 & F8 & F9 & F10).
  fold d in F7, F8, F9. fold r in F8, F9, F10.
  destruct (stab_release_first D F1 F2 F3 ltac:(congruence)) as [HE HS].
  set (S1 := fst (kb_stab_step D)) in *.
  assert (gest_of S1 = gest_of S1) as HS' by reflexivity.
  unfold gest_of at 1 in HS'. rewrite HS in HS'.
  injection HS' as S1s S1l S1c S1p S1r S1w.
  rewrite (gest_run_wait dt (m - d) S1) in F8, F9 by (try assumption; lia).
  cbn [fst snd] in F8, F9.
  destruct (gest_of_fields _ _ F9) as (E1 & E2 & E3 & E4 & E5 & E6).
  cbn [set_click_wait_ms stable long_sent click_count press_ms repeat_ms
       click_wait_ms] in E1, E3, E6.
  rewrite F8, HE.
  split_and!; try congruence; try lia.
  - apply Forall_app. split.
    + eapply Forall2_impl_evt; [|exact F6]. intros x <-. auto.
    + apply Forall_cons_first; [forall_solve|]. apply Forall_replicate_nil.
  - rewrite length_app, length_cons_first, length_replicate. lia.
Qed.

Lemma key_release_first_long dt m rt :
  0 < dt < 2 ^ 32 ->
  raw_last rt = 1 -> stable rt = 1 -> long_sent rt = 0 ->
  let d := ticks_for KB_DEBOUNCE_MS dt in
  let c := ticks_for KB_DOUBLE_CLICK_MS dt in
  0 <= press_ms rt -> press_ms rt + Z.of_nat d * dt < KB_LONGPRESS_MS ->
  click_count rt = 0 -> (d + c <= m)%nat ->
  let r := kb_key_run dt (replicate m 0) rt in
  raw_last (fst r) = 0 /\ stable (fst r) = 0 /\ click_count (fst r) = 0
  /\ map (count_evt KB_EVT_CLICK) (snd r)
     = replicate (d + c - 1) 0%nat ++ 1%nat :: replicate (m - d - c) 0%nat
  /\ Forall (Forall (fun x => x = KB_EVT_RELEASE \/ x = KB_EVT_REPEAT
                             \/ x = KB_EVT_CLICK)) (snd r).
Proof.
  intros Hdt Hr Hs Hl d c Hp Hshort Hc Hm r.
  pose proof (ticks_for_pos KB_DOUBLE_CLICK_MS dt ltac:(lia) ltac:(reflexivity)) as Hc1.
  fold c in Hc1.
  destruct (key_release_edge dt m rt Hdt Hr Hs Hl Hp Hshort ltac:(fold d; lia))
    as (D & H & F1 & F2 & F3 & F4 & F5 & F6 & F7 & F8 & F9 & F10).
  fold d in F7, F8, F9. fold r in F8, F9, F10.
  destruct (stab_release_first D F1 F2 F3 ltac:(congruence)) as [HE HS].
  set (S1 := fst (kb_stab_step D)) in *.
  assert (gest_of S1 = gest_of S1) as HS' by reflexivity.
  unfold gest_of at 1 in HS'. rewrite HS in HS'.
  injection HS' as S1s S1l S1c S1p S1r S1w.
  rewrite (gest_run_click dt (m - d) S1) in F8, F9 by (try assumption; fold c; lia).
  fold c in F8. cbn [fst snd] in F8, F9.
  destruct (gest_of_fields _ _ F9) as (E1 & E2 & E3 & E4 & E5 & E6).
  cbn [set_click_wait_ms set_click_count stable long_sent click_count press_ms
       repeat_ms click_wait_ms] in E1, E3, E6.
  rewrite F8, HE.
  split_and!; try congruence.
  - rewrite map_app.
    rewrite (map_count_zero KB_EVT_CLICK H)
      by (eapply Forall2_impl_evt; [|exact F6]; intros x <-; discriminate).
    rewrite F7.
    destruct c as [|c']; [lia|]. replace (S c' - 1)%nat with c' by lia.
    replace (d + S c' - 1)%nat with (d + c')%nat by lia.
    rewrite replicate_add, <- app_assoc. f_equal.
    replace (m - d - S c')%nat with (m - d - S c')%nat by lia.
    destruct c' as [|c'']; cbn [replicate app cons_first map].
    + f_equal. rewrite map_count_zero by apply Forall_replicate_nil.
      rewrite length_replicate. reflexivity.
    + f_equal. rewrite map_app. cbn [map].
      rewrite !map_count_zero by apply Forall_replicate_nil.
      rewrite !length_replicate. reflexivity.
  - apply Forall_app. split.
    + eapply Forall2_impl_evt; [|exact F6]. intros x <-. auto.
    + apply Forall_cons_first; [forall_solve|].
      apply Forall_app. split; [apply Forall_replicate_nil|].
      constructor; [forall_solve|apply Forall_replicate_nil].
Qed.

Lemma key_release_second dt m rt :
  0 < dt < 2 ^ 32 ->
  raw_last rt = 1 -> stable rt = 1 -> long_sent rt = 0 ->
  let d := ticks_for KB_DEBOUNCE_MS dt in
  0 <= press_ms rt -> press_ms rt + Z.of_nat d * dt < KB_LONGPRESS_MS ->
  (d < m)%nat ->
  click_count rt = 1 -> click_wait_ms rt <= KB_DOUBLE_CLICK_MS ->
  let r := kb_key_run dt (replicate m 0) rt in
  raw_last (fst r) = 0 /\ stable (fst r) = 0 /\ click_count (fst r) = 0
  /\ map (count_evt KB_EVT_DOUBLE_CLICK) (snd r)
     = replicate d 0%nat ++ 1%nat :: replicate (m - d - 1) 0%nat
  /\ Forall (Forall (fun x => x = KB_EVT_RELEASE \/ x = KB_EVT_REPEAT
                             \/ x = KB_EVT_DOUBLE_CLICK)) (snd r).
Proof.
  intros Hdt Hr Hs Hl d Hp Hshort Hm Hc Hw r.
  destruct (key_release_edge dt m rt Hdt Hr Hs Hl Hp Hshort Hm)
    as (D & H & F1 & F2 & F3 & F4 & F5 & F6 & F7 & F8 & F9 & F10).
  fold d in F7, F8, F9. fold r in F8, F9, F10.
  destruct (stab_release_second D F1 F2 F3 ltac:(congruence) ltac:(congruence))
    as [HE HS].
  set (S1 := fst (kb_stab_step D)) in *.
  assert (gest_of S1 = gest_of S1) as HS' by reflexivity.
  unfold gest_of at 1 in HS'. rewrite HS in HS'.
  injection HS' as S1s S1l S1c S1p S1r S1w.
  rewrite (gest_run_idle dt (m - d) S1) in F8, F9 by (try assumption; lia).
  cbn [fst snd] in F8, F9.
  destruct (gest_of_fields _ _ F9) as (E1 & E2 & E3 & E4 & E5 & E6).
  rewrite F8, HE.
  split_and!; try congruence.
  - rewrite map_app.
    rewrite (map_count_zero KB_EVT_DOUBLE_CLICK H)
      by (eapply Forall2_impl_evt; [|exact F6]; intros x <-; discriminate).
    rewrite F7. f_equal.
    destruct (m - d)%nat as [|k] eqn:Ek; [lia|].
    cbn [replicate cons_first map app]. f_equal.
    rewrite map_count_zero by apply Forall_replicate_nil.
    rewrite length_replicate. f_equal. lia.
  - apply Forall_app. split.
    + eapply Forall2_impl_evt; [|exact F6]. intros x <-. auto.
    + apply Forall_cons_first; [forall_solve|]. apply Forall_replicate_nil.
Qed.

Lemma absent_in e (P : kb_event_t -> Prop) ll :
  Forall (Forall P) ll -> (forall x, P x -> x <> e) ->
  count_evt e (concat ll) = 0%nat.
Proof. intros Hll HP. exact (count_evt_concat_absent e P ll HP Hll). Qed.

Lemma of_nat_sub_mul (a d : nat) dt :
  (d <= a)%nat -> Z.of_nat (a - d) * dt = Z.of_nat a * dt - Z.of_nat d * dt.
Proof. intros H. rewrite Nat2Z.inj_sub by exact H. ring. Qed.

(** One press/release pair, then the inactive level until the window has
    elapsed: CLICK on the tick that ends the window, on no other. *)
Lemma key_click dt a b rt :
  0 < dt < 2 ^ 32 ->
  raw_last rt = 0 -> stable rt = 0 -> click_count rt = 0 ->
  let d := ticks_for KB_DEBOUNCE_MS dt in
  let w := ticks_for KB_DOUBLE_CLICK_MS dt in
  (d < a)%nat -> Z.of_nat a * dt < KB_LONGPRESS_MS -> (d + w <= b)%nat ->
  let kinds := snd (kb_key_run dt (replicate a 1 ++ replicate b 0) rt) in
  map (count_evt KB_EVT_CLICK) kinds
  = replicate (a + d + w - 1) 0%nat ++ 1%nat :: replicate (b - d - w) 0%nat
  /\ count_evt KB_EVT_DOUBLE_CLICK (concat kinds) = 0%nat.
Proof.
  intros Hdt Hr Hs Hc d w Ha Hshort Hb kinds.
  pose proof (ticks_for_pos KB_DOUBLE_CLICK_MS dt ltac:(lia) ltac:(reflexivity)) as Hw.
  fold w in Hw.
  assert (0 <= Z.of_nat d * dt) as Hd0 by nia.
  pose proof (of_nat_sub_mul a d dt ltac:(lia)) as Had.
  unfold kinds. rewrite kb_key_run_app. cbn [snd].
  destruct (key_press_segment dt a rt Hdt Hr Hs ltac:(fold d; lia) ltac:(fold d; lia)
              ltac:(left; exact Hc))
    as (A1 & A2 & A3 & A4 & A5 & A6 & A7 & A8).
  fold d in A4.
  set (rtA := fst (kb_key_run dt (replicate a 1) rt)) in *.
  destruct (key_release_first_long dt b rtA Hdt A1 A2 A3)
    as (B1 & B2 & B3 & B4 & B5);
    [fold d; lia | fold d; lia | congruence | fold d w; lia |].
  fold d w in B4. split.
  - rewrite map_app, B4.
    rewrite map_count_zero
      by (eapply Forall2_impl_evt; [|exact A7]; intros x [->| ->]; discriminate).
    rewrite A8, app_assoc, <- replicate_add. do 2 f_equal. lia.
  - rewrite concat_app, count_evt_app.
    rewrite (absent_in _ _ _ A7), (absent_in _ _ _ B5);
      [reflexivity | |]; intros x Hx; intuition congruence.
Qed.

(** Two press/release pairs, the second press recognised before the
    window of the first release has elapsed: DOUBLE_CLICK on the tick
    that recognises the second release, and no CLICK. *)
Lemma key_double_click dt a b a2 b2 rt :
  0 < dt < 2 ^ 32 ->
  raw_last rt = 0 -> stable rt = 0 -> click_count rt = 0 ->
  let d := ticks_for KB_DEBOUNCE_MS dt in
  (d < a)%nat -> Z.of_nat a * dt < KB_LONGPRESS_MS ->
  (d < b)%nat -> Z.of_nat b * dt < KB_DOUBLE_CLICK_MS ->
  (d < a2)%nat -> Z.of_nat a2 * dt < KB_LONGPRESS_MS ->
  (d < b2)%nat ->
  let kinds :=
    snd (kb_key_run dt (replicate a 1 ++ replicate b 0
                        ++ replicate a2 1 ++ replicate b2 0) rt) in
  map (count_evt KB_EVT_DOUBLE_CLICK) kinds
  = replicate (a + b + a2 + d) 0%nat ++ 1%nat :: replicate (b2 - d - 1) 0%nat
  /\ count_evt KB_EVT_CLICK (concat kinds) = 0%nat.
Proof.
  intros Hdt Hr Hs Hc d Ha Hsa Hb Hsb Ha2 Hsa2 Hb2 kinds.
  assert (0 <= Z.of_nat d * dt) as Hd0 by nia.
  pose proof (of_nat_sub_mul a d dt ltac:(lia)) as Had.
  pose proof (of_nat_sub_mul b d dt ltac:(lia)) as Hbd.
  pose proof (of_nat_sub_mul a2 d dt ltac:(lia)) as Ha2d.
  unfold kinds. rewrite !kb_key_run_app. cbn [fst snd].
  destruct (key_press_segment dt a rt Hdt Hr Hs ltac:(fold d; lia) ltac:(fold d; lia)
              ltac:(left; exact Hc))
    as (A1 & A2 & A3 & A4 & A5 & A6 & A7 & A8).
  fold d in A4.
  set (rtA := fst (kb_key_run dt (replicate a 1) rt)) in *.
  destruct (key_release_first_short dt b rtA Hdt A1 A2 A3)
    as (B1 & B2 & B3 & B4 & B5 & B6);
    [fold d; lia | fold d; lia | fold d; lia | congruence | fold d; lia |].
  fold d in B4.
  set (rtB := fst (kb_key_run dt (replicate b 0) rtA)) in *.
  destruct (key_press_segment dt a2 rtB Hdt B1 B2 ltac:(fold d; lia) ltac:(fold d; lia))
    as (C1 & C2 & C3 & C4 & C5 & C6 & C7 & C8);
    [right; fold d; split_and!; [assumption|nia|lia] |].
  fold d in C4, C6. rewrite B3 in C5, C6. cbn [Z.eqb Pos.eqb] in C6.
  set (rtC := fst (kb_key_run dt (replicate a2 1) rtB)) in *.
  destruct (key_release_second dt b2 rtC Hdt C1 C2 C3)
    as (D1 & D2 & D3 & D4 & D5);
    [fold d; lia | fold d; lia | fold d; lia | congruence | lia |].
  fold d in D4. split.
  - rewrite !map_app, D4.
    rewrite (map_count_zero _ (snd (kb_key_run dt (replicate a 1) rt)))
      by (eapply Forall2_impl_evt; [|exact A7]; intros x [->| ->]; discriminate).
    rewrite (map_count_zero _ (snd (kb_key_run dt (replicate b 0) rtA)))
      by (eapply Forall2_impl_evt; [|exact B5]; intros x [->| ->]; discriminate).
    rewrite (map_count_zero _ (snd (kb_key_run dt (replicate a2 1) rtB)))
      by (eapply Forall2_impl_evt; [|exact C7]; intros x [->| ->]; discriminate).
    rewrite A8, B6, C8, !app_assoc, <- !replicate_add. reflexivity.
  - rewrite !concat_app, !count_evt_app.
    rewrite (absent_in _ _ _ A7), (absent_in _ _ _ B5),
      (absent_in _ _ _ C7), (absent_in _ _ _ D5);
      [reflexivity | | | |]; intros x Hx; intuition congruence.
Qed.

End Click.

(** C3.  One registered key, released, settled and with no click pending,
    polled with a fixed delta [dt]; [d] is the number of debounce ticks and
    [w] the number of ticks in the double-click window.  A press is "not a
    long press" when its press time, [a * dt] at the release, stays below
    the long-press threshold.
    (1) The active level for [a > d] ticks, then the inactive level for
    [b >= d + w] ticks: the per-tick CLICK counts are 0 up to and including
    tick [a + d + w - 1], 1 on tick [a + d + w] (the [w]-th tick from the
    one that recognised the release), and 0 afterwards; no DOUBLE_CLICK.
    (2) Two such pairs whose second press is recognised while the wait of
    the first release, [b * dt], is below the window: the per-tick
    DOUBLE_CLICK counts are 1 on the tick that recognises the second release
    and 0 elsewhere; no CLICK at all. *)
Theorem click_and_double_click
    (c : keyboard_control_t) (node : keyboard_que_t) (dt : Z)
    (rt : kb_key_runtime_t) (rest : list kb_key_runtime_t) :
  kb_single_key c node ->
  0 < dt < 2 ^ 32 ->
  raw_last rt = 0 -> stable rt = 0 -> click_count rt = 0 ->
  let d := ticks_for KB_DEBOUNCE_MS dt in
  let w := ticks_for KB_DOUBLE_CLICK_MS dt in
  (forall (a b : nat) ticks,
      (d < a)%nat -> Z.of_nat a * dt < KB_LONGPRESS_MS -> (d + w <= b)%nat ->
      kb_levels c node dt ticks (replicate a 1 ++ replicate b 0) ->
      let kinds := kb_kinds (snd (keyboard_poll_run (Some c) ticks (rt :: rest))) in
      map (count_evt KB_EVT_CLICK) kinds
      = replicate (a + d + w - 1) 0%nat ++ 1%nat :: replicate (b - d - w) 0%nat
      /\ count_evt KB_EVT_DOUBLE_CLICK (concat kinds) = 0%nat)
  /\ (forall (a b a2 b2 : nat) ticks,
      (d < a)%nat -> Z.of_nat a * dt < KB_LONGPRESS_MS ->
      (d < b)%nat -> Z.of_nat b * dt < KB_DOUBLE_CLICK_MS ->
      (d < a2)%nat -> Z.of_nat a2 * dt < KB_LONGPRESS_MS ->
      (d < b2)%nat ->
      kb_levels c node dt ticks
        (replicate a 1 ++ replicate b 0 ++ replicate a2 1 ++ replicate b2 0) ->
      let kinds := kb_kinds (snd (keyboard_poll_run (Some c) ticks (rt :: rest))) in
      map (count_evt KB_EVT_DOUBLE_CLICK) kinds
      = replicate (a + b + a2 + d) 0%nat ++ 1%nat :: replicate (b2 - d - 1) 0%nat
      /\ count_evt KB_EVT_CLICK (concat kinds) = 0%nat).
Proof.
  intros Hsingle Hdt Hr Hs Hc d w. split.
  - intros a b ticks Ha Hsa Hb Hlv kinds. unfold kinds.
    rewrite (kb_kinds_single c node Hsingle dt ticks _ rt rest ltac:(lia) Hlv).
    apply key_click; assumption.
  - intros a b a2 b2 ticks Ha Hsa Hb Hsb Ha2 Hsa2 Hb2 Hlv kinds. unfold kinds.
    rewrite (kb_kinds_single c node Hsingle dt ticks _ rt rest ltac:(lia) Hlv).
    apply key_double_click; assumption.
Qed.

Lemma click_and_double_click_witness :
  map (count_evt KB_EVT_CLICK)
      (kb_kinds (snd (keyboard_poll_run (Some demo_ctl)
                        (replicate 2 (demo_tick 50 1) ++ replicate 6 (demo_tick 50 0))
                        key_rt_zero)))
  = [0; 0; 0; 0; 0; 0; 0; 1]%nat
  /\ map (count_evt KB_EVT_DOUBLE_CLICK)
         (kb_kinds (snd (keyboard_poll_run (Some demo_ctl)
                           (replicate 2 (demo_tick 50 1) ++ replicate 2 (demo_tick 50 0)
                            ++ replicate 2 (demo_tick 50 1) ++ replicate 2 (demo_tick 50 0))
                           key_rt_zero)))
     = [0; 0; 0; 0; 0; 0; 0; 1]%nat.
Proof.
  assert (kb_single_key demo_ctl demo_node) as Hsingle
      by (split; [reflexivity|split; [cbn; lia|reflexivity]]).
  change key_rt_zero with (rt_zero :: replicate 15 rt_zero).
  destruct (click_and_double_click demo_ctl demo_node 50 rt_zero
              (replicate 15 rt_zero) Hsingle) as (H1 & H2);
    [lia | reflexivity | reflexivity | reflexivity |].
  split.
  - destruct (H1 2%nat 6%nat
                 (replicate 2 (demo_tick 50 1) ++ replicate 6 (demo_tick 50 0)))
      as [-> _]; [vm_compute; lia | vm_compute; reflexivity | vm_compute; lia
                 | repeat constructor | reflexivity].
  - destruct (H2 2%nat 2%nat 2%nat 2%nat
                 (replicate 2 (demo_tick 50 1) ++ replicate 2 (demo_tick 50 0)
                  ++ replicate 2 (demo_tick 50 1) ++ replicate 2 (demo_tick 50 0)))
      as [-> _]; [vm_compute; lia | vm_compute; reflexivity | vm_compute; lia
                 | vm_compute; reflexivity | vm_compute; lia | vm_compute; reflexivity
                 | vm_compute; lia | repeat constructor | reflexivity].
Defined.

(** * The scan pass over the whole registry *)

Section ScanPass.

Variables (ctl : keyboard_control_t) (dt : Z) (hwst : kb_hw) (snapshot : list Z).

(** The bounded loop records the first [cap] events of the tick and
    leaves the runtime records that the unbounded traversal leaves. *)
Lemma kb_scan_loop_all nodes idx key_rt pending :
  (length pending <= cap)%nat ->
  kb_scan_loop ctl dt hwst snapshot nodes idx key_rt pending
  = (fst (kb_scan_all ctl dt hwst snapshot nodes idx key_rt),
     take cap (pending ++ snd (kb_scan_all ctl dt hwst snapshot nodes idx key_rt))).
Proof.
  revert idx key_rt pending.
  induction nodes as [|node rest IH]; intros idx key_rt pending Hlen.
  - cbn [kb_scan_loop kb_scan_all fst snd]. rewrite app_nil_r, take_ge by exact Hlen.
    reflexivity.
  - cbn [kb_scan_loop kb_scan_all].
    destruct ((Z.of_nat idx <? key_num ctl) && (Z.of_nat idx <? KB_MAX_KEYS)).
    + destruct (key_rt !! idx) as [rt|].
      * rewrite kb_scan_key_take by exact Hlen.
        rewrite IH by apply length_take_cap.
        destruct (kb_scan_all ctl dt hwst snapshot rest (S idx) _) as [k' evs].
        cbn [fst snd]. rewrite take_take_app, app_assoc. reflexivity.
      * cbn [fst snd]. rewrite app_nil_r, take_ge by exact Hlen. reflexivity.
    + cbn [fst snd]. rewrite app_nil_r, take_ge by exact Hlen. reflexivity.
Qed.

Lemma kb_scan_all_length nodes idx key_rt :
  length (fst (kb_scan_all ctl dt hwst snapshot nodes idx key_rt)) = length key_rt.
Proof.
  revert idx key_rt. induction nodes as [|node rest IH]; intros idx key_rt; [reflexivity|].
  cbn [kb_scan_all].
  destruct ((Z.of_nat idx <? key_num ctl) && (Z.of_nat idx <? KB_MAX_KEYS)); [|reflexivity].
  destruct (key_rt !! idx) as [rt|]; [|reflexivity].
  specialize (IH (S idx) (<[idx := kb_key_next dt
                   (kb_read_raw ctl hwst node idx snapshot) rt]> key_rt)).
  destruct (kb_scan_all ctl dt hwst snapshot rest (S idx) _) as [k' evs].
  cbn [fst] in *. rewrite IH, length_insert. reflexivity.
Qed.

(** A property of single records that every key update preserves is
    preserved by the scan pass. *)
Lemma kb_scan_all_Forall (P : kb_key_runtime_t -> Prop) nodes idx key_rt :
  (forall raw rt, P rt -> P (kb_key_next dt raw rt)) ->
  Forall P key_rt ->
  Forall P (fst (kb_scan_all ctl dt hwst snapshot nodes idx key_rt)).
Proof.
  intros Hstep. revert idx key_rt.
  induction nodes as [|node rest IH]; intros idx key_rt Hall; [exact Hall|].
  cbn [kb_scan_all].
  destruct ((Z.of_nat idx <? key_num ctl) && (Z.of_nat idx <? KB_MAX_KEYS)); [|exact Hall].
  destruct (key_rt !! idx) as [rt|] eqn:Hrt; [|exact Hall].
  specialize (IH (S idx) (<[idx := kb_key_next dt
                   (kb_read_raw ctl hwst node idx snapshot) rt]> key_rt)).
  destruct (kb_scan_all ctl dt hwst snapshot rest (S idx) _) as [k' evs].
  cbn [fst] in *. apply IH. apply Forall_insert; [exact Hall|].
  apply Hstep. rewrite Forall_lookup in Hall. exact (Hall _ _ Hrt).
Qed.

(** At most three events per scanned key, and at most [KB_MAX_KEYS] keys. *)
Lemma kb_scan_all_events nodes idx key_rt :
  (Z.of_nat (length (snd (kb_scan_all ctl dt hwst snapshot nodes idx key_rt)))
   <= 3 * (KB_MAX_KEYS - Z.of_nat idx) \/
   snd (kb_scan_all ctl dt hwst snapshot nodes idx key_rt) = []).
Proof.
  revert idx key_rt. induction nodes as [|node rest IH]; intros idx key_rt; [right; reflexivity|].
  cbn [kb_scan_all].
  destruct (Z.ltb_spec (Z.of_nat idx) (key_num ctl)); cbn [andb]; [|right; reflexivity].
  destruct (Z.ltb_spec (Z.of_nat idx) KB_MAX_KEYS); [|right; reflexivity].
  destruct (key_rt !! idx) as [rt|]; [|right; reflexivity].
  specialize (IH (S idx) (<[idx := kb_key_next dt
                   (kb_read_raw ctl hwst node idx snapshot) rt]> key_rt)).
  destruct (kb_scan_all ctl dt hwst snapshot rest (S idx) _) as [k' evs].
  cbn [snd] in *. left. rewrite length_app, length_map.
  pose proof (kb_key_events_length dt (kb_read_raw ctl hwst node idx snapshot) rt).
  destruct IH as [IH| ->]; cbn [length]; lia.
Qed.

(** Each record is left alone or updated once from a raw sample. *)
Lemma kb_scan_all_lookup nodes idx key_rt i rt :
  key_rt !! i = Some rt ->
  fst (kb_scan_all ctl dt hwst snapshot nodes idx key_rt) !! i = Some rt
  \/ ((idx <= i)%nat
      /\ exists raw,
           fst (kb_scan_all ctl dt hwst snapshot nodes idx key_rt) !! i
           = Some (kb_key_next dt raw rt)).
Proof.
  revert idx key_rt rt. induction nodes as [|node rest IH]; intros idx key_rt rt Hi;
    [left; exact Hi|].
  cbn [kb_scan_all].
  destruct ((Z.of_nat idx <? key_num ctl) && (Z.of_nat idx <? KB_MAX_KEYS));
    [|left; exact Hi].
  destruct (key_rt !! idx) as [rt0|] eqn:Hrt0; [|left; exact Hi].
  set (raw := kb_read_raw ctl hwst node idx snapshot).
  specialize (IH (S idx) (<[idx := kb_key_next dt raw rt0]> key_rt)).
  destruct (kb_scan_all ctl dt hwst snapshot rest (S idx) _) as [k' evs].
  cbn [fst] in *.
  destruct (Nat.eq_dec i idx) as [->|Hne].
  - assert (rt0 = rt) as -> by congruence.
    destruct (IH (kb_key_next dt raw rt)) as [H|(Hle & _)].
    + apply list_lookup_insert_eq. apply lookup_lt_Some in Hi. exact Hi.
    + right. split; [lia|]. exists raw. exact H.
    + lia.
  - destruct (IH rt) as [H|(Hle & raw' & H)].
    + rewrite list_lookup_insert_ne by congruence. exact Hi.
    + left. exact H.
    + right. split; [lia|]. exists raw'. exact H.
Qed.

Lemma kb_scan_all_below_cap nodes key_rt :
  (length (snd (kb_scan_all ctl dt hwst snapshot nodes 0 key_rt)) <= 48)%nat.
Proof.
  destruct (kb_scan_all_events nodes 0 key_rt) as [H| ->]; [|cbn; lia].
  unfold KB_MAX_KEYS in H. lia.
Qed.

End ScanPass.

(** * [keyboard_poll] as a whole *)

Section Poll.

Lemma keyboard_poll_cases ctl dt hwst key_rt :
  keyboard_poll ctl dt hwst key_rt = (key_rt, [])
  \/ exists c snapshot,
       ctl = Some c /\ dt <> 0
       /\ keyboard_poll ctl dt hwst key_rt
          = (fst (kb_scan_all c dt hwst snapshot (head c) 0 key_rt),
             flat_map (kb_emit_event c)
               (take cap (snd (kb_scan_all c dt hwst snapshot (head c) 0 key_rt)))).
Proof.
  destruct ctl as [c|]; [|left; reflexivity]. cbn [keyboard_poll].
  destruct (Z.eqb_spec dt 0) as [|Hdt]; [left; reflexivity|].
  assert (forall snapshot,
             kb_scan_and_deliver c dt hwst snapshot key_rt
             = (fst (kb_scan_all c dt hwst snapshot (head c) 0 key_rt),
                flat_map (kb_emit_event c)
                  (take cap (snd (kb_scan_all c dt hwst snapshot (head c) 0 key_rt)))))
    as Hscan.
  { intros snapshot. unfold kb_scan_and_deliver.
    rewrite kb_scan_loop_all by (cbn; lia). reflexivity. }
  destruct (backend_mode c =? KB_BACKEND_CUSTOM).
  - destruct (scan_snapshot (keyboard_ops c)); cbn [negb]; [|left; reflexivity].
    destruct (hw_scan_snapshot hwst (key_num c)) as [ret buf].
    destruct (ret =? 0); cbn [negb]; [|left; reflexivity].
    right. exists c, buf. auto.
  - right. exists c, []. auto.
Qed.

Lemma keyboard_poll_Forall (P : kb_key_runtime_t -> Prop) ctl dt hwst key_rt :
  (forall raw rt, P rt -> P (kb_key_next dt raw rt)) ->
  Forall P key_rt ->
  Forall P (fst (keyboard_poll ctl dt hwst key_rt)).
Proof.
  intros Hstep Hall.
  destruct (keyboard_poll_cases ctl dt hwst key_rt) as [->|(c & snap & _ & _ & ->)];
    [exact Hall|].
  apply kb_scan_all_Forall; assumption.
Qed.

Lemma keyboard_register_key_rt cfg ctl g :
  key_rt (snd (keyboard_register_key cfg ctl g)) = key_rt g.
Proof.
  unfold keyboard_register_key.
  destruct ctl as [c|], cfg as [cf|]; try reflexivity.
  destruct (cfg_keyname cf); [|reflexivity].
  repeat match goal with
         | |- context [if ?b then _ else _] => destruct b; try reflexivity
         end.
  destruct (mpool_alloc (key_pool g) (key_pool_links g)) as [[ptr pool'] m'].
  destruct (ptr =? 0); reflexivity.
Qed.

(** A property of records that each key update preserves holds after any
    sequence of registrations and polls. *)
Lemma kb_do_calls_Forall (P : kb_key_runtime_t -> Prop) calls st :
  Forall (fun call => match call with
                      | CallPoll dt _ =>
                        forall raw rt, P rt -> P (kb_key_next dt raw rt)
                      | CallRegister _ => True
                      end) calls ->
  Forall P (key_rt (snd st)) ->
  Forall P (key_rt (snd (kb_do_calls calls st))).
Proof.
  intros Hcalls. revert st.
  induction Hcalls as [|call calls Hcall _ IH]; intros [ctl g] Hall; [exact Hall|].
  cbn [kb_do_calls fold_left]. apply IH. destruct call as [cfg|dt hwst]; cbn [kb_do_call].
  - pose proof (keyboard_register_key_rt cfg ctl g) as Hk.
    destruct (keyboard_register_key cfg ctl g) as [[code ctl'] g'].
    cbn [snd] in *. rewrite Hk. exact Hall.
  - pose proof (keyboard_poll_Forall P ctl dt hwst (key_rt g) Hcall Hall) as Hp.
    destruct (keyboard_poll ctl dt hwst (key_rt g)) as [rts evs]. exact Hp.
Qed.

Lemma keyboard_init_ok_rt ctl ops cb g ctl' g' :
  keyboard_init ctl ops cb g = (KB_OK, ctl', g') -> key_rt g' = key_rt_zero.
Proof.
  unfold keyboard_init. destruct ctl as [c|], ops as [o|]; try discriminate.
  repeat match goal with
         | |- context [if ?b then _ else _] => destruct b; try discriminate
         end.
  all: destruct (mpool_init _ _ _ _) as [pool m]; intros [= _ <-]; reflexivity.
Qed.

(** A control block produced by a successful [keyboard_init] has every
    primitive the compiled backend needs. *)
Lemma keyboard_init_ok_capability ctl ops cb g c :
  fst (fst (keyboard_init ctl ops cb g)) = KB_OK ->
  snd (fst (keyboard_init ctl ops cb g)) = Some c ->
  backend_mode c = KB_BACKEND_MODE /\ kb_missing_capability c = false.
Proof.
  unfold keyboard_init. destruct ctl as [c0|], ops as [o|]; try discriminate.
  destruct o as [rp sel rd unsel snap tick lk ulk].
  destruct sel, rd, unsel; cbn; try discriminate; intros _ [= <-]; split; reflexivity.
Qed.

Lemma key_next_debounce dt raw rt :
  debounce_ms (kb_key_next dt raw rt)
  = if negb (raw =? raw_last rt) then 0
    else if debounce_ms rt <? KB_DEBOUNCE_MS then u32 (debounce_ms rt + dt)
    else debounce_ms rt.
Proof.
  unfold kb_key_next.
  destruct (gest_step_db dt (fst (kb_stab_step (kb_debounce dt raw rt)))) as (_ & -> & _).
  assert (forall r, debounce_ms (fst (kb_stab_step r)) = debounce_ms r) as Hst.
  { intros r. unfold kb_stab_step, kb_stabilize. destruct r. zcases; reflexivity. }
  rewrite Hst. unfold kb_debounce. destruct rt. zcases; reflexivity.
Qed.

Lemma key_next_click_count dt raw rt :
  click_count_ok rt -> click_count_ok (kb_key_next dt raw rt).
Proof.
  unfold click_count_ok, kb_key_next, kb_gest_step, kb_gesture, kb_stab_step,
    kb_stabilize, kb_debounce.
  destruct rt. zcases; intros [?|?]; auto; lia.
Qed.

Lemma key_next_debounce_below D dt raw rt :
  0 <= dt <= D -> KB_DEBOUNCE_MS + D <= 2 ^ 32 ->
  debounce_below D rt -> debounce_below D (kb_key_next dt raw rt).
Proof.
  unfold debounce_below. intros Hdt HD Hrt. rewrite key_next_debounce.
  unfold KB_DEBOUNCE_MS, u32 in *.
  destruct (raw =? raw_last rt); cbn [negb]; [|lia].
  destruct (Z.ltb_spec (debounce_ms rt) 20); [|lia].
  rewrite Z.mod_small by lia. lia.
Qed.

End Poll.

(** C6, as the code has it.  With the custom backend, a tick whose snapshot
    function is missing or whose snapshot call returns non-zero is
    abandoned: nothing is delivered and every runtime record is as before. *)
Theorem custom_snapshot_failure_aborts_tick
    (c : keyboard_control_t) (dt : Z) (hwst : kb_hw)
    (key_rt : list kb_key_runtime_t) :
  backend_mode c = KB_BACKEND_CUSTOM ->
  kb_missing_capability c = true \/ fst (hw_scan_snapshot hwst (key_num c)) <> 0 ->
  keyboard_poll (Some c) dt hwst key_rt = (key_rt, []).
Proof.
  intros Hmode Hfail. unfold keyboard_poll, kb_missing_capability in *.
  rewrite Hmode in *. cbn [Z.eqb Pos.eqb KB_BACKEND_CUSTOM KB_BACKEND_GPIO
                           KB_BACKEND_MATRIX] in *.
  destruct (dt =? 0); [reflexivity|].
  destruct (scan_snapshot (keyboard_ops c)); cbn [negb] in *; [|reflexivity].
  destruct Hfail as [Hf|Hf]; [discriminate|].
  destruct (hw_scan_snapshot hwst (key_num c)) as [ret buf]. cbn [fst] in Hf.
  destruct (Z.eqb_spec ret 0); [contradiction|reflexivity].
Qed.

Lemma custom_snapshot_failure_aborts_tick_witness :
  keyboard_poll (Some demo_ctl_no_snapshot) 10 demo_idle_hw key_rt_zero
  = (key_rt_zero, []).
Proof.
  apply custom_snapshot_failure_aborts_tick; [reflexivity|left; reflexivity].
Defined.

(** C6 as stated fails: with the pin backend and [read_pin] missing, the
    tick is not abandoned.  The key is sampled as inactive and its record
    moves (from zeroed records the debounce accumulator advances), and a
    pending click is resolved and delivered. *)
Lemma missing_capability_does_not_abort_counterexample :
  kb_missing_capability demo_ctl_no_read_pin = true
  /\ fst (keyboard_poll (Some demo_ctl_no_read_pin) 10 demo_idle_hw key_rt_zero)
     <> key_rt_zero
  /\ snd (keyboard_poll (Some demo_ctl_no_read_pin) 250 demo_idle_hw
                        [mk_rt 0 0 0 1 20 0 0 0])
     = [mk_delivery "K_A" 1 KB_EVT_CLICK].
Proof.
  split_and!; [reflexivity | | reflexivity].
  vm_compute. discriminate.
Qed.

(** C7.  (1) The guarded append never makes the scratch sequence longer
    than its capacity, four times the maximum key count.  (2) On a full
    scratch sequence it returns the sequence unchanged.  (3) The scan pass
    records the first [cap] events the keys produce, in emission order,
    whatever the scratch sequence held on entry, and leaves the runtime
    records that the unbounded traversal leaves: a dropped event changes
    nothing else.  (4) A tick delivers the recorded events in order, each
    by one callback invocation, and never more than [cap].  (5) With at most
    three events per key and [KB_MAX_KEYS] keys, a tick produces at most 48
    events. *)
Theorem scratch_sequence_is_bounded
    (c : keyboard_control_t) (dt : Z) (hwst : kb_hw) (snapshot : list Z)
    (key_rt : list kb_key_runtime_t) :
  PENDING_CAP = 4 * KB_MAX_KEYS
  /\ (forall node evt pending,
        (length pending <= cap)%nat ->
        (length (kb_record node evt pending) <= cap)%nat)
  /\ (forall node evt pending,
        length pending = cap -> kb_record node evt pending = pending)
  /\ (forall nodes idx pending,
        (length pending <= cap)%nat ->
        kb_scan_loop c dt hwst snapshot nodes idx key_rt pending
        = (fst (kb_scan_all c dt hwst snapshot nodes idx key_rt),
           take cap (pending ++ snd (kb_scan_all c dt hwst snapshot nodes idx key_rt))))
  /\ (let produced := snd (kb_scan_all c dt hwst snapshot (head c) 0 key_rt) in
      snd (kb_scan_and_deliver c dt hwst snapshot key_rt)
      = flat_map (kb_emit_event c) (take cap produced)
      /\ (on_event (keyboard_cb c) = true ->
          map dl_evt (snd (kb_scan_and_deliver c dt hwst snapshot key_rt))
          = map pe_evt (take cap produced))
      /\ (length produced <= 48)%nat)
  /\ (length (snd (keyboard_poll (Some c) dt hwst key_rt)) <= cap)%nat.
Proof.
  assert (forall l, (length (flat_map (kb_emit_event c) l) <= length l)%nat) as Hemit.
  { induction l as [|p l IH]; [reflexivity|]. cbn [flat_map].
    rewrite length_app. unfold kb_emit_event at 1.
    destruct (on_event (keyboard_cb c)); cbn [length]; lia. }
  cbn zeta. split_and!.
  - reflexivity.
  - intros node evt pending Hlen. apply kb_record_length. exact Hlen.
  - intros node evt pending Hlen. unfold kb_record.
    destruct (Z.ltb_spec (Z.of_nat (length pending)) PENDING_CAP) as [Hlt|]; [|reflexivity].
    unfold cap in Hlen. lia.
  - intros nodes idx pending Hlen. apply kb_scan_loop_all. exact Hlen.
  - unfold kb_scan_and_deliver. rewrite kb_scan_loop_all by (cbn; lia). reflexivity.
  - intros Hcb. unfold kb_scan_and_deliver. rewrite kb_scan_loop_all by (cbn; lia).
    cbn [snd app].
    induction (take cap _) as [|p l IH]; [reflexivity|].
    cbn [flat_map map]. unfold kb_emit_event at 1. rewrite Hcb.
    cbn [app map dl_evt]. rewrite IH. reflexivity.
  - apply kb_scan_all_below_cap.
  - destruct (keyboard_poll_cases (Some c) dt hwst key_rt)
      as [->|(c' & snap & [= <-] & _ & ->)]; [cbn; lia|].
    cbn [snd]. etransitivity; [apply Hemit|]. apply length_take_cap.
Qed.

Lemma scratch_sequence_is_bounded_witness :
  kb_record demo_node KB_EVT_PRESS
            (replicate cap (mk_pending demo_node KB_EVT_REPEAT))
  = replicate cap (mk_pending demo_node KB_EVT_REPEAT)
  /\ map dl_evt (snd (kb_scan_and_deliver demo_ctl 600 (snd (demo_tick 600 1)) []
                                          [mk_rt 1 0 0 0 0 0 0 0]))
     = [KB_EVT_PRESS; KB_EVT_REPEAT].
Proof.
  destruct (scratch_sequence_is_bounded demo_ctl 600 (snd (demo_tick 600 1)) []
              [mk_rt 1 0 0 0 0 0 0 0]) as (_ & _ & H2 & _ & (_ & H4 & _) & _).
  split.
  - apply H2. reflexivity.
  - rewrite H4 by reflexivity. reflexivity.
Defined.

(** C9, as the code has it.  (1) A poll leaves each runtime record alone or
    updates it once from its raw sample, and then the debounce accumulator
    is reset to zero if the sample differs from the last one, is increased
    by the tick delta (modulo 2^32) if it was below the debounce threshold,
    and is left as it is once it has reached the threshold.  (2) It is not
    capped at the threshold: over any calls made after a successful
    initialisation, with tick deltas of at most [D], it stays below the
    threshold plus [D]. *)
Theorem debounce_accumulator_stops_at_threshold :
  (forall ctl dt hwst (key_rt : list kb_key_runtime_t) i rt,
      key_rt !! i = Some rt ->
      fst (keyboard_poll ctl dt hwst key_rt) !! i = Some rt
      \/ exists raw,
           fst (keyboard_poll ctl dt hwst key_rt) !! i = Some (kb_key_next dt raw rt)
           /\ debounce_ms (kb_key_next dt raw rt)
              = if negb (raw =? raw_last rt) then 0
                else if debounce_ms rt <? KB_DEBOUNCE_MS
                     then u32 (debounce_ms rt + dt)
                     else debounce_ms rt)
  /\ (forall D ctl ops cb g calls,
        fst (fst (keyboard_init ctl ops cb g)) = KB_OK ->
        0 <= D -> KB_DEBOUNCE_MS + D <= 2 ^ 32 ->
        poll_deltas_upto D calls ->
        Forall (debounce_below D)
               (key_rt (snd (kb_do_calls calls (kb_after_init ctl ops cb g))))).
Proof.
  split.
  - intros ctl dt hwst key_rt i rt Hi.
    destruct (keyboard_poll_cases ctl dt hwst key_rt)
      as [->|(c & snap & _ & _ & ->)]; [left; exact Hi|].
    cbn [fst].
    destruct (kb_scan_all_lookup c dt hwst snap (head c) 0 key_rt i rt Hi)
      as [H|(_ & raw & H)]; [left; exact H|].
    right. exists raw. split; [exact H|]. apply key_next_debounce.
  - intros D ctl ops cb g calls Hok HD0 HD Hcalls.
    apply kb_do_calls_Forall.
    + unfold poll_deltas_upto in Hcalls.
      eapply Forall_impl; [exact Hcalls|].
      intros [cfg|dt hwst]; [auto|]. intros Hdt raw rt Hrt.
      apply key_next_debounce_below; assumption.
    + unfold kb_after_init. cbn [snd].
      destruct (keyboard_init ctl ops cb g) as [[code ctl'] g'] eqn:Hinit.
      cbn [fst snd] in *. subst code.
      rewrite (keyboard_init_ok_rt _ _ _ _ _ _ Hinit).
      apply Forall_replicate. unfold debounce_below, KB_DEBOUNCE_MS. cbn. lia.
Qed.

Lemma debounce_accumulator_stops_at_threshold_witness :
  Forall (debounce_below 30)
    (key_rt (snd (kb_do_calls
                    [CallRegister (Some demo_cfg); CallPoll 30 demo_idle_hw]
                    (kb_after_init (Some demo_blank_ctl) (Some demo_matrix_ops)
                                   (Some (mk_cb true)) demo_globals)))).
Proof.
  apply (proj2 debounce_accumulator_stops_at_threshold).
  - reflexivity.
  - lia.
  - unfold KB_DEBOUNCE_MS. lia.
  - repeat constructor; lia.
Defined.

(** C9 as stated fails: the accumulator is not capped at the threshold.
    After initialisation, one registration and one poll with a delta of
    30 ms, the accumulator of the registered key is 30, above the threshold
    of 20. *)
Lemma debounce_exceeds_threshold_counterexample :
  ~ Forall (fun rt => debounce_ms rt <= KB_DEBOUNCE_MS)
      (key_rt (snd (kb_do_calls
                      [CallRegister (Some demo_cfg); CallPoll 30 demo_idle_hw]
                      (kb_after_init (Some demo_blank_ctl) (Some demo_matrix_ops)
                                     (Some (mk_cb true)) demo_globals)))).
Proof.
  intros H. rewrite Forall_lookup in H.
  specialize (H 0%nat (mk_rt 0 0 0 0 30 0 0 0) eq_refl).
  unfold KB_DEBOUNCE_MS in H. cbn in H. lia.
Qed.

(** C10.  After a successful [keyboard_init] and after every later call,
    registration or poll, the click counter of every runtime record is 0
    or 1. *)
Theorem click_counter_is_zero_or_one
    (ctl : option keyboard_control_t) (ops : option keyboard_ops_t)
    (cb : option keyboard_cb_t) (g : kb_globals) (calls : list kb_call) :
  fst (fst (keyboard_init ctl ops cb g)) = KB_OK ->
  Forall click_count_ok
         (key_rt (snd (kb_do_calls calls (kb_after_init ctl ops cb g)))).
Proof.
  intros Hok. apply kb_do_calls_Forall.
  - apply Forall_forall. intros [cfg|dt hwst] _; [exact I|].
    intros raw rt. apply key_next_click_count.
  - unfold kb_after_init. cbn [snd].
    destruct (keyboard_init ctl ops cb g) as [[code ctl'] g'] eqn:Hinit.
    cbn [fst snd] in *. subst code.
    rewrite (keyboard_init_ok_rt _ _ _ _ _ _ Hinit).
    apply Forall_replicate. left. reflexivity.
Qed.

Lemma click_counter_is_zero_or_one_witness :
  Forall click_count_ok
    (key_rt (snd (kb_do_calls
                    [CallRegister (Some demo_cfg); CallPoll 30 demo_idle_hw]
                    (kb_after_init (Some demo_blank_ctl) (Some demo_matrix_ops)
                                   (Some (mk_cb true)) demo_globals)))).
Proof.
  apply click_counter_is_zero_or_one. reflexivity.
Defined.

(** * The block pool *)

Section Pool.

Lemma store_same m a v : store m a v a = v.
Proof. unfold store. rewrite Z.eqb_refl. reflexivity. Qed.

Lemma store_other m a v x : x <> a -> store m a v x = m x.
Proof. unfold store. intros H. destruct (Z.eqb_spec x a); [contradiction|reflexivity]. Qed.

Lemma chain_store m a v p l :
  a ∉ l -> chain m p l -> chain (store m a v) p l.
Proof.
  revert p. induction l as [|b l IH]; intros p Hnot Hc; [exact Hc|].
  cbn [chain] in *. destruct Hc as (-> & Hb & Hc).
  apply not_elem_of_cons in Hnot as [Hab Hnot].
  split_and!; [reflexivity | exact Hb |].
  rewrite store_other by congruence. apply IH; assumption.
Qed.

Lemma chain_walk m p l fuel :
  chain m p l -> (length l <= fuel)%nat -> free_chain fuel m p = Some l.
Proof.
  revert p fuel. induction l as [|a l IH]; intros p fuel Hc Hf.
  - cbn in Hc. subst p. destruct fuel; reflexivity.
  - cbn [chain] in Hc. destruct Hc as (-> & Ha & Hc).
    destruct fuel as [|fuel]; [cbn in Hf; lia|].
    cbn [free_chain]. destruct (Z.eqb_spec a 0); [contradiction|].
    rewrite (IH _ fuel Hc) by (cbn in Hf; lia). reflexivity.
Qed.

Lemma mpool_init_loop_below n stride p m x :
  0 <= stride -> x < p -> snd (mpool_init_loop n stride p m) x = m x.
Proof.
  intros Hs. revert p m. induction n as [|n IH]; intros p m Hx; [reflexivity|].
  cbn [mpool_init_loop]. rewrite IH by lia. apply store_other. lia.
Qed.

Lemma mpool_init_loop_end n stride p m :
  fst (mpool_init_loop n stride p m) = p + Z.of_nat n * stride.
Proof.
  revert p m. induction n as [|n IH]; intros p m; [cbn; lia|].
  cbn [mpool_init_loop]. rewrite IH. lia.
Qed.

Lemma mpool_init_loop_chain n stride p m :
  0 < stride -> 0 < p ->
  chain (store (snd (mpool_init_loop n stride p m))
               (fst (mpool_init_loop n stride p m)) 0)
        p (blocks p stride (S n)).
Proof.
  intros Hs. revert p m. induction n as [|n IH]; intros p m Hp.
  - cbn. rewrite store_same. split_and!; [reflexivity | lia | reflexivity].
  - change (blocks p stride (S (S n))) with (p :: blocks (p + stride) stride (S n)).
    cbn [mpool_init_loop chain].
    split; [reflexivity|]. split; [lia|].
    rewrite store_other
      by (rewrite mpool_init_loop_end; assert (0 <= Z.of_nat n * stride) by nia; lia).
    rewrite mpool_init_loop_below by lia.
    rewrite store_same. apply IH. lia.
Qed.

Lemma blocks_length p stride k : length (blocks p stride k) = k.
Proof. revert p. induction k as [|k IH]; intros p; [reflexivity|]. cbn. rewrite IH. reflexivity. Qed.

Lemma blocks_lower p stride k :
  0 <= stride -> Forall (fun a => p <= a) (blocks p stride k).
Proof.
  intros Hs. revert p. induction k as [|k IH]; intros p; [constructor|].
  cbn [blocks]. constructor; [lia|].
  eapply Forall_impl; [apply IH|]. cbn. intros a Ha. lia.
Qed.

Lemma blocks_NoDup p stride k : 0 < stride -> NoDup (blocks p stride k).
Proof.
  intros Hs. revert p. induction k as [|k IH]; intros p; [constructor|].
  cbn [blocks]. constructor; [|apply IH].
  intros Hin. pose proof (blocks_lower (p + stride) stride k ltac:(lia)) as Hl.
  rewrite Forall_forall in Hl. specialize (Hl _ Hin). lia.
Qed.

(** The alignment macro rounds up to a multiple of four. *)
Lemma MPOOL_ALIGN_UP_eq s :
  0 <= s + 3 < 2 ^ 32 -> MPOOL_ALIGN_UP s = 4 * ((s + 3) / 4).
Proof.
  intros H. unfold MPOOL_ALIGN_UP, u32.
  rewrite (Z.mod_small (s + 3)) by lia.
  rewrite <- (Z.land_ones (Z.lnot 3) 32) by lia.
  rewrite Z.land_assoc, <- (Z.land_assoc (s + 3)), (Z.land_comm (Z.lnot 3)).
  rewrite Z.land_assoc, Z.land_ones by lia.
  rewrite Z.mod_small by lia.
  rewrite <- Z.ldiff_land. change 3 with (Z.ones 2) at 2.
  rewrite Z.ldiff_ones_r by lia.
  rewrite Z.shiftl_mul_pow2, Z.shiftr_div_pow2 by lia. change (2 ^ 2) with 4. lia.
Qed.

(** Up to a block size of 65528 the 16-bit stride is not truncated and
    holds a header and a payload. *)
Lemma mpool_stride_fits blk :
  0 <= blk <= 65528 ->
  mpool_stride blk = 4 * ((blk + 7) / 4)
  /\ blk + SIZEOF_MPOOL_NODE <= mpool_stride blk.
Proof.
  intros H. unfold mpool_stride, SIZEOF_MPOOL_NODE, u16.
  rewrite MPOOL_ALIGN_UP_eq by lia.
  replace (blk + 4 + 3) with (blk + 7) by lia.
  pose proof (Z.div_mod (blk + 7) 4 ltac:(lia)) as Hdm.
  pose proof (Z.mod_pos_bound (blk + 7) 4 ltac:(lia)) as Hmb.
  rewrite Z.mod_small by lia. lia.
Qed.

(** [mpool_init] establishes the invariant when it is given at least one
    block, a non-NULL buffer and a stride that holds a header and a
    payload. *)
Lemma mpool_init_inv buf blk count m0 :
  0 < buf -> 0 <= blk -> blk + SIZEOF_MPOOL_NODE <= mpool_stride blk ->
  1 <= count < 2 ^ 16 ->
  pool_inv (fst (mpool_init buf blk count m0)) (snd (mpool_init buf blk count m0))
           [] (blocks buf (mpool_stride blk) (Z.to_nat count)).
Proof.
  intros Hbuf Hblk Hstride Hcount. unfold mpool_init.
  assert (0 < mpool_stride blk) as Hs by (unfold SIZEOF_MPOOL_NODE in *; lia).
  pose proof (mpool_init_loop_chain (Z.to_nat (count - 1)) (mpool_stride blk) buf m0 Hs Hbuf)
    as Hc.
  destruct (mpool_init_loop (Z.to_nat (count - 1)) (mpool_stride blk) buf m0) as [p m1].
  cbn [fst snd] in *.
  replace (S (Z.to_nat (count - 1))) with (Z.to_nat count) in Hc by lia.
  unfold pool_inv. cbn [free_list used total map length]. rewrite app_nil_r.
  split; [exact Hc|]. split; [apply blocks_NoDup; exact Hs|].
  split; [eapply Forall_impl; [apply blocks_lower; lia|]; cbn; intros a Ha; lia|].
  split; [reflexivity|]. split; [rewrite blocks_length; lia | lia].
Qed.

Lemma drop_handle_perm h live :
  NoDup live -> h ∈ live -> live ≡ₚ h :: drop_handle h live.
Proof.
  induction 1 as [|a live Ha Hnd IH]; intros Hin; [inversion Hin|].
  cbn [drop_handle]. destruct (Z.eqb_spec a h) as [->|Hne].
  - assert (drop_handle h live = live) as ->; [|reflexivity].
    clear IH Hin Hnd. induction live as [|b live IH]; [reflexivity|].
    apply not_elem_of_cons in Ha as [Hb Ha]. cbn [drop_handle].
    destruct (Z.eqb_spec b h); [congruence|]. rewrite IH by exact Ha. reflexivity.
  - apply elem_of_cons in Hin as [->|Hin]; [contradiction|].
    rewrite (IH Hin) at 1. apply Permutation_swap.
Qed.

Lemma drop_handle_absent h live : h ∉ live -> drop_handle h live = live.
Proof.
  induction live as [|b live IH]; intros Hn; [reflexivity|].
  apply not_elem_of_cons in Hn as [Hb Hn]. cbn [drop_handle].
  destruct (Z.eqb_spec b h); [congruence|]. rewrite IH by exact Hn. reflexivity.
Qed.

Lemma pool_inv_live_NoDup pool m live fl : pool_inv pool m live fl -> NoDup live.
Proof.
  intros (_ & Hnd & _). apply NoDup_app in Hnd as (_ & _ & Hnd).
  eapply NoDup_fmap_1. exact Hnd.
Qed.

(** Allocation pops the head of the free list, or reports exhaustion. *)
Lemma mpool_alloc_inv pool m live fl :
  pool_inv pool m live fl ->
  match fl with
  | [] => mpool_alloc pool m = (0, pool, m)
  | a :: fl' =>
    exists pool',
      mpool_alloc pool m = (a + SIZEOF_MPOOL_NODE, pool', m)
      /\ a + SIZEOF_MPOOL_NODE <> 0
      /\ pool_inv pool' m ((a + SIZEOF_MPOOL_NODE) :: live) fl'
  end.
Proof.
  intros (Hc & Hnd & Hpos & Hu & Ht & Hlt). unfold mpool_alloc.
  destruct fl as [|a fl'].
  - cbn in Hc. rewrite Hc. reflexivity.
  - cbn [chain] in Hc. destruct Hc as (Hp & Ha & Hc). rewrite Hp.
    destruct (Z.eqb_spec a 0); [contradiction|].
    eexists. split; [reflexivity|].
    assert (0 < a) as Ha0 by (inversion Hpos; assumption).
    split; [unfold SIZEOF_MPOOL_NODE; lia|].
    unfold pool_inv. cbn [free_list used total map length].
    replace (a + SIZEOF_MPOOL_NODE - SIZEOF_MPOOL_NODE) with a by lia.
    split; [exact Hc|].
    split; [rewrite <- Permutation_middle; exact Hnd|].
    split; [rewrite <- Permutation_middle; exact Hpos|].
    cbn [length] in Ht. unfold u16. rewrite Z.mod_small by lia.
    split_and!; lia.
Qed.

(** Releasing a live handle pushes its block onto the free list. *)
Lemma mpool_free_inv pool m live fl h :
  pool_inv pool m live fl -> h ∈ live ->
  pool_inv (fst (mpool_free pool m h)) (snd (mpool_free pool m h))
           (drop_handle h live) ((h - SIZEOF_MPOOL_NODE) :: fl).
Proof.
  intros Hinv Hin. pose proof (pool_inv_live_NoDup _ _ _ _ Hinv) as Hlnd.
  destruct Hinv as (Hc & Hnd & Hpos & Hu & Ht & Hlt).
  pose proof (drop_handle_perm h live Hlnd Hin) as Hperm.
  set (f := fun h => h - SIZEOF_MPOOL_NODE) in *.
  assert (fl ++ map f live ≡ₚ (f h :: fl) ++ map f (drop_handle h live)) as Hp2.
  { rewrite Hperm at 1. cbn [map app]. symmetry. apply Permutation_middle. }
  assert (0 < f h) as Hh.
  { rewrite Forall_forall in Hpos. apply Hpos. apply elem_of_app. right.
    apply list_elem_of_fmap. exists h. auto. }
  assert (f h ∉ fl) as Hnotin.
  { rewrite Hp2 in Hnd. cbn [app] in Hnd. apply NoDup_cons in Hnd as [Hn _].
    intros Hc'. apply Hn. apply elem_of_app. left. exact Hc'. }
  unfold mpool_free. destruct (Z.eqb_spec h 0) as [->|Hne];
    [unfold f, SIZEOF_MPOOL_NODE in Hh; lia|].
  cbn [fst snd]. unfold pool_inv. cbn [free_list used total chain length].
  change (fun h0 : Z => h0 - SIZEOF_MPOOL_NODE) with f.
  fold (f h). rewrite store_same.
  split; [split_and!; [reflexivity | lia | apply chain_store; assumption]|].
  split; [rewrite <- Hp2; exact Hnd|].
  split; [rewrite <- Hp2; exact Hpos|].
  apply Permutation_length in Hperm. cbn [length] in Hperm.
  unfold u16. rewrite Z.mod_small by lia. split_and!; lia.
Qed.

(** A well-formed sequence of calls preserves the invariant. *)
Lemma pool_run_inv calls pool m live fl :
  pool_inv pool m live fl ->
  pool_calls_ok calls pool m live = true ->
  exists fl',
    pool_inv (fst (fst (pool_run calls pool m live)))
             (snd (fst (pool_run calls pool m live)))
             (snd (pool_run calls pool m live)) fl'.
Proof.
  revert pool m live fl.
  induction calls as [|[|ptr] calls IH]; intros pool m live fl Hinv Hok.
  - exists fl. exact Hinv.
  - cbn [pool_run pool_calls_ok] in *.
    pose proof (mpool_alloc_inv pool m live fl Hinv) as Ha.
    destruct fl as [|a fl'].
    + rewrite Ha in *. cbn [Z.eqb] in *. eapply IH; eassumption.
    + destruct Ha as (pool' & Ha & Hnz & Hinv'). rewrite Ha in *.
      destruct (Z.eqb_spec (a + SIZEOF_MPOOL_NODE) 0); [contradiction|].
      eapply IH; eassumption.
  - cbn [pool_run pool_calls_ok] in *.
    apply andb_true_iff in Hok as [Hptr Hok].
    destruct (mpool_free pool m ptr) as [pool' m'] eqn:Hfree.
    apply orb_true_iff in Hptr as [Hz|Hin].
    + apply Z.eqb_eq in Hz. subst ptr. unfold mpool_free in Hfree.
      cbn [Z.eqb] in Hfree. injection Hfree as <- <-.
      assert (0 ∉ live) as Hnot.
      { intros Hin. destruct Hinv as (_ & _ & Hpos & _).
        rewrite Forall_forall in Hpos.
        assert (0 < 0 - SIZEOF_MPOOL_NODE) as Hbad.
        { apply Hpos. apply elem_of_app. right.
          apply (list_elem_of_fmap_2 (fun h => h - SIZEOF_MPOOL_NODE)). exact Hin. }
        unfold SIZEOF_MPOOL_NODE in Hbad. lia. }
      rewrite (drop_handle_absent 0 live Hnot) in *.
      eapply IH; eassumption.
    + apply existsb_exists in Hin as (h & Hh & Heq). apply Z.eqb_eq in Heq. subst h.
      apply list_elem_of_In in Hh.
      pose proof (mpool_free_inv pool m live fl ptr Hinv Hh) as Hinv'.
      rewrite Hfree in Hinv'. cbn [fst snd] in Hinv'.
      eapply IH; eassumption.
Qed.

Lemma pool_calls_ok_take calls k pool m live :
  pool_calls_ok calls pool m live = true ->
  pool_calls_ok (take k calls) pool m live = true.
Proof.
  revert k pool m live.
  induction calls as [|[|ptr] calls IH]; intros [|k] pool m live Hok; try reflexivity.
  - cbn [take pool_calls_ok] in *.
    destruct (mpool_alloc pool m) as [[ptr pool'] m']. apply IH. exact Hok.
  - cbn [take pool_calls_ok] in *.
    apply andb_true_iff in Hok as [Hptr Hok]. rewrite Hptr. cbn [andb].
    destruct (mpool_free pool m ptr) as [pool' m']. apply IH. exact Hok.
Qed.

Lemma pool_run_total calls pool m live :
  total (fst (fst (pool_run calls pool m live))) = total pool.
Proof.
  revert pool m live. induction calls as [|[|ptr] calls IH]; intros pool m live;
    [reflexivity | |]; cbn [pool_run].
  - unfold mpool_alloc. destruct (free_list pool =? 0); rewrite IH; reflexivity.
  - unfold mpool_free. destruct (ptr =? 0); rewrite IH; reflexivity.
Qed.

(** Allocating once per free block returns each block's handle and
    empties the free list. *)
Lemma alloc_many_inv fl pool m live :
  pool_inv pool m live fl ->
  fst (fst (alloc_many (length fl) pool m)) = map (fun a => a + SIZEOF_MPOOL_NODE) fl
  /\ Forall (fun p => p <> 0) (fst (fst (alloc_many (length fl) pool m)))
  /\ fst (fst (mpool_alloc (snd (fst (alloc_many (length fl) pool m)))
                           (snd (alloc_many (length fl) pool m)))) = 0.
Proof.
  revert pool live. induction fl as [|a fl IH]; intros pool live Hinv.
  - cbn [length alloc_many fst snd map]. split_and!; [reflexivity | constructor |].
    rewrite (mpool_alloc_inv pool m live [] Hinv). reflexivity.
  - destruct (mpool_alloc_inv pool m live (a :: fl) Hinv) as (pool' & Ha & Hnz & Hinv').
    cbn [length alloc_many]. rewrite Ha.
    destruct (IH pool' _ Hinv') as (I1 & I2 & I3).
    destruct (alloc_many (length fl) pool' m) as [[ptrs pool2] m2].
    cbn [fst snd map] in *. rewrite I1.
    split_and!; [reflexivity | constructor; [exact Hnz | rewrite <- I1; exact I2] | exact I3].
Qed.

End Pool.

(** C4, as the code has it.  A pool initialised over a non-NULL buffer with
    at least one block (a 16-bit count) and a block size of at most 65528,
    for which the 16-bit stride holds a header and a payload.
    (1) After every call of a well-formed sequence of allocations and
    releases (each release passes NULL or a live handle), the free list is a
    NULL-terminated chain and [used] equals [total] minus its length;
    [total] keeps the block count.
    (2) From the fresh pool, [total] consecutive allocations return [total]
    non-NULL handles, and one more allocation returns NULL. *)
Theorem pool_counters_match_free_list
    (buf blk count : Z) (m0 : links) (calls : list pool_call) :
  0 < buf -> 0 <= blk <= 65528 -> 1 <= count < 2 ^ 16 ->
  let pool0 := fst (mpool_init buf blk count m0) in
  let m1 := snd (mpool_init buf blk count m0) in
  (pool_calls_ok calls pool0 m1 [] = true ->
   forall k,
     let st := pool_run (take k calls) pool0 m1 [] in
     exists fl,
       free_chain (Z.to_nat (total (fst (fst st)))) (snd (fst st))
                  (free_list (fst (fst st))) = Some fl
       /\ used (fst (fst st)) = total (fst (fst st)) - Z.of_nat (length fl)
       /\ total (fst (fst st)) = count)
  /\ (let r := alloc_many (Z.to_nat count) pool0 m1 in
      length (fst (fst r)) = Z.to_nat count
      /\ Forall (fun p => p <> 0) (fst (fst r))
      /\ fst (fst (mpool_alloc (snd (fst r)) (snd r))) = 0).
Proof.
  intros Hbuf Hblk Hcount pool0 m1.
  pose proof (mpool_init_inv buf blk count m0 Hbuf ltac:(lia)
                (proj2 (mpool_stride_fits blk Hblk)) Hcount) as Hinv.
  fold pool0 m1 in Hinv.
  assert (total pool0 = count) as Htot.
  { unfold pool0, mpool_init.
    destruct (mpool_init_loop _ _ _ _). reflexivity. }
  split.
  - intros Hok k st.
    destruct (pool_run_inv (take k calls) pool0 m1 [] _ Hinv
                (pool_calls_ok_take calls k pool0 m1 [] Hok)) as (fl & Hfl).
    fold st in Hfl. destruct Hfl as (Hc & _ & _ & Hu & Ht & _).
    exists fl. split_and!.
    + apply chain_walk; [exact Hc|]. lia.
    + lia.
    + unfold st. rewrite pool_run_total. exact Htot.
  - cbn zeta.
    pose proof (alloc_many_inv _ pool0 m1 [] Hinv) as Ha.
    rewrite blocks_length in Ha. destruct Ha as (A1 & A2 & A3).
    split_and!; [|exact A2|exact A3].
    rewrite A1, length_map, blocks_length. reflexivity.
Qed.

Lemma pool_counters_match_free_list_witness :
  (exists fl,
      free_chain 2 (snd (fst (pool_run [PoolAlloc; PoolAlloc; PoolFree 536870916]
                                       (fst (mpool_init 536870912 12 2 (fun _ => 0)))
                                       (snd (mpool_init 536870912 12 2 (fun _ => 0))) [])))
                 (free_list (fst (fst (pool_run [PoolAlloc; PoolAlloc; PoolFree 536870916]
                                       (fst (mpool_init 536870912 12 2 (fun _ => 0)))
                                       (snd (mpool_init 536870912 12 2 (fun _ => 0))) []))))
      = Some fl
      /\ length fl = 1%nat)
  /\ fst (fst (alloc_many 2 (fst (mpool_init 536870912 12 2 (fun _ => 0)))
                          (snd (mpool_init 536870912 12 2 (fun _ => 0)))))
     = [536870916; 536870932].
Proof.
  destruct (pool_counters_match_free_list 536870912 12 2 (fun _ => 0)
              [PoolAlloc; PoolAlloc; PoolFree 536870916])
    as [H1 H2]; [lia | lia | lia |].
  split.
  - destruct (H1 eq_refl 3%nat) as (fl & Hfl & Hu & Ht).
    exists fl. split.
    + rewrite <- Hfl. reflexivity.
    + change (1 = 2 - Z.of_nat (length fl)) in Hu. lia.
  - reflexivity.
Defined.

(** C4 as stated fails for a pool of zero blocks: [mpool_init] with a count
    of 0 still links one block, so [used] is not [total] minus the length of
    the free list, and the first allocation, which is allocation number
    [total + 1], returns a handle. *)
Lemma pool_zero_blocks_counterexample :
  total (fst (mpool_init 536870912 12 0 (fun _ => 0))) = 0
  /\ free_chain 1 (snd (mpool_init 536870912 12 0 (fun _ => 0)))
                 (free_list (fst (mpool_init 536870912 12 0 (fun _ => 0))))
     = Some [536870912]
  /\ used (fst (mpool_init 536870912 12 0 (fun _ => 0)))
     <> total (fst (mpool_init 536870912 12 0 (fun _ => 0))) - 1
  /\ fst (fst (mpool_alloc (fst (mpool_init 536870912 12 0 (fun _ => 0)))
                           (snd (mpool_init 536870912 12 0 (fun _ => 0)))))
     = 536870916.
Proof. split_and!; [reflexivity | reflexivity | vm_compute; discriminate | reflexivity]. Qed.

(** C8.  For every pool state, releasing the handle of a block at a
    non-NULL address and allocating next returns that handle; the free list
    head and the used counter are as before the two calls. *)
Theorem release_then_allocate_returns_block
    (pool : mpool_t) (m : links) (ptr : Z) :
  ptr <> 0 -> ptr - SIZEOF_MPOOL_NODE <> 0 ->
  let st := mpool_free pool m ptr in
  let r := mpool_alloc (fst st) (snd st) in
  fst (fst r) = ptr
  /\ free_list (snd (fst r)) = free_list pool
  /\ used (snd (fst r)) = u16 (u16 (used pool - 1) + 1).
Proof.
  intros Hptr Hnode. unfold mpool_free, mpool_alloc.
  destruct (Z.eqb_spec ptr 0); [contradiction|]. cbn [fst snd free_list].
  destruct (Z.eqb_spec (ptr - SIZEOF_MPOOL_NODE) 0); [contradiction|].
  cbn [fst snd free_list used blk_size total]. rewrite store_same.
  split_and!; [lia | reflexivity | reflexivity].
Qed.

Lemma release_then_allocate_returns_block_witness :
  fst (fst (mpool_alloc (fst (mpool_free (mk_pool 536870932 12 2 1) (fun _ => 0) 536870916))
                        (snd (mpool_free (mk_pool 536870932 12 2 1) (fun _ => 0) 536870916))))
  = 536870916.
Proof.
  apply (release_then_allocate_returns_block (mk_pool 536870932 12 2 1) (fun _ => 0)
           536870916); [lia | unfold SIZEOF_MPOOL_NODE; lia].
Defined.

(** * Registration *)

Section Registration.

Lemma kb_find_duplicate_Exists mode cf nodes :
  kb_find_duplicate mode cf nodes = true
  <-> Exists (fun n => key_id n = cfg_key_id cf
                       \/ kb_hw_equal mode (hw n) (cfg_hw cf) = true) nodes.
Proof.
  induction nodes as [|n nodes IH]; cbn [kb_find_duplicate].
  - split; [discriminate|]. intros H. inversion H.
  - rewrite Exists_cons.
    destruct (Z.eqb_spec (key_id n) (cfg_key_id cf)) as [He|Hne]; cbn [orb].
    + split; auto.
    + destruct (kb_hw_equal mode (hw n) (cfg_hw cf)).
      * split; auto.
      * rewrite IH. split; [auto|]. intros [[?|?]|?]; [contradiction|discriminate|assumption].
Qed.

End Registration.

(** C5.  [keyboard_register_key] returns one of six pairwise distinct
    codes.  Whenever the code is not [KB_OK], the control block (registry
    list and key count included) and the globals (the pool with its free
    list and used counter included) are exactly as before the call.  The
    code is [KB_ERR_PARAM] exactly for a NULL control block, descriptor,
    name or pool; otherwise the conditions are tested in this order and the
    first that holds decides: row or column out of range under the matrix
    backend gives [KB_ERR_RANGE]; a node with the same id or an equal
    hardware location under the backend's rule gives [KB_ERR_DUPLICATE]; a
    key count at the maximum gives [KB_ERR_FULL]; an empty free list gives
    [KB_ERR_NOMEM]. *)
Theorem failed_registration_changes_nothing
    (cfg : option keyboard_key_cfg_t) (ctl : option keyboard_control_t)
    (g : kb_globals) :
  0 <= free_list (key_pool g) ->
  let r := keyboard_register_key cfg ctl g in
  let code := fst (fst r) in
  NoDup [KB_OK; KB_ERR_PARAM; KB_ERR_RANGE; KB_ERR_DUPLICATE; KB_ERR_FULL; KB_ERR_NOMEM]
  /\ code ∈ [KB_OK; KB_ERR_PARAM; KB_ERR_RANGE; KB_ERR_DUPLICATE; KB_ERR_FULL; KB_ERR_NOMEM]
  /\ (code <> KB_OK -> snd (fst r) = ctl /\ snd r = g)
  /\ (code = KB_ERR_PARAM
      <-> ~ exists c cf name,
            ctl = Some c /\ cfg = Some cf /\ cfg_keyname cf = Some name
            /\ keyboard_pool c = true)
  /\ (forall c cf name,
        ctl = Some c -> cfg = Some cf -> cfg_keyname cf = Some name ->
        keyboard_pool c = true ->
        (kb_cfg_out_of_range c cf -> code = KB_ERR_RANGE)
        /\ (~ kb_cfg_out_of_range c cf ->
            (kb_cfg_duplicate c cf -> code = KB_ERR_DUPLICATE)
            /\ (~ kb_cfg_duplicate c cf ->
                (KB_MAX_KEYS <= key_num c -> code = KB_ERR_FULL)
                /\ (key_num c < KB_MAX_KEYS ->
                    (free_list (key_pool g) = 0 -> code = KB_ERR_NOMEM)
                    /\ (free_list (key_pool g) <> 0 -> code = KB_OK))))).
Proof.
  intros Haddr. cbn zeta. split; [compute_done|].
  destruct ctl as [c|]; [|split].
  2: { compute_done. }
  2: { split; [intros _; split; reflexivity|]. split.
       - split; [intros _ (c & cf & name & [=] & _)|reflexivity].
       - intros c cf name [=]. }
  destruct cfg as [cf|]; [|split].
  2: { compute_done. }
  2: { split; [intros _; split; reflexivity|]. split.
       - split; [intros _ (c' & cf & name & _ & [=] & _)|reflexivity].
       - intros c' cf name _ [=]. }
  unfold keyboard_register_key.
  destruct (cfg_keyname cf) as [name|] eqn:Hname; [|split].
  2: { compute_done. }
  2: { split; [intros _; split; reflexivity|]. split.
       - split; [intros _ (c' & cf' & name & _ & [= <-] & Hn & _); congruence|reflexivity].
       - intros c' cf' name' _ [= <-]. congruence. }
  destruct (keyboard_pool c) eqn:Hpool; cbn [negb]; [|split].
  2: { compute_done. }
  2: { split; [intros _; split; reflexivity|]. split.
       - split; [intros _ (c' & cf' & name' & [= <-] & _ & _ & Hp); congruence|reflexivity].
       - intros c' cf' name' [= <-]. congruence. }
  assert ((backend_mode c =? KB_BACKEND_MATRIX)
          && ((KB_MATRIX_MAX_ROW <=? matrix_row (cfg_hw cf))
              || (KB_MATRIX_MAX_COL <=? matrix_col (cfg_hw cf))) = true
          <-> kb_cfg_out_of_range c cf) as Hrange.
  { unfold kb_cfg_out_of_range.
    rewrite andb_true_iff, orb_true_iff, Z.eqb_eq, !Z.leb_le. reflexivity. }
  pose proof (kb_find_duplicate_Exists (backend_mode c) cf (head c)) as Hdup.
  fold (kb_cfg_duplicate c cf) in Hdup.
  assert (exists c0 cf0 name0,
             Some c = Some c0 /\ Some cf = Some cf0
             /\ cfg_keyname cf0 = Some name0 /\ keyboard_pool c0 = true) as Hvalid
      by (exists c, cf, name; auto).
  destruct ((backend_mode c =? KB_BACKEND_MATRIX)
            && ((KB_MATRIX_MAX_ROW <=? matrix_row (cfg_hw cf))
                || (KB_MATRIX_MAX_COL <=? matrix_col (cfg_hw cf)))) eqn:Er.
  { cbn [fst snd]. split; [compute_done|]. split; [auto|]. split.
    - split; [discriminate|]. intros Hn. contradiction.
    - intros c' cf' name' [= <-] [= <-] _ _. split; [reflexivity|].
      intros Hn. exfalso. apply Hn, Hrange. reflexivity. }
  assert (~ kb_cfg_out_of_range c cf) as Hnr by (rewrite <- Hrange; discriminate).
  destruct (kb_find_duplicate (backend_mode c) cf (head c)) eqn:Ed.
  { cbn [fst snd]. split; [compute_done|]. split; [auto|]. split.
    - split; [discriminate|]. intros Hn. contradiction.
    - intros c' cf' name' [= <-] [= <-] _ _. split; [contradiction|]. intros _.
      split; [reflexivity|]. intros Hn. exfalso. apply Hn, Hdup. reflexivity. }
  assert (~ kb_cfg_duplicate c cf) as Hnd by (rewrite <- Hdup; discriminate).
  destruct (Z.leb_spec KB_MAX_KEYS (key_num c)) as [Hfull|Hroom].
  { cbn [fst snd]. split; [compute_done|]. split; [auto|]. split.
    - split; [discriminate|]. intros Hn. contradiction.
    - intros c' cf' name' [= <-] [= <-] _ _. split; [contradiction|]. intros _.
      split; [contradiction|]. intros _. split; [reflexivity|]. lia. }
  unfold mpool_alloc.
  destruct (Z.eqb_spec (free_list (key_pool g)) 0) as [Hnull|Hfree].
  { cbn [fst snd Z.eqb]. split; [compute_done|]. split; [auto|]. split.
    - split; [discriminate|]. intros Hn. contradiction.
    - intros c' cf' name' [= <-] [= <-] _ _. split; [contradiction|]. intros _.
      split; [contradiction|]. intros _. split; [lia|]. intros _.
      split; [reflexivity|contradiction]. }
  destruct (Z.eqb_spec (free_list (key_pool g) + SIZEOF_MPOOL_NODE) 0) as [Hz|Hnz];
    [unfold SIZEOF_MPOOL_NODE in Hz; lia|].
  cbn [fst snd]. split; [compute_done|].
  split; [intros H; contradiction H; reflexivity|]. split.
  - split; [discriminate|]. intros Hn. contradiction.
  - intros c' cf' name' [= <-] [= <-] _ _. split; [contradiction|]. intros _.
    split; [contradiction|]. intros _. split; [lia|]. intros _.
    split; [contradiction|reflexivity].
Qed.

Lemma failed_registration_changes_nothing_witness :
  keyboard_register_key (Some demo_cfg) (Some demo_ctl) demo_globals
  = (KB_ERR_DUPLICATE, Some demo_ctl, demo_globals).
Proof.
  destruct (failed_registration_changes_nothing (Some demo_cfg) (Some demo_ctl)
              demo_globals) as (_ & _ & H2 & _ & H4); [cbn; lia|].
  destruct (H4 demo_ctl demo_cfg "K_A"%string eq_refl eq_refl eq_refl eq_refl)
    as (_ & H5).
  destruct H5 as [H6 _]; [intros [Hm _]; discriminate Hm|].
  assert (fst (fst (keyboard_register_key (Some demo_cfg) (Some demo_ctl) demo_globals))
          = KB_ERR_DUPLICATE) as Hcode.
  { apply H6. left. left. reflexivity. }
  destruct (H2 ltac:(rewrite Hcode; discriminate)) as [Hc Hg].
  destruct (keyboard_register_key (Some demo_cfg) (Some demo_ctl) demo_globals)
    as [[code ctl'] g']. cbn [fst snd] in *. congruence.
Defined.

(** * Initialisation and registration as a whole *)

Section Init.

(** The stride and the block count that [keyboard_init] computes. *)
Lemma keyboard_init_eq c o cb g :
  matrix_select_row o = true -> matrix_read_col o = true ->
  matrix_unselect_row o = true ->
  keyboard_init (Some c) (Some o) cb g
  = (KB_OK,
     Some (mk_ctl KB_BACKEND_MATRIX o
                  (mk_cb (match cb with Some c => on_event c | None => false end))
                  [] 0 true),
     mk_globals (key_pool_buf g)
                (fst (mpool_init (key_pool_buf g) 12 16 (key_pool_links g)))
                (snd (mpool_init (key_pool_buf g) 12 16 (key_pool_links g)))
                key_rt_zero).
Proof.
  intros H1 H2 H3. unfold keyboard_init. rewrite H1, H2, H3.
  change (KB_BACKEND_MODE =? KB_BACKEND_GPIO) with false.
  change (KB_BACKEND_MODE =? KB_BACKEND_MATRIX) with true.
  cbn [negb orb andb].
  change (u16 (MPOOL_ALIGN_UP (u16 (SIZEOF_KEYBOARD_QUE + SIZEOF_MPOOL_NODE)))) with 16.
  change (u16 (KEYBOARD_POOL_SIZE / 16)) with 32.
  change (u16 SIZEOF_KEYBOARD_QUE) with 12.
  change KB_MAX_KEYS with 16.
  cbn [Z.eqb Z.ltb Z.compare Pos.compare Pos.compare_cont].
  destruct (mpool_init (key_pool_buf g) 12 16 (key_pool_links g)). reflexivity.
Qed.

Lemma keyboard_init_failure ctl ops cb g :
  fst (fst (keyboard_init ctl ops cb g)) <> KB_OK ->
  keyboard_init ctl ops cb g
  = (match ctl, ops with
     | Some _, Some _ => KB_ERR_BACKEND
     | _, _ => KB_ERR_PARAM
     end, ctl, g).
Proof.
  destruct ctl as [c|], ops as [o|]; try reflexivity.
  destruct (matrix_select_row o) eqn:H1, (matrix_read_col o) eqn:H2,
    (matrix_unselect_row o) eqn:H3;
    try (intros _; unfold keyboard_init; rewrite H1, H2, H3; reflexivity).
  rewrite keyboard_init_eq by assumption. intros H. contradiction H. reflexivity.
Qed.

End Init.

(** X1.  [keyboard_init] returns [KB_OK], [KB_ERR_PARAM] or
    [KB_ERR_BACKEND], never [KB_ERR_POOL_CFG]: with a 512-byte buffer and
    16-byte blocks the block count is never zero.  It returns [KB_ERR_PARAM]
    exactly when the control block or the operation table is NULL, and
    [KB_ERR_BACKEND] exactly when both are given and one of the three matrix
    primitives is missing.  Whenever the code is not [KB_OK] the control
    block and the globals are as before the call. *)
Theorem keyboard_init_result
    (ctl : option keyboard_control_t) (ops : option keyboard_ops_t)
    (cb : option keyboard_cb_t) (g : kb_globals) :
  let r := keyboard_init ctl ops cb g in
  let code := fst (fst r) in
  (code = KB_OK \/ code = KB_ERR_PARAM \/ code = KB_ERR_BACKEND)
  /\ (code = KB_ERR_PARAM <-> ctl = None \/ ops = None)
  /\ (code = KB_ERR_BACKEND
      <-> exists c o, ctl = Some c /\ ops = Some o
                      /\ matrix_select_row o && matrix_read_col o
                         && matrix_unselect_row o = false)
  /\ (code <> KB_OK -> snd (fst r) = ctl /\ snd r = g).
Proof.
  cbn zeta. split_and!.
  - destruct (Z.eq_dec (fst (fst (keyboard_init ctl ops cb g))) KB_OK) as [|Hne]; [auto|].
    rewrite (keyboard_init_failure _ _ _ _ Hne). destruct ctl, ops; auto.
  - destruct ctl as [c|], ops as [o|]; try (split; [auto|reflexivity]).
    split; [|intros [[=]|[=]]].
    destruct (matrix_select_row o) eqn:H1, (matrix_read_col o) eqn:H2,
      (matrix_unselect_row o) eqn:H3;
      first [rewrite keyboard_init_eq by assumption; discriminate
            |unfold keyboard_init; rewrite H1, H2, H3; discriminate].
  - destruct ctl as [c|], ops as [o|];
      try (split; [discriminate|intros (c' & o' & [=] & [=] & _)]).
    destruct (matrix_select_row o) eqn:H1, (matrix_read_col o) eqn:H2,
      (matrix_unselect_row o) eqn:H3;
      first [rewrite keyboard_init_eq by assumption;
             split; [discriminate|]; intros (c' & o' & _ & [= <-] & Hf);
             rewrite H1, H2, H3 in Hf; discriminate
            |unfold keyboard_init; rewrite H1, H2, H3; split; [intros _|reflexivity];
             exists c, o; rewrite H1, H2, H3; auto].
  - intros Hne. rewrite (keyboard_init_failure _ _ _ _ Hne). auto.
Qed.

Section InitState.

Lemma keyboard_init_ok_inv ctl ops cb g :
  fst (fst (keyboard_init ctl ops cb g)) = KB_OK ->
  exists c o, ctl = Some c /\ ops = Some o
              /\ matrix_select_row o = true /\ matrix_read_col o = true
              /\ matrix_unselect_row o = true.
Proof.
  destruct ctl as [c|], ops as [o|]; try discriminate.
  destruct (matrix_select_row o) eqn:H1, (matrix_read_col o) eqn:H2,
    (matrix_unselect_row o) eqn:H3;
    try (unfold keyboard_init; rewrite H1, H2, H3; discriminate).
  intros _. exists c, o. auto.
Qed.

Lemma mpool_init_fields buf blk count m :
  free_list (fst (mpool_init buf blk count m)) = buf
  /\ blk_size (fst (mpool_init buf blk count m)) = blk
  /\ total (fst (mpool_init buf blk count m)) = count
  /\ used (fst (mpool_init buf blk count m)) = 0.
Proof. unfold mpool_init. destruct (mpool_init_loop _ _ _ _). auto. Qed.

Lemma key_pool_inv_init buf m :
  0 < buf ->
  pool_inv (fst (mpool_init buf 12 16 m)) (snd (mpool_init buf 12 16 m)) []
           (blocks buf 16 16).
Proof.
  intros Hbuf.
  apply (mpool_init_inv buf 12 16 m Hbuf); [lia | vm_compute; discriminate | lia].
Qed.

Lemma keyboard_init_state_ok ctl ops cb g :
  0 < key_pool_buf g ->
  fst (fst (keyboard_init ctl ops cb g)) = KB_OK ->
  kb_state_ok (kb_after_init ctl ops cb g)
  /\ exists c, fst (kb_after_init ctl ops cb g) = Some c /\ head c = [].
Proof.
  intros Hbuf Hok.
  destruct (keyboard_init_ok_inv _ _ _ _ Hok) as (c & o & -> & -> & H1 & H2 & H3).
  unfold kb_after_init. rewrite keyboard_init_eq by assumption. cbn [fst snd].
  split; [|eexists; split; reflexivity].
  eexists _, [], (blocks (key_pool_buf g) 16 16). cbn [fst snd key_pool key_pool_links].
  split_and!; try reflexivity.
  - unfold kb_registry_ok. cbn [head key_num length map].
    split_and!; [reflexivity | unfold KB_MAX_KEYS; lia | constructor | | constructor].
    intros i j a b Hi. rewrite lookup_nil in Hi. discriminate.
  - apply key_pool_inv_init. exact Hbuf.
Qed.

End InitState.

(** X2.  Whenever [keyboard_init] returns [KB_OK], whatever the control
    block and the globals held before: the control block has the compiled
    backend, the given operation table, the given callback (none for a NULL
    [cb]), an empty registry and a key count of 0; the sixteen runtime
    records are zero; the pool has 16 blocks of 12 bytes, none used, and its
    free list is the sixteen blocks laid out 16 bytes apart from the start
    of [key_pool_buf]; every block, header and payload, lies inside the
    512 bytes of the buffer. *)
Theorem keyboard_init_fresh_state
    (ctl : option keyboard_control_t) (ops : option keyboard_ops_t)
    (cb : option keyboard_cb_t) (g : kb_globals) :
  0 < key_pool_buf g ->
  fst (fst (keyboard_init ctl ops cb g)) = KB_OK ->
  let r := keyboard_init ctl ops cb g in
  let buf := key_pool_buf g in
  (exists o,
      ops = Some o
      /\ snd (fst r)
         = Some (mk_ctl KB_BACKEND_MODE o
                   (mk_cb (match cb with Some c => on_event c | None => false end))
                   [] 0 true))
  /\ key_rt (snd r) = replicate 16 rt_zero
  /\ key_pool_buf (snd r) = buf
  /\ (blk_size (key_pool (snd r)), total (key_pool (snd r)), used (key_pool (snd r)))
     = (SIZEOF_KEYBOARD_QUE, KB_MAX_KEYS, 0)
  /\ free_chain 16 (key_pool_links (snd r)) (free_list (key_pool (snd r)))
     = Some (blocks buf 16 16)
  /\ Forall (fun a => buf <= a
                      /\ a + SIZEOF_MPOOL_NODE + SIZEOF_KEYBOARD_QUE
                         <= buf + KEYBOARD_POOL_SIZE)
            (blocks buf 16 16).
Proof.
  intros Hbuf Hok r buf.
  destruct (keyboard_init_ok_inv _ _ _ _ Hok) as (c & o & -> & -> & H1 & H2 & H3).
  unfold r. rewrite keyboard_init_eq by assumption.
  cbn [fst snd key_rt key_pool_buf key_pool key_pool_links].
  destruct (mpool_init_fields (key_pool_buf g) 12 16 (key_pool_links g))
    as (F1 & F2 & F3 & F4).
  pose proof (key_pool_inv_init (key_pool_buf g) (key_pool_links g) Hbuf) as (Hc & _).
  split_and!.
  - exists o. auto.
  - reflexivity.
  - reflexivity.
  - rewrite F2, F3, F4. reflexivity.
  - apply chain_walk; [exact Hc|]. rewrite blocks_length. lia.
  - unfold buf, SIZEOF_MPOOL_NODE, SIZEOF_KEYBOARD_QUE, KEYBOARD_POOL_SIZE.
    cbn [blocks]. repeat (constructor; [lia|]). constructor.
Qed.

Lemma keyboard_init_fresh_state_witness :
  free_chain 16
    (key_pool_links (snd (keyboard_init (Some demo_blank_ctl) (Some demo_matrix_ops)
                                        None demo_globals)))
    (free_list (key_pool (snd (keyboard_init (Some demo_blank_ctl) (Some demo_matrix_ops)
                                             None demo_globals))))
  = Some (blocks 536870912 16 16).
Proof.
  destruct (keyboard_init_fresh_state (Some demo_blank_ctl) (Some demo_matrix_ops)
              None demo_globals) as (_ & _ & _ & _ & H & _);
    [cbn; lia | reflexivity | exact H].
Defined.

Section RegistryInv.

Lemma kb_hw_equal_sym mode a b : kb_hw_equal mode a b = kb_hw_equal mode b a.
Proof.
  unfold kb_hw_equal. destruct (mode =? KB_BACKEND_GPIO); [apply Z.eqb_sym|].
  destruct (mode =? KB_BACKEND_MATRIX); [|apply Z.eqb_sym].
  rewrite (Z.eqb_sym (matrix_row a)), (Z.eqb_sym (matrix_col a)). reflexivity.
Qed.

Lemma kb_find_duplicate_false mode cf nodes :
  kb_find_duplicate mode cf nodes = false
  <-> Forall (fun n => key_id n <> cfg_key_id cf
                       /\ kb_hw_equal mode (hw n) (cfg_hw cf) = false) nodes.
Proof.
  induction nodes as [|n nodes IH]; cbn [kb_find_duplicate].
  - split; [constructor|reflexivity].
  - rewrite Forall_cons, <- IH.
    destruct (Z.eqb_spec (key_id n) (cfg_key_id cf)) as [He|Hne]; cbn [orb].
    + split; [discriminate|]. intros [[Hc _] _]. contradiction.
    + destruct (kb_hw_equal mode (hw n) (cfg_hw cf)).
      * split; [discriminate|]. intros [[_ Hc] _]. discriminate.
      * split; auto. intros [_ H]. exact H.
Qed.

Lemma kb_registry_ok_snoc c name cf :
  kb_registry_ok c ->
  key_num c < KB_MAX_KEYS ->
  kb_find_duplicate (backend_mode c) cf (head c) = false ->
  matrix_row (cfg_hw cf) < KB_MATRIX_MAX_ROW ->
  matrix_col (cfg_hw cf) < KB_MATRIX_MAX_COL ->
  kb_registry_ok
    (mk_ctl (backend_mode c) (keyboard_ops c) (keyboard_cb c)
            (head c ++ [mk_que name (cfg_key_id cf) (cfg_hw cf)])
            (u16 (key_num c + 1)) (keyboard_pool c)).
Proof.
  intros (Hn & Hmax & Hids & Hhw & Hrange) Hroom Hdup Hrow Hcol.
  apply kb_find_duplicate_false in Hdup. rewrite Forall_forall in Hdup.
  unfold kb_registry_ok. cbn [head key_num backend_mode].
  assert (u16 (key_num c + 1) = key_num c + 1) as ->.
  { unfold u16, KB_MAX_KEYS in *. apply Z.mod_small. lia. }
  split_and!.
  - rewrite length_app. cbn [length]. lia.
  - lia.
  - rewrite map_app. cbn [map key_id]. apply NoDup_app. split_and!.
    + exact Hids.
    + intros x Hx Hx'. apply list_elem_of_fmap in Hx as (n & -> & Hin).
      apply list_elem_of_singleton in Hx'. destruct (Hdup n Hin) as [Hne _]. contradiction.
    + apply NoDup_singleton.
  - intros i j a b Hi Hj Hij.
    apply lookup_app_Some in Hi as [Hi|[Hli Hi]];
      apply lookup_app_Some in Hj as [Hj|[Hlj Hj]].
    + eapply Hhw; eassumption.
    + apply list_lookup_singleton_Some in Hj as [_ <-]. cbn [hw].
      apply (Hdup a). eapply list_elem_of_lookup_2. exact Hi.
    + apply list_lookup_singleton_Some in Hi as [_ <-]. cbn [hw].
      rewrite kb_hw_equal_sym. apply (Hdup b). eapply list_elem_of_lookup_2. exact Hj.
    + apply list_lookup_singleton_Some in Hi as [Hi _].
      apply list_lookup_singleton_Some in Hj as [Hj _]. lia.
  - apply Forall_app. split; [exact Hrange|]. constructor; [|constructor].
    cbn [hw]. auto.
Qed.

Lemma keyboard_register_key_step cf c g live fl :
  kb_registry_ok c -> backend_mode c = KB_BACKEND_MODE -> keyboard_pool c = true ->
  pool_inv (key_pool g) (key_pool_links g) live fl ->
  Z.of_nat (length live) = key_num c -> total (key_pool g) = KB_MAX_KEYS ->
  let r := keyboard_register_key (Some cf) (Some c) g in
  (snd (fst r) = Some c /\ snd r = g
   /\ ((cfg_keyname cf = None /\ fst (fst r) = KB_ERR_PARAM)
       \/ ((KB_MATRIX_MAX_ROW <= matrix_row (cfg_hw cf)
            \/ KB_MATRIX_MAX_COL <= matrix_col (cfg_hw cf))
           /\ fst (fst r) = KB_ERR_RANGE)
       \/ (kb_find_duplicate (backend_mode c) cf (head c) = true
           /\ fst (fst r) = KB_ERR_DUPLICATE)
       \/ (KB_MAX_KEYS <= key_num c /\ fst (fst r) = KB_ERR_FULL)))
  \/ (exists name a fl' pool',
        cfg_keyname cf = Some name /\ fl = a :: fl'
        /\ key_num c < KB_MAX_KEYS
        /\ kb_find_duplicate (backend_mode c) cf (head c) = false
        /\ matrix_row (cfg_hw cf) < KB_MATRIX_MAX_ROW
        /\ matrix_col (cfg_hw cf) < KB_MATRIX_MAX_COL
        /\ r = (KB_OK,
                Some (mk_ctl (backend_mode c) (keyboard_ops c) (keyboard_cb c)
                             (head c ++ [mk_que name (cfg_key_id cf) (cfg_hw cf)])
                             (u16 (key_num c + 1)) (keyboard_pool c)),
                mk_globals (key_pool_buf g) pool' (key_pool_links g) (key_rt g))
        /\ pool_inv pool' (key_pool_links g) ((a + SIZEOF_MPOOL_NODE) :: live) fl').
Proof.
  intros Hreg Hmode Hpool Hinv Hlive Htot. cbn zeta.
  unfold keyboard_register_key.
  destruct (cfg_keyname cf) as [name|]; [|left; auto].
  rewrite Hpool, Hmode. cbn [negb].
  change (KB_BACKEND_MODE =? KB_BACKEND_MATRIX) with true. cbn [andb].
  destruct (Z.leb_spec KB_MATRIX_MAX_ROW (matrix_row (cfg_hw cf))) as [Hr|Hr];
    cbn [orb]; [left; cbn [fst snd]; auto 10|].
  destruct (Z.leb_spec KB_MATRIX_MAX_COL (matrix_col (cfg_hw cf))) as [Hc|Hc];
    [left; cbn [fst snd]; auto 10|].
  rewrite <- Hmode.
  destruct (kb_find_duplicate (backend_mode c) cf (head c)) eqn:Hdup;
    [left; cbn [fst snd]; auto 10|].
  destruct (Z.leb_spec KB_MAX_KEYS (key_num c)) as [Hfull|Hroom];
    [left; cbn [fst snd]; auto 10|].
  right.
  pose proof (mpool_alloc_inv _ _ _ _ Hinv) as Ha.
  destruct fl as [|a fl'].
  { destruct Hinv as (_ & _ & _ & _ & Ht & _). cbn [length] in Ht. lia. }
  destruct Ha as (pool' & -> & Hnz & Hinv').
  destruct (Z.eqb_spec (a + SIZEOF_MPOOL_NODE) 0); [contradiction|].
  exists name, a, fl', pool'. split_and!; auto.
Qed.

Lemma keyboard_register_key_state_ok cfg st :
  kb_state_ok st ->
  kb_state_ok (snd (fst (keyboard_register_key cfg (fst st) (snd st))),
               snd (keyboard_register_key cfg (fst st) (snd st))).
Proof.
  intros Hst.
  assert (forall code : Z, kb_state_ok (snd (fst (code, fst st, snd st)),
                                        snd (code, fst st, snd st))) as Hsame.
  { intros code. cbn [fst snd]. destruct st. exact Hst. }
  destruct Hst as (c & live & fl & Hc & Hreg & Hmode & Hpool & Hinv & Hlive & Htot).
  destruct st as [ctl g]. cbn [fst snd] in *. subst ctl.
  destruct cfg as [cf|]; [|apply (Hsame KB_ERR_PARAM)].
  destruct (keyboard_register_key_step cf c g live fl Hreg Hmode Hpool Hinv Hlive Htot)
    as [(H1 & H2 & _)|(name & a & fl' & pool' & Hname & -> & Hroom & Hdup & Hr & Hcl
                        & -> & Hinv')].
  - rewrite H1, H2. apply (Hsame 0).
  - cbn [fst snd]. eexists _, _, fl'. cbn [fst snd key_pool key_pool_links].
    split; [reflexivity|].
    split; [apply kb_registry_ok_snoc; assumption|].
    split; [exact Hmode|]. split; [exact Hpool|]. split; [exact Hinv'|].
    cbn [key_num length]. destruct Hreg as (_ & Hmax & _).
    destruct Hinv' as (_ & _ & _ & _ & Ht' & _).
    destruct Hinv as (_ & _ & _ & Hu & Ht & _).
    cbn [length] in *. unfold u16, KB_MAX_KEYS in *.
    rewrite Z.mod_small by lia. split; lia.
Qed.

Lemma kb_do_call_state_ok call st : kb_state_ok st -> kb_state_ok (kb_do_call call st).
Proof.
  intros Hst. destruct call as [cfg|dt hwst]; destruct st as [ctl g]; cbn [kb_do_call].
  - pose proof (keyboard_register_key_state_ok cfg (ctl, g) Hst) as H.
    cbn [fst snd] in H. destruct (keyboard_register_key cfg ctl g) as [[code ctl'] g'].
    exact H.
  - destruct (keyboard_poll ctl dt hwst (key_rt g)) as [rts evs].
    destruct Hst as (c & live & fl & Hst). exists c, live, fl. exact Hst.
Qed.

Lemma kb_do_calls_state_ok calls st : kb_state_ok st -> kb_state_ok (kb_do_calls calls st).
Proof.
  revert st. induction calls as [|call calls IH]; intros st Hst; [exact Hst|].
  cbn [kb_do_calls fold_left]. apply IH. apply kb_do_call_state_ok. exact Hst.
Qed.

End RegistryInv.

(** X3.  After a successful [keyboard_init] and any sequence of
    registrations and polls, the control block has the compiled backend and
    its pool, the key count is the length of the chain and at most
    [KB_MAX_KEYS], no two nodes share an id or a hardware location, every
    node lies inside the matrix, and the pool's used count is the key count
    and its free count is [KB_MAX_KEYS] minus the key count. *)
Theorem registry_stays_consistent
    (ctl : option keyboard_control_t) (ops : option keyboard_ops_t)
    (cb : option keyboard_cb_t) (g : kb_globals) (calls : list kb_call) :
  0 < key_pool_buf g ->
  fst (fst (keyboard_init ctl ops cb g)) = KB_OK ->
  let st := kb_do_calls calls (kb_after_init ctl ops cb g) in
  exists c,
    fst st = Some c /\ kb_registry_ok c
    /\ backend_mode c = KB_BACKEND_MODE /\ keyboard_pool c = true
    /\ mpool_used_count (key_pool (snd st)) = key_num c
    /\ mpool_free_count (key_pool (snd st)) = KB_MAX_KEYS - key_num c.
Proof.
  intros Hbuf Hok st.
  destruct (keyboard_init_state_ok ctl ops cb g Hbuf Hok) as [H0 _].
  destruct (kb_do_calls_state_ok calls _ H0)
    as (c & live & fl & Hc & Hreg & Hmode & Hpool & Hinv & Hlive & Htot).
  fold st in Hc, Hinv, Htot.
  exists c. split_and!; try assumption.
  - destruct Hinv as (_ & _ & _ & Hu & _). unfold mpool_used_count. lia.
  - destruct Hinv as (_ & _ & _ & Hu & Ht & _). destruct Hreg as (_ & Hmax & _).
    unfold mpool_free_count, u16, KB_MAX_KEYS in *. rewrite Z.mod_small by lia. lia.
Qed.

Lemma registry_stays_consistent_witness :
  exists c,
    fst (kb_do_calls [CallRegister (Some demo_cfg); CallPoll 30 demo_idle_hw;
                      CallRegister (Some demo_cfg)]
           (kb_after_init (Some demo_blank_ctl) (Some demo_matrix_ops)
                          (Some (mk_cb true)) demo_globals)) = Some c
    /\ kb_registry_ok c.
Proof.
  destruct (registry_stays_consistent (Some demo_blank_ctl) (Some demo_matrix_ops)
              (Some (mk_cb true)) demo_globals
              [CallRegister (Some demo_cfg); CallPoll 30 demo_idle_hw;
               CallRegister (Some demo_cfg)])
    as (c & H1 & H2 & _); [cbn; lia | reflexivity |].
  exists c. split; [exact H1|exact H2].
Defined.

(** X4.  After a successful [keyboard_init] and any sequence of
    registrations and polls, no call of [keyboard_register_key] returns
    [KB_ERR_NOMEM]: the pool holds as many blocks as the registry may hold
    keys, and the full registry is reported first. *)
Theorem registration_never_out_of_memory
    (ctl : option keyboard_control_t) (ops : option keyboard_ops_t)
    (cb : option keyboard_cb_t) (g : kb_globals) (calls : list kb_call)
    (cfg : option keyboard_key_cfg_t) :
  0 < key_pool_buf g ->
  fst (fst (keyboard_init ctl ops cb g)) = KB_OK ->
  let st := kb_do_calls calls (kb_after_init ctl ops cb g) in
  fst (fst (keyboard_register_key cfg (fst st) (snd st))) <> KB_ERR_NOMEM.
Proof.
  intros Hbuf Hok st.
  destruct (keyboard_init_state_ok ctl ops cb g Hbuf Hok) as [H0 _].
  destruct (kb_do_calls_state_ok calls _ H0)
    as (c & live & fl & Hc & Hreg & Hmode & Hpool & Hinv & Hlive & Htot).
  fold st in Hc, Hinv, Htot, Hlive. rewrite Hc.
  destruct cfg as [cf|]; [|discriminate].
  destruct (keyboard_register_key_step cf c (snd st) live fl Hreg Hmode Hpool Hinv
              Hlive Htot)
    as [(_ & _ & [[_ ->]|[[_ ->]|[[_ ->]|[_ ->]]]])
       |(name & a & fl' & pool' & _ & _ & _ & _ & _ & _ & -> & _)];
    discriminate.
Qed.

Lemma registration_never_out_of_memory_witness :
  fst (fst (keyboard_register_key (Some demo_cfg)
              (fst (kb_do_calls [CallRegister (Some demo_cfg)]
                      (kb_after_init (Some demo_blank_ctl) (Some demo_matrix_ops)
                                     (Some (mk_cb true)) demo_globals)))
              (snd (kb_do_calls [CallRegister (Some demo_cfg)]
                      (kb_after_init (Some demo_blank_ctl) (Some demo_matrix_ops)
                                     (Some (mk_cb true)) demo_globals)))))
  <> KB_ERR_NOMEM
  /\ fst (fst (keyboard_register_key (Some demo_cfg)
              (fst (kb_do_calls [CallRegister (Some demo_cfg)]
                      (kb_after_init (Some demo_blank_ctl) (Some demo_matrix_ops)
                                     (Some (mk_cb true)) demo_globals)))
              (snd (kb_do_calls [CallRegister (Some demo_cfg)]
                      (kb_after_init (Some demo_blank_ctl) (Some demo_matrix_ops)
                                     (Some (mk_cb true)) demo_globals)))))
     = KB_ERR_DUPLICATE.
Proof.
  split; [|reflexivity].
  apply (registration_never_out_of_memory (Some demo_blank_ctl) (Some demo_matrix_ops)
           (Some (mk_cb true)) demo_globals [CallRegister (Some demo_cfg)]
           (Some demo_cfg)); [cbn; lia|reflexivity].
Defined.

Section RegisterAll.

Lemma kb_matrix_key_fresh c k :
  backend_mode c = KB_BACKEND_MODE ->
  mx_id k ∉ map key_id (head c) ->
  (mx_row k, mx_col k) ∉ map (fun n => (matrix_row (hw n), matrix_col (hw n))) (head c) ->
  kb_find_duplicate (backend_mode c)
    (mk_cfg (Some (mx_name k)) (mx_id k) (mk_hw (mx_row k) (mx_col k))) (head c) = false.
Proof.
  intros Hmode Hid Hpos. apply kb_find_duplicate_false. apply Forall_forall.
  intros n Hn. cbn [cfg_key_id cfg_hw]. split.
  - intros He. apply Hid. rewrite <- He. apply list_elem_of_fmap. exists n. auto.
  - rewrite Hmode. unfold kb_hw_equal.
    change (KB_BACKEND_MODE =? KB_BACKEND_GPIO) with false.
    change (KB_BACKEND_MODE =? KB_BACKEND_MATRIX) with true.
    unfold matrix_row, matrix_col in *. cbn [hw_byte0 hw_byte1].
    destruct (Z.eqb_spec (hw_byte0 (hw n)) (mx_row k)) as [Hr|]; [|reflexivity].
    destruct (Z.eqb_spec (hw_byte1 (hw n)) (mx_col k)) as [Hc|]; [|reflexivity].
    exfalso. apply Hpos. apply list_elem_of_fmap. exists n.
    rewrite Hr, Hc. auto.
Qed.

Lemma kb_register_matrix_all_ok keys c g :
  kb_state_ok (Some c, g) ->
  Forall (fun k => 0 <= mx_row k < KB_MATRIX_MAX_ROW
                   /\ 0 <= mx_col k < KB_MATRIX_MAX_COL) keys ->
  NoDup (map key_id (head c) ++ map mx_id keys) ->
  NoDup (map (fun n => (matrix_row (hw n), matrix_col (hw n))) (head c)
         ++ map (fun k => (mx_row k, mx_col k)) keys) ->
  (length (head c) + length keys <= 16)%nat ->
  let r := kb_register_matrix_all keys (Some c) g in
  fst (fst r) = replicate (length keys) KB_OK
  /\ exists c', snd (fst r) = Some c'
                /\ head c' = head c ++ map kb_matrix_node keys
                /\ kb_state_ok (Some c', snd r).
Proof.
  revert c g. induction keys as [|k keys IH]; intros c g Hst Hin Hids Hpos Hlen; cbn zeta.
  - cbn [kb_register_matrix_all fst snd length replicate map].
    split; [reflexivity|]. exists c. rewrite app_nil_r. auto.
  - cbn [kb_register_matrix_all]. unfold keyboard_register_matrix.
    set (cf := mk_cfg (Some (mx_name k)) (mx_id k) (mk_hw (mx_row k) (mx_col k))).
    pose proof (keyboard_register_key_state_ok (Some cf) (Some c, g) Hst) as Hst1.
    cbn [fst snd] in Hst1.
    destruct Hst as (c0 & live & fl & [= <-] & Hreg & Hmode & Hpool & Hinv & Hlive & Htot).
    cbn [fst snd] in *.
    apply Forall_cons in Hin as [[Hrow Hcol] Hin].
    cbn [map] in Hids, Hpos.
    assert (mx_id k ∉ map key_id (head c)) as Hidk.
    { apply NoDup_app in Hids as (_ & Hd & _). intros Hx. apply (Hd _ Hx). left. }
    assert ((mx_row k, mx_col k)
            ∉ map (fun n => (matrix_row (hw n), matrix_col (hw n))) (head c)) as Hposk.
    { apply NoDup_app in Hpos as (_ & Hd & _). intros Hx. apply (Hd _ Hx). left. }
    pose proof (kb_matrix_key_fresh c k Hmode Hidk Hposk) as Hfresh. fold cf in Hfresh.
    destruct Hreg as (Hn & Hreg').
    destruct (keyboard_register_key_step cf c g live fl (conj Hn Hreg') Hmode Hpool
                Hinv Hlive Htot)
      as [(_ & _ & [[Hc _]|[[Hc _]|[[Hc _]|[Hc _]]]])
         |(name & a & fl' & pool' & [= <-] & -> & _ & _ & _ & _ & Hr & _)].
    + discriminate.
    + unfold matrix_row, matrix_col in Hc. cbn [cfg_hw hw_byte0 hw_byte1 cf] in Hc. lia.
    + congruence.
    + cbn [length] in Hlen. unfold KB_MAX_KEYS in Hc. lia.
    + rewrite Hr in *. cbn [fst snd] in Hst1.
      match type of Hst1 with kb_state_ok (Some ?c1, ?g1) =>
        specialize (IH c1 g1 Hst1 Hin) end.
      cbn [head] in IH.
      destruct IH as (I1 & c' & I2 & I3 & I4).
      * rewrite map_app, <- app_assoc. exact Hids.
      * rewrite map_app, <- app_assoc. exact Hpos.
      * rewrite length_app. cbn [length] in *. lia.
      * destruct (kb_register_matrix_all keys _ _) as [[codes ctl2] g2].
        cbn [fst snd] in *. subst codes ctl2. cbn [length replicate map].
        split; [reflexivity|]. exists c'. rewrite I3, <- app_assoc. auto.
Qed.

End RegisterAll.

(** X5.  After a successful [keyboard_init], registering through
    [keyboard_register_matrix] at most 16 keys with rows and columns inside
    the matrix, pairwise distinct ids and pairwise distinct positions:
    every call returns [KB_OK], the registry holds the keys in the order of
    the calls, and the key count is their number.  Once 16 keys are
    registered, one more such key (in range, with a fresh id and a fresh
    position) is refused with [KB_ERR_FULL]. *)
Theorem distinct_keys_register_in_order
    (ctl : option keyboard_control_t) (ops : option keyboard_ops_t)
    (cb : option keyboard_cb_t) (g : kb_globals) (keys : list kb_matrix_key) :
  0 < key_pool_buf g ->
  fst (fst (keyboard_init ctl ops cb g)) = KB_OK ->
  Forall (fun k => 0 <= mx_row k < KB_MATRIX_MAX_ROW
                   /\ 0 <= mx_col k < KB_MATRIX_MAX_COL) keys ->
  NoDup (map mx_id keys) ->
  NoDup (map (fun k => (mx_row k, mx_col k)) keys) ->
  (length keys <= 16)%nat ->
  let st := kb_after_init ctl ops cb g in
  let r := kb_register_matrix_all keys (fst st) (snd st) in
  fst (fst r) = replicate (length keys) KB_OK
  /\ (exists c, snd (fst r) = Some c
                /\ head c = map kb_matrix_node keys
                /\ key_num c = Z.of_nat (length keys))
  /\ (length keys = 16%nat ->
      forall k,
        0 <= mx_row k < KB_MATRIX_MAX_ROW -> 0 <= mx_col k < KB_MATRIX_MAX_COL ->
        mx_id k ∉ map mx_id keys ->
        (mx_row k, mx_col k) ∉ map (fun k => (mx_row k, mx_col k)) keys ->
        fst (fst (keyboard_register_matrix (mx_row k) (mx_col k) (Some (mx_name k))
                    (mx_id k) (snd (fst r)) (snd r)))
        = KB_ERR_FULL).
Proof.
  intros Hbuf Hok Hin Hids Hpos Hlen st r.
  destruct (keyboard_init_state_ok ctl ops cb g Hbuf Hok) as (H0 & c0 & Hc0 & Hh0).
  fold st in H0, Hc0. destruct st as [ctl0 g0]. cbn [fst snd] in *. subst ctl0.
  destruct (kb_register_matrix_all_ok keys c0 g0 H0 Hin) as (R1 & c' & R2 & R3 & R4).
  { rewrite Hh0. exact Hids. }
  { rewrite Hh0. exact Hpos. }
  { rewrite Hh0. cbn [length]. lia. }
  fold r in R1, R2, R4. rewrite Hh0 in R3. cbn [app] in R3.
  destruct R4 as (c1 & live & fl & [= <-] & Hreg & Hmode & Hpool & Hinv & Hlive & Htot).
  cbn [fst snd] in *.
  assert (key_num c' = Z.of_nat (length keys)) as Hnum.
  { destruct Hreg as (-> & _). rewrite R3, length_map. reflexivity. }
  split_and!.
  - exact R1.
  - exists c'. auto.
  - intros H16 k Hrow Hcol Hidk Hposk. rewrite R2. unfold keyboard_register_matrix.
    set (cf := mk_cfg (Some (mx_name k)) (mx_id k) (mk_hw (mx_row k) (mx_col k))).
    assert (kb_find_duplicate (backend_mode c') cf (head c') = false) as Hfresh.
    { apply kb_matrix_key_fresh; [exact Hmode| |]; rewrite R3, map_map; assumption. }
    destruct (keyboard_register_key_step cf c' (snd r) live fl Hreg Hmode Hpool
                Hinv Hlive Htot)
      as [(_ & _ & [[Hc _]|[[Hc _]|[[Hc _]|[_ Hc]]]])
         |(name & a & fl' & pool' & _ & _ & Hroom & _)].
    + discriminate.
    + unfold matrix_row, matrix_col in Hc. cbn [cfg_hw hw_byte0 hw_byte1 cf] in Hc. lia.
    + congruence.
    + exact Hc.
    + unfold KB_MAX_KEYS in Hroom. lia.
Qed.

Lemma distinct_keys_register_in_order_witness :
  fst (fst (kb_register_matrix_all
              [mk_matrix_key 0 0 "K_A" 1; mk_matrix_key 0 1 "K_B" 2]
              (fst (kb_after_init (Some demo_blank_ctl) (Some demo_matrix_ops)
                                  (Some (mk_cb true)) demo_globals))
              (snd (kb_after_init (Some demo_blank_ctl) (Some demo_matrix_ops)
                                  (Some (mk_cb true)) demo_globals))))
  = [KB_OK; KB_OK].
Proof.
  destruct (distinct_keys_register_in_order (Some demo_blank_ctl) (Some demo_matrix_ops)
              (Some (mk_cb true)) demo_globals
              [mk_matrix_key 0 0 "K_A" 1; mk_matrix_key 0 1 "K_B" 2])
    as [H _].
  - cbn. lia.
  - reflexivity.
  - repeat (constructor; [vm_compute; intuition discriminate|]). constructor.
  - compute_done.
  - compute_done.
  - cbn. lia.
  - exact H.
Defined.

(** X7.  For every backend mode [kb_hw_equal] is reflexive, symmetric and
    transitive.  Under the pin backend two references are equal exactly when
    their first bytes agree; under the other backends (with first bytes in
    the byte range) exactly when the two references are the same. *)
Theorem kb_hw_equal_is_equivalence (mode : Z) :
  (forall a, kb_hw_equal mode a a = true)
  /\ (forall a b, kb_hw_equal mode a b = kb_hw_equal mode b a)
  /\ (forall a b c,
        kb_hw_equal mode a b = true -> kb_hw_equal mode b c = true ->
        kb_hw_equal mode a c = true)
  /\ (forall a b,
        mode = KB_BACKEND_GPIO ->
        (kb_hw_equal mode a b = true <-> hw_byte0 a = hw_byte0 b))
  /\ (forall a b,
        mode <> KB_BACKEND_GPIO ->
        0 <= hw_byte0 a < 2 ^ 8 -> 0 <= hw_byte0 b < 2 ^ 8 ->
        (kb_hw_equal mode a b = true <-> a = b)).
Proof.
  split_and!.
  - intros a. unfold kb_hw_equal. rewrite !Z.eqb_refl. split_tests; reflexivity.
  - intros a b. unfold kb_hw_equal.
    rewrite (Z.eqb_sym (gpio_pin a)), (Z.eqb_sym (matrix_row a)),
      (Z.eqb_sym (matrix_col a)), (Z.eqb_sym (hw_code a)). reflexivity.
  - intros a b c. unfold kb_hw_equal.
    destruct (mode =? KB_BACKEND_GPIO); [rewrite !Z.eqb_eq; congruence|].
    destruct (mode =? KB_BACKEND_MATRIX);
      [rewrite !andb_true_iff, !Z.eqb_eq; intuition congruence|].
    rewrite !Z.eqb_eq; congruence.
  - intros a b ->. unfold kb_hw_equal, gpio_pin. cbn [Z.eqb KB_BACKEND_GPIO Pos.eqb].
    apply Z.eqb_eq.
  - intros [a0 a1] [b0 b1] Hmode Ha Hb. unfold kb_hw_equal.
    destruct (Z.eqb_spec mode KB_BACKEND_GPIO); [contradiction|].
    unfold matrix_row, matrix_col, hw_code. cbn [hw_byte0 hw_byte1] in *.
    destruct (mode =? KB_BACKEND_MATRIX).
    + rewrite andb_true_iff, !Z.eqb_eq. split; [intros [-> ->]; reflexivity|].
      intros [= -> ->]. auto.
    + rewrite Z.eqb_eq. split; [|intros [= -> ->]; reflexivity].
      intros H. assert (a0 = b0 /\ a1 = b1) as [-> ->]; [lia|reflexivity].
Qed.

Section PinHelper.

Lemma kb_find_duplicate_pin name id pin s1 s2 nodes :
  kb_find_duplicate KB_BACKEND_GPIO (mk_cfg name id (mk_hw pin s1)) nodes
  = kb_find_duplicate KB_BACKEND_GPIO (mk_cfg name id (mk_hw pin s2)) nodes.
Proof.
  induction nodes as [|n nodes IH]; [reflexivity|].
  cbn [kb_find_duplicate]. rewrite IH. reflexivity.
Qed.

End PinHelper.

(** X6.  [keyboard_register_gpio] leaves the second byte of the hardware
    reference unwritten.  (1) Under the pin backend that byte has no
    influence: for any two values of it the return code, the globals, the key
    count and the name, id and pin of every node are the same.  (2) Under
    the matrix backend the pin is read as the row and the unwritten byte as
    the column: with a name and a pool, the call returns [KB_ERR_RANGE] and
    changes nothing as soon as either is 8 or more. *)
Theorem keyboard_register_gpio_stale_byte
    (c : keyboard_control_t) (g : kb_globals) (pin : Z) (name : option string)
    (id s1 s2 : Z) :
  (backend_mode c = KB_BACKEND_GPIO ->
   let r1 := keyboard_register_gpio pin name id (Some c) g s1 in
   let r2 := keyboard_register_gpio pin name id (Some c) g s2 in
   fst (fst r1) = fst (fst r2) /\ snd r1 = snd r2
   /\ exists c1 c2,
        snd (fst r1) = Some c1 /\ snd (fst r2) = Some c2
        /\ key_num c1 = key_num c2
        /\ map (fun n => (keyname n, key_id n, gpio_pin (hw n))) (head c1)
           = map (fun n => (keyname n, key_id n, gpio_pin (hw n))) (head c2))
  /\ (backend_mode c = KB_BACKEND_MATRIX ->
      name <> None -> keyboard_pool c = true ->
      KB_MATRIX_MAX_ROW <= pin \/ KB_MATRIX_MAX_COL <= s1 ->
      keyboard_register_gpio pin name id (Some c) g s1 = (KB_ERR_RANGE, Some c, g)).
Proof.
  split.
  - intros Hmode. cbn zeta. unfold keyboard_register_gpio, keyboard_register_key.
    cbn [cfg_keyname cfg_hw cfg_key_id]. rewrite Hmode.
    change (KB_BACKEND_GPIO =? KB_BACKEND_MATRIX) with false. cbn [andb].
    rewrite (kb_find_duplicate_pin _ id pin s1 s2).
    destruct name as [nm|]; [|cbn [fst snd]; eauto 10].
    destruct (keyboard_pool c); cbn [negb]; [|cbn [fst snd]; eauto 10].
    destruct (kb_find_duplicate _ _ _); [cbn [fst snd]; eauto 10|].
    destruct (KB_MAX_KEYS <=? key_num c); [cbn [fst snd]; eauto 10|].
    destruct (mpool_alloc (key_pool g) (key_pool_links g)) as [[ptr pool'] m'].
    destruct (ptr =? 0); cbn [fst snd]; [eauto 10|].
    split_and!; try reflexivity. eexists _, _. split_and!; try reflexivity.
    cbn [head]. rewrite !map_app. reflexivity.
  - intros Hmode Hname Hpool Hrange. unfold keyboard_register_gpio, keyboard_register_key.
    cbn [cfg_keyname cfg_hw cfg_key_id]. destruct name as [nm|]; [|contradiction].
    rewrite Hpool, Hmode. cbn [negb].
    change (KB_BACKEND_MATRIX =? KB_BACKEND_MATRIX) with true. cbn [andb].
    unfold matrix_row, matrix_col. cbn [hw_byte0 hw_byte1].
    destruct (Z.leb_spec KB_MATRIX_MAX_ROW pin); [reflexivity|].
    destruct (Z.leb_spec KB_MATRIX_MAX_COL s1); [reflexivity|]. lia.
Qed.

Lemma keyboard_register_gpio_stale_byte_witness :
  fst (fst (keyboard_register_gpio 3 (Some "K_B"%string) 2 (Some demo_ctl) demo_globals 0))
  = fst (fst (keyboard_register_gpio 3 (Some "K_B"%string) 2 (Some demo_ctl) demo_globals 255)).
Proof.
  destruct (keyboard_register_gpio_stale_byte demo_ctl demo_globals 3
              (Some "K_B"%string) 2 0 255) as [H _].
  destruct (H eq_refl) as [H1 _]. exact H1.
Defined.

(** * The scan pass, key by key *)

Section Sampling.

Lemma kb_read_raw_bool c hwst node i snapshot :
  kb_read_raw c hwst node i snapshot = 0 \/ kb_read_raw c hwst node i snapshot = 1.
Proof. unfold kb_read_raw. split_tests; auto. Qed.

(** A poll with a non-zero delta is the scan pass on the snapshot of the
    tick, when there is one. *)
Lemma keyboard_poll_snapshot c dt hwst key_rt :
  dt <> 0 ->
  keyboard_poll (Some c) dt hwst key_rt
  = match kb_snapshot c hwst with
    | Some snapshot => kb_scan_and_deliver c dt hwst snapshot key_rt
    | None => (key_rt, [])
    end.
Proof.
  intros Hdt. unfold keyboard_poll, kb_snapshot.
  destruct (Z.eqb_spec dt 0); [contradiction|].
  destruct (backend_mode c =? KB_BACKEND_CUSTOM); [|reflexivity].
  destruct (scan_snapshot (keyboard_ops c)); cbn [negb]; [|reflexivity].
  destruct (hw_scan_snapshot hwst (key_num c)) as [ret buf].
  destruct (ret =? 0); reflexivity.
Qed.

Lemma kb_scan_and_deliver_all c dt hwst snapshot key_rt :
  kb_scan_and_deliver c dt hwst snapshot key_rt
  = (fst (kb_scan_all c dt hwst snapshot (head c) 0 key_rt),
     flat_map (kb_emit_event c) (snd (kb_scan_all c dt hwst snapshot (head c) 0 key_rt))).
Proof.
  unfold kb_scan_and_deliver. rewrite kb_scan_loop_all by (cbn; lia).
  cbn [app]. rewrite take_ge; [reflexivity|].
  pose proof (kb_scan_all_below_cap c dt hwst snapshot (head c) key_rt).
  unfold cap, PENDING_CAP, KB_MAX_KEYS. lia.
Qed.

End Sampling.

Section Frame.

Variables (ctl : keyboard_control_t) (dt : Z) (hwst : kb_hw) (snapshot : list Z).

Lemma kb_scan_all_frame nodes idx key_rt i :
  (i < idx)%nat \/ key_num ctl <= Z.of_nat i \/ (idx + length nodes <= i)%nat
  \/ KB_MAX_KEYS <= Z.of_nat i ->
  fst (kb_scan_all ctl dt hwst snapshot nodes idx key_rt) !! i = key_rt !! i.
Proof.
  revert idx key_rt. induction nodes as [|node rest IH]; intros idx key_rt Hi;
    [reflexivity|].
  cbn [kb_scan_all].
  destruct (Z.ltb_spec (Z.of_nat idx) (key_num ctl)); cbn [andb]; [|reflexivity].
  destruct (Z.ltb_spec (Z.of_nat idx) KB_MAX_KEYS); [|reflexivity].
  destruct (key_rt !! idx) as [rt|]; [|reflexivity].
  specialize (IH (S idx) (<[idx := kb_key_next dt
                   (kb_read_raw ctl hwst node idx snapshot) rt]> key_rt)).
  destruct (kb_scan_all ctl dt hwst snapshot rest (S idx) _) as [k' evs].
  cbn [fst length] in *. rewrite IH by lia.
  apply list_lookup_insert_ne. lia.
Qed.

Lemma kb_keys_deliver_insert nodes idx key_rt i x :
  (i < idx)%nat ->
  kb_keys_deliver ctl dt hwst snapshot nodes idx (<[i := x]> key_rt)
  = kb_keys_deliver ctl dt hwst snapshot nodes idx key_rt.
Proof.
  revert idx. induction nodes as [|node rest IH]; intros idx Hi; [reflexivity|].
  cbn [kb_keys_deliver]. rewrite list_lookup_insert_ne by lia.
  destruct (key_rt !! idx); [|reflexivity]. rewrite IH by lia. reflexivity.
Qed.

Lemma kb_emit_event_map node evs :
  on_event (keyboard_cb ctl) = true ->
  flat_map (kb_emit_event ctl) (map (mk_pending node) evs)
  = map (mk_delivery (keyname node) (key_id node)) evs.
Proof.
  intros Hcb. induction evs as [|e evs IH]; [reflexivity|].
  cbn [map flat_map]. rewrite IH. unfold kb_emit_event. rewrite Hcb. reflexivity.
Qed.

(** With every node of the chain counted and a record for each, the scan
    pass takes the keys one by one, each with its own record. *)
Lemma kb_scan_all_keys nodes idx key_rt :
  on_event (keyboard_cb ctl) = true ->
  Z.of_nat (idx + length nodes) <= key_num ctl ->
  (idx + length nodes <= 16)%nat ->
  (idx + length nodes <= length key_rt)%nat ->
  flat_map (kb_emit_event ctl) (snd (kb_scan_all ctl dt hwst snapshot nodes idx key_rt))
  = kb_keys_deliver ctl dt hwst snapshot nodes idx key_rt
  /\ forall j node rt,
       nodes !! j = Some node -> key_rt !! (idx + j)%nat = Some rt ->
       fst (kb_scan_all ctl dt hwst snapshot nodes idx key_rt) !! (idx + j)%nat
       = Some (kb_key_next dt (kb_read_raw ctl hwst node (idx + j) snapshot) rt).
Proof.
  intros Hcb. revert idx key_rt.
  induction nodes as [|node rest IH]; intros idx key_rt Hnum Hmax Hlen.
  - split; [reflexivity|]. intros j node rt Hj. rewrite lookup_nil in Hj. discriminate.
  - cbn [kb_scan_all kb_keys_deliver length] in *.
    destruct (Z.ltb_spec (Z.of_nat idx) (key_num ctl)); [|lia]. cbn [andb].
    destruct (Z.ltb_spec (Z.of_nat idx) KB_MAX_KEYS); [|unfold KB_MAX_KEYS in *; lia].
    destruct (key_rt !! idx) as [rt0|] eqn:Hrt0;
      [|apply lookup_ge_None in Hrt0; lia].
    set (raw := kb_read_raw ctl hwst node idx snapshot).
    set (key_rt1 := <[idx := kb_key_next dt raw rt0]> key_rt).
    destruct (IH (S idx) key_rt1) as [I1 I2];
      [lia | lia | unfold key_rt1; rewrite length_insert; lia |].
    pose proof (kb_scan_all_frame rest (S idx) key_rt1 idx ltac:(lia)) as Hfr.
    destruct (kb_scan_all ctl dt hwst snapshot rest (S idx) key_rt1) as [k' evs].
    cbn [fst snd] in *. split.
    + rewrite flat_map_app, kb_emit_event_map by exact Hcb. rewrite I1.
      unfold key_rt1. rewrite kb_keys_deliver_insert by lia. reflexivity.
    + intros [|j] nd rt Hj Hrt.
      * cbn in Hj. injection Hj as <-. rewrite Nat.add_0_r in *.
        rewrite Hfr. unfold key_rt1.
        rewrite list_lookup_insert_eq by (apply lookup_lt_Some in Hrt0; exact Hrt0).
        unfold raw. congruence.
      * cbn in Hj. replace (idx + S j)%nat with (S idx + j)%nat in * by lia.
        apply I2; [exact Hj|]. unfold key_rt1.
        rewrite list_lookup_insert_ne by lia. exact Hrt.
Qed.

End Frame.

Section Callback.

Lemma kb_scan_all_callback c cb' dt hwst snapshot nodes idx key_rt :
  kb_scan_all (mk_ctl (backend_mode c) (keyboard_ops c) cb' (head c) (key_num c)
                      (keyboard_pool c)) dt hwst snapshot nodes idx key_rt
  = kb_scan_all c dt hwst snapshot nodes idx key_rt.
Proof.
  revert idx key_rt. induction nodes as [|node rest IH]; intros idx key_rt; [reflexivity|].
  cbn [kb_scan_all key_num]. 
  destruct ((Z.of_nat idx <? key_num c) && (Z.of_nat idx <? KB_MAX_KEYS)); [|reflexivity].
  destruct (key_rt !! idx) as [rt|]; [|reflexivity].
  unfold kb_read_raw at 1 3. cbn [backend_mode keyboard_ops].
  fold (kb_read_raw c hwst node idx snapshot). rewrite IH. reflexivity.
Qed.

End Callback.

(** X8.  With no callback installed a poll delivers nothing, and the
    runtime records it leaves are the ones the same poll leaves with a
    callback installed: the events of the tick are consumed, not kept for
    later. *)
Theorem poll_without_callback_drops_events
    (c : keyboard_control_t) (dt : Z) (hwst : kb_hw) (key_rt : list kb_key_runtime_t) :
  on_event (keyboard_cb c) = false ->
  snd (keyboard_poll (Some c) dt hwst key_rt) = []
  /\ fst (keyboard_poll (Some c) dt hwst key_rt)
     = fst (keyboard_poll
              (Some (mk_ctl (backend_mode c) (keyboard_ops c) (mk_cb true) (head c)
                            (key_num c) (keyboard_pool c))) dt hwst key_rt).
Proof.
  intros Hcb. destruct (Z.eq_dec dt 0) as [->|Hdt]; [split; reflexivity|].
  rewrite !keyboard_poll_snapshot by exact Hdt.
  change (kb_snapshot (mk_ctl _ _ _ _ _ _) hwst) with (kb_snapshot c hwst).
  destruct (kb_snapshot c hwst) as [snapshot|]; [|split; reflexivity].
  rewrite !kb_scan_and_deliver_all. cbn [fst snd head].
  rewrite kb_scan_all_callback. split; [|reflexivity].
  induction (snd (kb_scan_all c dt hwst snapshot (head c) 0 key_rt)) as [|p l IH];
    [reflexivity|].
  cbn [flat_map]. rewrite IH. unfold kb_emit_event. rewrite Hcb. reflexivity.
Qed.

Lemma poll_without_callback_drops_events_witness :
  snd (keyboard_poll (Some (mk_ctl KB_BACKEND_GPIO demo_ops (mk_cb false) [demo_node] 1 true))
                     600 (snd (demo_tick 600 1)) [mk_rt 1 0 0 0 0 0 0 0])
  = [].
Proof.
  apply (proj1 (poll_without_callback_drops_events
                  (mk_ctl KB_BACKEND_GPIO demo_ops (mk_cb false) [demo_node] 1 true)
                  600 (snd (demo_tick 600 1)) [mk_rt 1 0 0 0 0 0 0 0] eq_refl)).
Defined.

(** X9.  A poll keeps the number of runtime records, and leaves alone
    every record whose index is at least the key count, at least the length
    of the chain, or at least [KB_MAX_KEYS]. *)
Theorem poll_touches_only_registered_keys
    (ctl : option keyboard_control_t) (dt : Z) (hwst : kb_hw)
    (key_rt : list kb_key_runtime_t) :
  length (fst (keyboard_poll ctl dt hwst key_rt)) = length key_rt
  /\ forall c i,
       ctl = Some c ->
       key_num c <= Z.of_nat i \/ (length (head c) <= i)%nat
       \/ KB_MAX_KEYS <= Z.of_nat i ->
       fst (keyboard_poll ctl dt hwst key_rt) !! i = key_rt !! i.
Proof.
  destruct (keyboard_poll_cases ctl dt hwst key_rt)
    as [->|(c & snapshot & -> & Hdt & ->)]; [auto|].
  cbn [fst]. split; [apply kb_scan_all_length|].
  intros c' i [= <-] Hi. apply kb_scan_all_frame. cbn [Nat.add]. intuition lia.
Qed.

(** X10.  A poll with a non-zero delta that reaches the scan pass, on a
    control block with a callback whose key count covers the chain of at
    most 16 nodes: the deliveries are, key after key in registration order,
    the events of that key computed from its own record and its own sample,
    under the key's name and id; and the record of the key at index [i] is
    updated once, from the sample of that key. *)
Theorem poll_handles_keys_one_by_one
    (c : keyboard_control_t) (dt : Z) (hwst : kb_hw) (snapshot : list Z)
    (key_rt : list kb_key_runtime_t) :
  dt <> 0 -> kb_snapshot c hwst = Some snapshot ->
  on_event (keyboard_cb c) = true ->
  Z.of_nat (length (head c)) <= key_num c ->
  (length (head c) <= 16)%nat -> (length (head c) <= length key_rt)%nat ->
  snd (keyboard_poll (Some c) dt hwst key_rt)
  = kb_keys_deliver c dt hwst snapshot (head c) 0 key_rt
  /\ forall i node rt,
       head c !! i = Some node -> key_rt !! i = Some rt ->
       fst (keyboard_poll (Some c) dt hwst key_rt) !! i
       = Some (kb_key_next dt (kb_read_raw c hwst node i snapshot) rt).
Proof.
  intros Hdt Hsnap Hcb Hnum Hmax Hlen.
  rewrite keyboard_poll_snapshot, Hsnap, kb_scan_and_deliver_all by exact Hdt.
  cbn [fst snd].
  destruct (kb_scan_all_keys c dt hwst snapshot (head c) 0 key_rt Hcb)
    as [H1 H2]; [cbn [Nat.add]; lia | lia | lia |].
  split; [exact H1|]. intros i node rt Hi Hrt. apply (H2 i node rt Hi Hrt).
Qed.

Lemma poll_handles_keys_one_by_one_witness :
  snd (keyboard_poll
         (Some (mk_ctl KB_BACKEND_GPIO demo_ops (mk_cb true)
                       [demo_node; mk_que "K_B" 2 (mk_hw 1 0)] 2 true))
         600 (snd (demo_tick 600 1))
         [mk_rt 1 0 0 0 0 0 0 0; mk_rt 1 1 1 0 20 900 0 0])
  = [mk_delivery "K_A" 1 KB_EVT_PRESS; mk_delivery "K_A" 1 KB_EVT_REPEAT;
     mk_delivery "K_B" 2 KB_EVT_REPEAT].
Proof.
  rewrite (proj1 (poll_handles_keys_one_by_one
                    (mk_ctl KB_BACKEND_GPIO demo_ops (mk_cb true)
                            [demo_node; mk_que "K_B" 2 (mk_hw 1 0)] 2 true)
                    600 (snd (demo_tick 600 1)) []
                    [mk_rt 1 0 0 0 0 0 0 0; mk_rt 1 1 1 0 20 900 0 0]
                    ltac:(lia) eq_refl eq_refl ltac:(cbn; lia) ltac:(cbn; lia)
                    ltac:(cbn; lia))).
  reflexivity.
Defined.

(** * Several keys *)

Section Isolation.

Variables (c : keyboard_control_t) (dt : Z) (hwst : kb_hw) (snapshot : list Z).

Lemma kb_deliveries_of_own name id evs :
  kb_deliveries_of id (map (mk_delivery name id) evs) = map (mk_delivery name id) evs.
Proof.
  induction evs as [|e evs IH]; [reflexivity|].
  cbn [map kb_deliveries_of List.filter dl_key_id]. rewrite Z.eqb_refl.
  f_equal. exact IH.
Qed.

Lemma kb_deliveries_of_other name id id' evs :
  id' <> id -> kb_deliveries_of id (map (mk_delivery name id') evs) = [].
Proof.
  intros Hne. induction evs as [|e evs IH]; [reflexivity|].
  cbn [map kb_deliveries_of List.filter dl_key_id].
  destruct (Z.eqb_spec id' id); [contradiction|]. exact IH.
Qed.

Lemma kb_keys_deliver_none nodes idx key_rt id :
  id ∉ map key_id nodes ->
  kb_deliveries_of id (kb_keys_deliver c dt hwst snapshot nodes idx key_rt) = [].
Proof.
  revert idx. induction nodes as [|node rest IH]; intros idx Hid; [reflexivity|].
  cbn [kb_keys_deliver map] in *. apply not_elem_of_cons in Hid as [Hne Hid].
  destruct (key_rt !! idx); [|reflexivity].
  unfold kb_deliveries_of. rewrite List.filter_app.
  fold (kb_deliveries_of id (map (mk_delivery (keyname node) (key_id node))
          (kb_key_events dt (kb_read_raw c hwst node idx snapshot) k))).
  rewrite kb_deliveries_of_other by congruence.
  apply IH. exact Hid.
Qed.

Lemma kb_keys_deliver_key nodes idx key_rt j node rt :
  NoDup (map key_id nodes) ->
  (idx + length nodes <= length key_rt)%nat ->
  nodes !! j = Some node -> key_rt !! (idx + j)%nat = Some rt ->
  kb_deliveries_of (key_id node) (kb_keys_deliver c dt hwst snapshot nodes idx key_rt)
  = map (mk_delivery (keyname node) (key_id node))
        (kb_key_events dt (kb_read_raw c hwst node (idx + j) snapshot) rt).
Proof.
  revert idx j. induction nodes as [|node0 rest IH]; intros idx j Hnd Hlen Hj Hrt.
  - rewrite lookup_nil in Hj. discriminate.
  - cbn [kb_keys_deliver map length] in *. apply NoDup_cons in Hnd as [Hnot Hnd].
    destruct (key_rt !! idx) as [rt0|] eqn:Hrt0;
      [|apply lookup_ge_None in Hrt0; lia].
    unfold kb_deliveries_of. rewrite List.filter_app.
    destruct j as [|j].
    + cbn in Hj. injection Hj as <-. rewrite Nat.add_0_r in *.
      assert (rt0 = rt) as -> by congruence.
      fold (kb_deliveries_of (key_id node0)
              (map (mk_delivery (keyname node0) (key_id node0))
                   (kb_key_events dt (kb_read_raw c hwst node0 idx snapshot) rt))).
      rewrite kb_deliveries_of_own.
      fold (kb_deliveries_of (key_id node0)
              (kb_keys_deliver c dt hwst snapshot rest (S idx) key_rt)).
      rewrite kb_keys_deliver_none by exact Hnot. apply app_nil_r.
    + cbn in Hj. replace (idx + S j)%nat with (S idx + j)%nat in * by lia.
      fold (kb_deliveries_of (key_id node)
              (map (mk_delivery (keyname node0) (key_id node0))
                   (kb_key_events dt (kb_read_raw c hwst node0 idx snapshot) rt0))).
      rewrite kb_deliveries_of_other.
      * cbn [app]. apply IH; [exact Hnd | lia | exact Hj | exact Hrt].
      * intros He. apply Hnot. rewrite He. apply list_elem_of_fmap.
        exists node. split; [reflexivity|]. eapply list_elem_of_lookup_2. exact Hj.
Qed.

End Isolation.

Section KeyRuns.

Variable c : keyboard_control_t.
Hypothesis Hmode : backend_mode c <> KB_BACKEND_CUSTOM.
Hypothesis Hcb : on_event (keyboard_cb c) = true.
Hypothesis Hnum : key_num c = Z.of_nat (length (head c)).
Hypothesis Hmax : (length (head c) <= 16)%nat.
Hypothesis Hids : NoDup (map key_id (head c)).

Lemma kb_snapshot_direct hwst : kb_snapshot c hwst = Some [].
Proof.
  unfold kb_snapshot. destruct (Z.eqb_spec (backend_mode c) KB_BACKEND_CUSTOM);
    [contradiction|reflexivity].
Qed.

(** One tick, seen from the key at index [i]. *)
Lemma keyboard_poll_key dt hwst key_rt i node rt :
  dt <> 0 -> (length (head c) <= length key_rt)%nat ->
  head c !! i = Some node -> key_rt !! i = Some rt ->
  fst (keyboard_poll (Some c) dt hwst key_rt) !! i
  = Some (kb_key_next dt (kb_read_raw c hwst node i []) rt)
  /\ kb_deliveries_of (key_id node) (snd (keyboard_poll (Some c) dt hwst key_rt))
     = map (mk_delivery (keyname node) (key_id node))
           (kb_key_events dt (kb_read_raw c hwst node i []) rt)
  /\ length (fst (keyboard_poll (Some c) dt hwst key_rt)) = length key_rt.
Proof.
  intros Hdt Hlen Hi Hrt.
  rewrite keyboard_poll_snapshot, kb_snapshot_direct, kb_scan_and_deliver_all
    by exact Hdt.
  cbn [fst snd].
  destruct (kb_scan_all_keys c dt hwst [] (head c) 0 key_rt Hcb)
    as [H1 H2]; [cbn [Nat.add]; lia | lia | lia |].
  split_and!.
  - apply (H2 i node rt Hi Hrt).
  - rewrite H1. apply (kb_keys_deliver_key c dt hwst [] (head c) 0 key_rt i node rt);
      [exact Hids | cbn [Nat.add]; lia | exact Hi | exact Hrt].
  - apply kb_scan_all_length.
Qed.

Lemma keyboard_poll_run_key dt ticks key_rt i node rt :
  dt <> 0 -> Forall (fun tick => fst tick = dt) ticks ->
  (length (head c) <= length key_rt)%nat ->
  head c !! i = Some node -> key_rt !! i = Some rt ->
  fst (keyboard_poll_run (Some c) ticks key_rt) !! i
  = Some (fst (kb_key_run dt (kb_samples c node i ticks) rt))
  /\ map (kb_deliveries_of (key_id node)) (snd (keyboard_poll_run (Some c) ticks key_rt))
     = map (map (mk_delivery (keyname node) (key_id node)))
           (snd (kb_key_run dt (kb_samples c node i ticks) rt)).
Proof.
  intros Hdt Hticks. revert key_rt rt.
  induction Hticks as [|[dt' hwst] ticks Hd _ IH]; intros key_rt rt Hlen Hi Hrt.
  - cbn. auto.
  - cbn [fst] in Hd. subst dt'.
    cbn [keyboard_poll_run kb_samples map snd]. fold (kb_samples c node i ticks).
    destruct (keyboard_poll_key dt hwst key_rt i node rt Hdt Hlen Hi Hrt)
      as (P1 & P2 & P3).
    destruct (keyboard_poll (Some c) dt hwst key_rt) as [key_rt1 evs].
    cbn [fst snd] in P1, P2, P3.
    specialize (IH key_rt1 _ ltac:(lia) Hi P1). destruct IH as [I1 I2].
    destruct (keyboard_poll_run (Some c) ticks key_rt1) as [key_rt2 evss].
    cbn [fst snd] in *. rewrite kb_key_run_cons. cbn [fst snd map].
    rewrite I1, I2, P2. auto.
Qed.

End KeyRuns.

(** X11.  Pin or matrix backend, a callback, a key count equal to the
    length of the chain of at most 16 nodes with pairwise distinct ids, and
    ticks of a fixed non-zero delta.  For the key at index [i]: the record
    it ends with, and on every tick the deliveries that carry its id, are
    those of the one-key machine run on the samples of that key alone. *)
Theorem keys_do_not_interfere
    (c : keyboard_control_t) (dt : Z) (ticks : list (Z * kb_hw))
    (key_rt : list kb_key_runtime_t) (i : nat) (node : keyboard_que_t)
    (rt : kb_key_runtime_t) :
  backend_mode c <> KB_BACKEND_CUSTOM ->
  on_event (keyboard_cb c) = true ->
  key_num c = Z.of_nat (length (head c)) ->
  (length (head c) <= 16)%nat -> (length (head c) <= length key_rt)%nat ->
  NoDup (map key_id (head c)) ->
  dt <> 0 -> Forall (fun tick => fst tick = dt) ticks ->
  head c !! i = Some node -> key_rt !! i = Some rt ->
  let own := kb_key_run dt (kb_samples c node i ticks) rt in
  fst (keyboard_poll_run (Some c) ticks key_rt) !! i = Some (fst own)
  /\ map (kb_deliveries_of (key_id node)) (snd (keyboard_poll_run (Some c) ticks key_rt))
     = map (map (mk_delivery (keyname node) (key_id node))) (snd own).
Proof.
  intros Hmode Hcb Hnum Hmax Hlen Hids Hdt Hticks Hi Hrt.
  apply keyboard_poll_run_key; assumption.
Qed.

Lemma keys_do_not_interfere_witness :
  map (kb_deliveries_of 2)
      (snd (keyboard_poll_run
              (Some (mk_ctl KB_BACKEND_GPIO demo_ops (mk_cb true)
                            [demo_node; mk_que "K_B" 2 (mk_hw 1 0)] 2 true))
              (replicate 3 (demo_tick 10 1)) [rt_zero; rt_zero]))
  = [[]; []; [mk_delivery "K_B" 2 KB_EVT_PRESS]].
Proof.
  destruct (keys_do_not_interfere
              (mk_ctl KB_BACKEND_GPIO demo_ops (mk_cb true)
                      [demo_node; mk_que "K_B" 2 (mk_hw 1 0)] 2 true)
              10 (replicate 3 (demo_tick 10 1)) [rt_zero; rt_zero] 1
              (mk_que "K_B" 2 (mk_hw 1 0)) rt_zero) as [_ H].
  - discriminate.
  - reflexivity.
  - reflexivity.
  - cbn. lia.
  - cbn. lia.
  - compute_done.
  - lia.
  - repeat constructor.
  - reflexivity.
  - reflexivity.
  - refine (eq_trans H _). reflexivity.
Defined.

Section EndToEnd.

Lemma keyboard_register_key_keeps cfg c g :
  exists c',
    snd (fst (keyboard_register_key cfg (Some c) g)) = Some c'
    /\ keyboard_ops c' = keyboard_ops c /\ keyboard_cb c' = keyboard_cb c
    /\ backend_mode c' = backend_mode c.
Proof.
  unfold keyboard_register_key. destruct cfg as [cf|]; [|exists c; auto].
  destruct (cfg_keyname cf); [|exists c; auto].
  repeat match goal with
         | |- context [if ?b then _ else _] => destruct b; [exists c; auto|]
         end.
  destruct (mpool_alloc (key_pool g) (key_pool_links g)) as [[ptr pool'] m'].
  destruct (ptr =? 0); [exists c; auto|]. eexists. cbn [fst snd]. split; [reflexivity|].
  auto.
Qed.

Lemma kb_register_matrix_all_keeps keys c g :
  exists c',
    snd (fst (kb_register_matrix_all keys (Some c) g)) = Some c'
    /\ keyboard_ops c' = keyboard_ops c /\ keyboard_cb c' = keyboard_cb c
    /\ backend_mode c' = backend_mode c
    /\ key_rt (snd (kb_register_matrix_all keys (Some c) g)) = key_rt g.
Proof.
  revert c g. induction keys as [|k keys IH]; intros c g; [exists c; auto|].
  cbn [kb_register_matrix_all]. unfold keyboard_register_matrix.
  set (cf := Some (mk_cfg (Some (mx_name k)) (mx_id k) (mk_hw (mx_row k) (mx_col k)))).
  destruct (keyboard_register_key_keeps cf c g) as (c1 & H1 & H2 & H3 & H4).
  pose proof (keyboard_register_key_rt cf (Some c) g) as Hrt.
  destruct (keyboard_register_key cf (Some c) g) as [[code ctl1] g1].
  cbn [fst snd] in *. subst ctl1.
  destruct (IH c1 g1) as (c' & I1 & I2 & I3 & I4 & I5).
  destruct (kb_register_matrix_all keys (Some c1) g1) as [[codes ctl2] g2].
  cbn [fst snd] in *. exists c'. split_and!; congruence.
Qed.

Lemma kb_deliveries_of_concat id evss :
  kb_deliveries_of id (concat evss) = concat (map (kb_deliveries_of id) evss).
Proof.
  induction evss as [|evs evss IH]; [reflexivity|].
  cbn [concat map]. rewrite <- IH. apply List.filter_app.
Qed.

Lemma concat_map_delivery name id (ll : list (list kb_event_t)) :
  map dl_evt (concat (map (map (mk_delivery name id)) ll)) = concat ll
  /\ Forall (fun d => dl_keyname d = name /\ dl_key_id d = id)
            (concat (map (map (mk_delivery name id)) ll)).
Proof.
  induction ll as [|l ll [IH1 IH2]]; [split; [reflexivity|constructor]|].
  cbn [map concat]. rewrite map_app, IH1, map_map. cbn [dl_evt]. rewrite map_id.
  split; [reflexivity|]. apply Forall_app. split; [|exact IH2].
  apply Forall_forall. intros d Hd. apply list_elem_of_fmap in Hd as (e & -> & _). auto.
Qed.

(** A run of ticks after initialisation and the registration of [keys],
    seen from one of the keys: its deliveries are those of the one-key
    machine, started from the zero record, on the levels read at its own
    position. *)
Lemma kb_registered_run ctl ops g keys dt ticks j k :
  0 < key_pool_buf g ->
  fst (fst (keyboard_init ctl ops (Some (mk_cb true)) g)) = KB_OK ->
  Forall (fun k => 0 <= mx_row k < KB_MATRIX_MAX_ROW
                   /\ 0 <= mx_col k < KB_MATRIX_MAX_COL) keys ->
  NoDup (map mx_id keys) ->
  NoDup (map (fun k => (mx_row k, mx_col k)) keys) ->
  (length keys <= 16)%nat ->
  keys !! j = Some k ->
  dt <> 0 -> Forall (fun tick => fst tick = dt) ticks ->
  let st := kb_after_init ctl ops (Some (mk_cb true)) g in
  let r := kb_register_matrix_all keys (fst st) (snd st) in
  map (kb_deliveries_of (mx_id k))
      (snd (keyboard_poll_run (snd (fst r)) ticks (key_rt (snd r))))
  = map (map (mk_delivery (mx_name k) (mx_id k)))
        (snd (kb_key_run dt
                (map (fun tick =>
                        if u8 (hw_matrix_read_col (snd tick) (mx_row k) (mx_col k))
                           =? KB_MATRIX_ACTIVE_LEVEL then 1 else 0) ticks)
                rt_zero)).
Proof.
  intros Hbuf Hok Hin Hids Hpos Hlen Hj Hdt Hticks. cbv zeta.
  destruct (keyboard_init_ok_inv _ _ _ _ Hok) as (c00 & o & -> & -> & O1 & O2 & O3).
  destruct (keyboard_init_state_ok _ _ _ _ Hbuf Hok) as (H0 & _).
  unfold kb_after_init in *. rewrite keyboard_init_eq in * by assumption.
  cbn [fst snd on_event] in *.
  set (c0 := mk_ctl KB_BACKEND_MATRIX o (mk_cb true) [] 0 true) in *.
  set (g0 := mk_globals _ _ _ key_rt_zero) in *.
  assert (key_rt g0 = key_rt_zero) as Hrt0 by reflexivity.
  destruct (kb_register_matrix_all_ok keys c0 g0 H0 Hin Hids Hpos ltac:(cbn; lia))
    as (_ & c' & R2 & R3 & R4).
  destruct (kb_register_matrix_all_keeps keys c0 g0) as (c'' & K1 & K2 & K3 & K4 & K5).
  assert (c'' = c') as -> by congruence.
  cbn [app head c0] in R3. cbn [keyboard_ops keyboard_cb backend_mode c0] in K2, K3, K4.
  destruct R4 as (c1 & live & fl & [= <-] & Hreg & _).
  destruct Hreg as (Hn & _ & Hnd & _).
  set (node := kb_matrix_node k).
  assert (head c' !! j = Some node) as Hnode.
  { rewrite R3, list_lookup_fmap, Hj. reflexivity. }
  assert (kb_samples c' node j ticks
          = map (fun tick =>
                   if u8 (hw_matrix_read_col (snd tick) (mx_row k) (mx_col k))
                      =? KB_MATRIX_ACTIVE_LEVEL then 1 else 0) ticks) as Hsamples.
  { unfold kb_samples. apply map_ext. intros tick.
    unfold kb_read_raw. rewrite K4, K2, O1, O2, O3. reflexivity. }
  assert (length (head c') = length keys) as Hlk by (rewrite R3; apply length_map).
  destruct (keyboard_poll_run_key c' ltac:(rewrite K4; discriminate)
              ltac:(rewrite K3; reflexivity) Hn ltac:(lia) Hnd dt ticks
              (key_rt (snd (kb_register_matrix_all keys (Some c0) g0))) j node rt_zero)
    as [_ Hrun].
  - exact Hdt.
  - exact Hticks.
  - rewrite K5, Hrt0. change (length key_rt_zero) with 16%nat. lia.
  - exact Hnode.
  - rewrite K5, Hrt0. apply lookup_replicate_2.
    apply lookup_lt_Some in Hj. change (Z.to_nat KB_MAX_KEYS) with 16%nat. lia.
  - change (key_id node) with (mx_id k) in Hrun.
    change (keyname node) with (mx_name k) in Hrun.
    rewrite R2, Hrun, Hsamples. reflexivity.
Qed.

Lemma key_run_idle dt n :
  snd (kb_key_run dt (replicate n 0) rt_zero) = replicate n [].
Proof.
  destruct (run_settled dt 0 n rt_zero eq_refl eq_refl) as (_ & -> & _).
  rewrite gest_run_idle by (cbn; lia). reflexivity.
Qed.

End EndToEnd.

(** X12.  From initialisation to the callback.  After a successful
    [keyboard_init] with a callback, at most 16 keys with distinct ids and
    positions inside the matrix are registered through
    [keyboard_register_matrix].  On a run of ticks with fixed delta [dt]
    that lasts at least the debounce time: if the position of one of the
    keys, [k], reads the active level on every tick, then among the
    deliveries that carry the id of [k] there is exactly one PRESS, and all
    of them carry the name of [k], whatever the other positions read; and a
    key whose position never reads the active level delivers nothing. *)
Theorem registered_key_press_is_delivered
    (ctl : option keyboard_control_t) (ops : option keyboard_ops_t) (g : kb_globals)
    (keys : list kb_matrix_key) (j : nat) (k : kb_matrix_key)
    (dt : Z) (ticks : list (Z * kb_hw)) :
  0 < key_pool_buf g ->
  fst (fst (keyboard_init ctl ops (Some (mk_cb true)) g)) = KB_OK ->
  Forall (fun k => 0 <= mx_row k < KB_MATRIX_MAX_ROW
                   /\ 0 <= mx_col k < KB_MATRIX_MAX_COL) keys ->
  NoDup (map mx_id keys) ->
  NoDup (map (fun k => (mx_row k, mx_col k)) keys) ->
  (length keys <= 16)%nat ->
  keys !! j = Some k ->
  0 < dt < 2 ^ 32 ->
  KB_DEBOUNCE_MS <= (Z.of_nat (length ticks) - 1) * dt ->
  Forall (fun tick =>
            fst tick = dt
            /\ u8 (hw_matrix_read_col (snd tick) (mx_row k) (mx_col k))
               = KB_MATRIX_ACTIVE_LEVEL) ticks ->
  let st := kb_after_init ctl ops (Some (mk_cb true)) g in
  let r := kb_register_matrix_all keys (fst st) (snd st) in
  let evss := snd (keyboard_poll_run (snd (fst r)) ticks (key_rt (snd r))) in
  let mine := kb_deliveries_of (mx_id k) (concat evss) in
  Forall (fun d => dl_keyname d = mx_name k) mine
  /\ count_evt KB_EVT_PRESS (map dl_evt mine) = 1%nat
  /\ (forall j' k',
        keys !! j' = Some k' ->
        Forall (fun tick =>
                  u8 (hw_matrix_read_col (snd tick) (mx_row k') (mx_col k'))
                  <> KB_MATRIX_ACTIVE_LEVEL) ticks ->
        kb_deliveries_of (mx_id k') (concat evss) = []).
Proof.
  intros Hbuf Hok Hin Hids Hpos Hlen Hj Hdt Hlong Hticks st r evss mine.
  assert (Forall (fun tick => fst tick = dt) ticks) as Hfix.
  { eapply Forall_impl; [exact Hticks|]. intros tick [H _]. exact H. }
  assert (forall j0 k0, keys !! j0 = Some k0 ->
            kb_deliveries_of (mx_id k0) (concat evss)
            = concat (map (map (mk_delivery (mx_name k0) (mx_id k0)))
                (snd (kb_key_run dt
                   (map (fun tick =>
                      if u8 (hw_matrix_read_col (snd tick) (mx_row k0) (mx_col k0))
                         =? KB_MATRIX_ACTIVE_LEVEL then 1 else 0) ticks)
                   rt_zero)))) as Hkey.
  { intros j0 k0 H0. rewrite kb_deliveries_of_concat. unfold evss, r, st.
    rewrite (kb_registered_run ctl ops g keys dt ticks j0 k0) by (assumption || lia).
    reflexivity. }
  split_and!.
  - unfold mine. rewrite (Hkey j k Hj).
    destruct (concat_map_delivery (mx_name k) (mx_id k)
                (snd (kb_key_run dt
                   (map (fun tick =>
                      if u8 (hw_matrix_read_col (snd tick) (mx_row k) (mx_col k))
                         =? KB_MATRIX_ACTIVE_LEVEL then 1 else 0) ticks)
                   rt_zero))) as [_ C2].
    eapply Forall_impl; [exact C2|]. intros d [H _]. exact H.
  - unfold mine. rewrite (Hkey j k Hj).
    assert (map (fun tick =>
                   if u8 (hw_matrix_read_col (snd tick) (mx_row k) (mx_col k))
                      =? KB_MATRIX_ACTIVE_LEVEL then 1 else 0) ticks
            = replicate (length ticks) 1) as ->.
    { clear Hlong Hkey Hfix. induction Hticks as [|tick ticks [_ Hlvl] _ IH];
        [reflexivity|].
      cbn [map length replicate]. rewrite IH, Hlvl. reflexivity. }
    destruct (concat_map_delivery (mx_name k) (mx_id k)
                (snd (kb_key_run dt (replicate (length ticks) 1) rt_zero))) as [C1 _].
    rewrite C1. apply key_press_once; [exact Hdt|reflexivity|reflexivity|exact Hlong].
  - intros j' k' Hj' Hquiet. rewrite (Hkey j' k' Hj').
    assert (map (fun tick =>
                   if u8 (hw_matrix_read_col (snd tick) (mx_row k') (mx_col k'))
                      =? KB_MATRIX_ACTIVE_LEVEL then 1 else 0) ticks
            = replicate (length ticks) 0) as ->.
    { clear Hlong Hkey Hfix Hticks. induction Hquiet as [|tick ticks Hlvl _ IH];
        [reflexivity|].
      cbn [map length replicate]. rewrite IH.
      destruct (Z.eqb_spec (u8 (hw_matrix_read_col (snd tick) (mx_row k') (mx_col k')))
                           KB_MATRIX_ACTIVE_LEVEL); [contradiction|reflexivity]. }
    rewrite key_run_idle. generalize (length ticks). intros n.
    clear. induction n as [|n IH]; [reflexivity|exact IH].
Qed.

Lemma registered_key_press_is_delivered_witness :
  count_evt KB_EVT_PRESS
    (map dl_evt
       (kb_deliveries_of 2
          (concat
             (snd (keyboard_poll_run
                     (snd (fst (kb_register_matrix_all
                                  [mk_matrix_key 0 0 "K_A" 1; mk_matrix_key 0 1 "K_B" 2]
                                  (fst (kb_after_init (Some demo_blank_ctl)
                                          (Some demo_matrix_ops) (Some (mk_cb true))
                                          demo_globals))
                                  (snd (kb_after_init (Some demo_blank_ctl)
                                          (Some demo_matrix_ops) (Some (mk_cb true))
                                          demo_globals)))))
                     (replicate 3 (10, demo_matrix_tick 1))
                     (key_rt (snd (kb_register_matrix_all
                                     [mk_matrix_key 0 0 "K_A" 1; mk_matrix_key 0 1 "K_B" 2]
                                     (fst (kb_after_init (Some demo_blank_ctl)
                                             (Some demo_matrix_ops) (Some (mk_cb true))
                                             demo_globals))
                                     (snd (kb_after_init (Some demo_blank_ctl)
                                             (Some demo_matrix_ops) (Some (mk_cb true))
                                             demo_globals))))))))))
  = 1%nat.
Proof.
  destruct (registered_key_press_is_delivered (Some demo_blank_ctl) (Some demo_matrix_ops)
              demo_globals [mk_matrix_key 0 0 "K_A" 1; mk_matrix_key 0 1 "K_B" 2]
              1 (mk_matrix_key 0 1 "K_B" 2) 10 (replicate 3 (10, demo_matrix_tick 1)))
    as (_ & H & _).
  - cbn. lia.
  - reflexivity.
  - repeat (constructor; [vm_compute; intuition discriminate|]). constructor.
  - compute_done.
  - compute_done.
  - cbn. lia.
  - reflexivity.
  - lia.
  - vm_compute. discriminate.
  - repeat constructor.
  - exact H.
Defined.

(** * Keys registered late *)

Section SpareRecords.

Lemma keyboard_register_key_count cfg c g :
  0 <= key_num c ->
  exists c',
    snd (fst (keyboard_register_key cfg (Some c) g)) = Some c'
    /\ key_num c <= key_num c'.
Proof.
  intros Hn. unfold keyboard_register_key. destruct cfg as [cf|]; [|exists c; split; [auto|lia]].
  destruct (cfg_keyname cf); [|exists c; split; [auto|lia]].
  destruct (negb (keyboard_pool c)); [exists c; split; [auto|lia]|].
  destruct (_ && _); [exists c; split; [auto|lia]|].
  destruct (kb_find_duplicate _ _ _); [exists c; split; [auto|lia]|].
  destruct (Z.leb_spec KB_MAX_KEYS (key_num c)); [exists c; split; [auto|lia]|].
  destruct (mpool_alloc (key_pool g) (key_pool_links g)) as [[ptr pool'] m'].
  destruct (ptr =? 0); [exists c; split; [auto|lia]|].
  eexists. cbn [fst snd]. split; [reflexivity|]. cbn [key_num].
  unfold u16, KB_MAX_KEYS in *. rewrite Z.mod_small by lia. lia.
Qed.

Lemma kb_do_call_spare call st :
  kb_spare_records_zero st -> kb_spare_records_zero (kb_do_call call st).
Proof.
  intros (c & Hc & Hn & Hz). destruct st as [ctl g]. cbn [fst snd] in *. subst ctl.
  unfold kb_spare_records_zero.
  destruct call as [cfg|dt hwst]; cbn [kb_do_call].
  - destruct (keyboard_register_key_count cfg c g Hn) as (c' & Hc' & Hle).
    pose proof (keyboard_register_key_rt cfg (Some c) g) as Hrt.
    destruct (keyboard_register_key cfg (Some c) g) as [[code ctl'] g'].
    cbn [fst snd] in *. subst ctl'. exists c'. cbn [fst snd]. split; [reflexivity|].
    split; [lia|]. intros i Hi Hi16. rewrite Hrt. apply Hz; lia.
  - destruct (keyboard_poll_cases (Some c) dt hwst (key_rt g))
      as [->|(c' & snapshot & [= <-] & _ & ->)].
    + exists c. cbn [fst snd key_rt]. auto.
    + exists c. cbn [fst snd key_rt]. split; [reflexivity|]. split; [exact Hn|].
      intros i Hi Hi16.
      rewrite kb_scan_all_frame by lia. apply Hz; assumption.
Qed.

Lemma kb_do_calls_spare calls st :
  kb_spare_records_zero st -> kb_spare_records_zero (kb_do_calls calls st).
Proof.
  revert st. induction calls as [|call calls IH]; intros st Hst; [exact Hst|].
  cbn [kb_do_calls fold_left]. apply IH. apply kb_do_call_spare. exact Hst.
Qed.

End SpareRecords.

(** X25.  After a successful [keyboard_init] and any sequence of
    registrations and polls, every runtime record from the key count up to
    index 15 is still the zero record, and a successful registration appends
    its node at the end of the chain and touches no record: a key registered
    late starts from the zero record, whatever the earlier keys went
    through. *)
Theorem new_key_starts_from_zero_record
    (ctl : option keyboard_control_t) (ops : option keyboard_ops_t)
    (cb : option keyboard_cb_t) (g : kb_globals) (calls : list kb_call) :
  fst (fst (keyboard_init ctl ops cb g)) = KB_OK ->
  let st := kb_do_calls calls (kb_after_init ctl ops cb g) in
  exists c,
    fst st = Some c
    /\ (forall i, key_num c <= Z.of_nat i -> (i < 16)%nat ->
                  key_rt (snd st) !! i = Some rt_zero)
    /\ (forall cfg,
          fst (fst (keyboard_register_key cfg (fst st) (snd st))) = KB_OK ->
          exists c' node,
            snd (fst (keyboard_register_key cfg (fst st) (snd st))) = Some c'
            /\ head c' = head c ++ [node]
            /\ key_rt (snd (keyboard_register_key cfg (fst st) (snd st)))
               = key_rt (snd st)).
Proof.
  intros Hok st.
  assert (kb_spare_records_zero (kb_after_init ctl ops cb g)) as H0.
  { destruct (keyboard_init_ok_inv _ _ _ _ Hok) as (c0 & o & -> & -> & O1 & O2 & O3).
    unfold kb_after_init. rewrite keyboard_init_eq by assumption. cbn [fst snd].
    eexists. cbn [fst snd]. split; [reflexivity|]. cbn [key_rt key_num].
    split; [lia|]. intros i _ Hi. apply lookup_replicate_2. exact Hi. }
  destruct (kb_do_calls_spare calls _ H0) as (c & Hc & Hn & Hz). fold st in Hc, Hz.
  exists c. split; [exact Hc|]. split; [exact Hz|].
  intros cfg Hreg. rewrite Hc in *.
  pose proof (keyboard_register_key_rt cfg (Some c) (snd st)) as Hrt.
  revert Hreg Hrt. unfold keyboard_register_key.
  destruct cfg as [cf|]; [|discriminate].
  destruct (cfg_keyname cf) as [name|]; [|discriminate].
  repeat match goal with
         | |- context [if ?b then _ else _] => destruct b; [discriminate|]
         end.
  destruct (mpool_alloc (key_pool (snd st)) (key_pool_links (snd st)))
    as [[ptr pool'] m'].
  destruct (ptr =? 0); [discriminate|]. cbn [fst snd]. intros _ Hrt.
  eexists _, _. split; [reflexivity|]. cbn [head]. split; [reflexivity|exact Hrt].
Qed.

Lemma new_key_starts_from_zero_record_witness :
  key_rt (snd (kb_do_calls [CallRegister (Some demo_cfg); CallPoll 30 (demo_matrix_tick 1);
                            CallPoll 30 (demo_matrix_tick 1)]
                 (kb_after_init (Some demo_blank_ctl) (Some demo_matrix_ops)
                                (Some (mk_cb true)) demo_globals))) !! 1%nat
  = Some rt_zero.
Proof.
  destruct (new_key_starts_from_zero_record (Some demo_blank_ctl) (Some demo_matrix_ops)
              (Some (mk_cb true)) demo_globals
              [CallRegister (Some demo_cfg); CallPoll 30 (demo_matrix_tick 1);
               CallPoll 30 (demo_matrix_tick 1)] eq_refl)
    as (c & Hc & Hz & _).
  vm_compute in Hc. injection Hc as <-. apply Hz; [cbn [key_num]; lia|lia].
Defined.

(** * More on the per-key machine *)

Section RecordInvariant.

Lemma kb_debounce_rt_ok dt raw rt :
  raw = 0 \/ raw = 1 -> kb_rt_ok rt -> kb_rt_ok (kb_debounce dt raw rt).
Proof.
  unfold kb_rt_ok, kb_debounce.
  destruct rt as [rl st ls cc db pr rp cw]. zsimpl.
  intros Hraw (H1 & H2 & H3 & H4 & H5 & H6 & H7 & H8 & H9).
  zcases; u32_bounds; split_and!; try assumption; try lia.
Qed.

Lemma kb_stab_step_rt_ok rt : kb_rt_ok rt -> kb_rt_ok (fst (kb_stab_step rt)).
Proof.
  unfold kb_rt_ok, kb_stab_step, kb_stabilize, KB_DOUBLE_CLICK_MS, KB_REPEAT_PERIOD_MS.
  destruct rt as [rl st ls cc db pr rp cw]. zsimpl.
  intros (H1 & H2 & H3 & H4 & H5 & H6 & H7 & H8 & H9).
  zcases; split_and!; try assumption; try lia.
Qed.

Lemma kb_gest_step_rt_ok dt rt : kb_rt_ok rt -> kb_rt_ok (fst (kb_gest_step dt rt)).
Proof.
  unfold kb_rt_ok, kb_gest_step, kb_gesture, KB_LONGPRESS_MS, KB_REPEAT_START_MS,
    KB_REPEAT_PERIOD_MS, KB_DOUBLE_CLICK_MS.
  destruct rt as [rl st ls cc db pr rp cw]. zsimpl.
  intros (H1 & H2 & H3 & H4 & H5 & H6 & H7 & H8 & H9).
  zcases; u32_bounds; split_and!; try assumption; try lia.
Qed.

Lemma key_next_rt_ok dt raw rt :
  raw = 0 \/ raw = 1 -> kb_rt_ok rt -> kb_rt_ok (kb_key_next dt raw rt).
Proof.
  intros Hraw Hok. unfold kb_key_next.
  apply kb_gest_step_rt_ok, kb_stab_step_rt_ok, kb_debounce_rt_ok; assumption.
Qed.

End RecordInvariant.

Section BinarySamples.

Lemma kb_scan_all_Forall_bin (P : kb_key_runtime_t -> Prop) c dt hwst snapshot
    nodes idx key_rt :
  (forall raw rt, raw = 0 \/ raw = 1 -> P rt -> P (kb_key_next dt raw rt)) ->
  Forall P key_rt ->
  Forall P (fst (kb_scan_all c dt hwst snapshot nodes idx key_rt)).
Proof.
  intros Hstep. revert idx key_rt.
  induction nodes as [|node rest IH]; intros idx key_rt Hall; [exact Hall|].
  cbn [kb_scan_all].
  destruct ((Z.of_nat idx <? key_num c) && (Z.of_nat idx <? KB_MAX_KEYS)); [|exact Hall].
  destruct (key_rt !! idx) as [rt|] eqn:Hrt; [|exact Hall].
  specialize (IH (S idx) (<[idx := kb_key_next dt
                   (kb_read_raw c hwst node idx snapshot) rt]> key_rt)).
  destruct (kb_scan_all c dt hwst snapshot rest (S idx) _) as [k' evs].
  cbn [fst] in *. apply IH. apply Forall_insert; [exact Hall|].
  apply Hstep; [apply kb_read_raw_bool|].
  rewrite Forall_lookup in Hall. exact (Hall _ _ Hrt).
Qed.

Lemma kb_do_calls_Forall_bin (P : kb_key_runtime_t -> Prop) calls st :
  (forall dt raw rt, raw = 0 \/ raw = 1 -> P rt -> P (kb_key_next dt raw rt)) ->
  Forall P (key_rt (snd st)) ->
  Forall P (key_rt (snd (kb_do_calls calls st))).
Proof.
  intros Hstep. revert st.
  induction calls as [|call calls IH]; intros [ctl g] Hall; [exact Hall|].
  cbn [kb_do_calls fold_left]. apply IH. destruct call as [cfg|dt hwst]; cbn [kb_do_call].
  - pose proof (keyboard_register_key_rt cfg ctl g) as Hk.
    destruct (keyboard_register_key cfg ctl g) as [[code ctl'] g'].
    cbn [snd] in *. rewrite Hk. exact Hall.
  - cbn [snd key_rt] in Hall.
    destruct (keyboard_poll_cases ctl dt hwst (key_rt g))
      as [->|(c & snapshot & _ & _ & ->)]; [exact Hall|].
    cbn [snd key_rt]. apply kb_scan_all_Forall_bin; [apply Hstep|exact Hall].
Qed.

Lemma kb_after_init_rt ctl ops cb g :
  fst (fst (keyboard_init ctl ops cb g)) = KB_OK ->
  key_rt (snd (kb_after_init ctl ops cb g)) = key_rt_zero.
Proof.
  intros Hok. unfold kb_after_init. cbn [snd].
  destruct (keyboard_init ctl ops cb g) as [[code ctl'] g'] eqn:Hinit.
  cbn [fst snd] in *. subst code. exact (keyboard_init_ok_rt _ _ _ _ _ _ Hinit).
Qed.

Lemma kb_reachable_rt_ok ctl ops cb g calls :
  fst (fst (keyboard_init ctl ops cb g)) = KB_OK ->
  Forall kb_rt_ok (key_rt (snd (kb_do_calls calls (kb_after_init ctl ops cb g)))).
Proof.
  intros Hok. apply kb_do_calls_Forall_bin.
  - intros dt raw rt. apply key_next_rt_ok.
  - rewrite kb_after_init_rt by exact Hok. apply Forall_replicate.
    unfold kb_rt_ok, rt_zero, KB_REPEAT_PERIOD_MS, KB_DOUBLE_CLICK_MS. cbn. lia.
Qed.

End BinarySamples.

(** X13.  After a successful [keyboard_init] and any sequence of
    registrations and polls, with any deltas, there are 16 runtime records
    and in each of them: the raw level, the stable level and the long-press
    flag are 0 or 1; a released key has its long-press flag, press time and
    repeat accumulator at 0; the repeat accumulator is below the repeat
    period; the click wait is below the double-click window, and is 0 when
    no click is pending. *)
Theorem runtime_records_stay_consistent
    (ctl : option keyboard_control_t) (ops : option keyboard_ops_t)
    (cb : option keyboard_cb_t) (g : kb_globals) (calls : list kb_call) :
  fst (fst (keyboard_init ctl ops cb g)) = KB_OK ->
  length (key_rt (snd (kb_do_calls calls (kb_after_init ctl ops cb g)))) = 16%nat
  /\ Forall kb_rt_ok (key_rt (snd (kb_do_calls calls (kb_after_init ctl ops cb g)))).
Proof.
  intros Hok. split; [|apply kb_reachable_rt_ok; exact Hok].
  assert (forall st, length (key_rt (snd (kb_do_calls calls st)))
                     = length (key_rt (snd st))) as Hlen.
  { induction calls as [|call calls IH]; intros [c0 g0]; [reflexivity|].
    cbn [kb_do_calls fold_left]. fold (kb_do_calls calls (kb_do_call call (c0, g0))).
    rewrite IH. destruct call as [cfg|dt hwst]; cbn [kb_do_call].
    - pose proof (keyboard_register_key_rt cfg c0 g0) as Hk.
      destruct (keyboard_register_key cfg c0 g0) as [[code ctl'] g'].
      cbn [snd] in *. rewrite Hk. reflexivity.
    - cbn [snd key_rt].
      destruct (keyboard_poll_cases c0 dt hwst (key_rt g0))
        as [->|(c & snapshot & _ & _ & ->)]; [reflexivity|].
      cbn [snd key_rt]. apply kb_scan_all_length. }
  rewrite Hlen, kb_after_init_rt by exact Hok. reflexivity.
Qed.

Lemma runtime_records_stay_consistent_witness :
  Forall kb_rt_ok
    (key_rt (snd (kb_do_calls
                    [CallRegister (Some demo_cfg); CallPoll 30 (demo_matrix_tick 1);
                     CallPoll 30 (demo_matrix_tick 1)]
                    (kb_after_init (Some demo_blank_ctl) (Some demo_matrix_ops)
                                   (Some (mk_cb true)) demo_globals)))).
Proof.
  apply (proj2 (runtime_records_stay_consistent (Some demo_blank_ctl)
                  (Some demo_matrix_ops) (Some (mk_cb true)) demo_globals
                  [CallRegister (Some demo_cfg); CallPoll 30 (demo_matrix_tick 1);
                   CallPoll 30 (demo_matrix_tick 1)] eq_refl)).
Defined.

Section PendingClick.

Lemma kb_scan_key_events dt raw node rt :
  map pe_evt (snd (kb_scan_key dt raw node rt [])) = kb_key_events dt raw rt
  /\ fst (kb_scan_key dt raw node rt []) = kb_key_next dt raw rt.
Proof.
  rewrite kb_scan_key_take by (cbn; lia). cbn [fst snd app].
  rewrite take_ge.
  - rewrite map_map. cbn [pe_evt]. rewrite map_id. auto.
  - rewrite length_map. pose proof (kb_key_events_length dt raw rt).
    unfold cap, PENDING_CAP, KB_MAX_KEYS. lia.
Qed.

Lemma kb_flips_release dt rt :
  kb_flips (kb_debounce dt 0 rt) = true ->
  raw_last (kb_debounce dt 0 rt) = 0 /\ stable rt <> 0.
Proof.
  unfold kb_flips, kb_debounce, KB_DEBOUNCE_MS.
  destruct rt as [rl st ls cc db pr rp cw]. zcases; intros Hf; try discriminate; try lia; split; lia.
Qed.

End PendingClick.

(** X14.  For a record reached from initialisation: a tick that recognises
    a release while a click is pending and no long press was reported
    records RELEASE then DOUBLE_CLICK and clears the click counter.  The
    click wait is below the double-click window at that point, so the
    branch that would restart the click count is never taken. *)
Theorem pending_click_release_is_double_click
    (ctl : option keyboard_control_t) (ops : option keyboard_ops_t)
    (cb : option keyboard_cb_t) (g : kb_globals) (calls : list kb_call)
    (i : nat) (rt : kb_key_runtime_t) (dt : Z) (node : keyboard_que_t) :
  fst (fst (keyboard_init ctl ops cb g)) = KB_OK ->
  key_rt (snd (kb_do_calls calls (kb_after_init ctl ops cb g))) !! i = Some rt ->
  kb_flips (kb_debounce dt 0 rt) = true ->
  long_sent rt = 0 -> click_count rt = 1 ->
  map pe_evt (snd (kb_scan_key dt 0 node rt []))
  = [KB_EVT_RELEASE; KB_EVT_DOUBLE_CLICK]
  /\ click_count (fst (kb_scan_key dt 0 node rt [])) = 0
  /\ click_wait_ms rt < KB_DOUBLE_CLICK_MS.
Proof.
  intros Hok Hi Hflip Hl Hc.
  pose proof (kb_reachable_rt_ok ctl ops cb g calls Hok) as Hall.
  rewrite Forall_lookup in Hall. specialize (Hall i rt Hi).
  destruct Hall as (_ & _ & _ & _ & _ & Hw & _).
  destruct (kb_scan_key_events dt 0 node rt) as [-> ->].
  destruct (kb_flips_release dt rt Hflip) as [Hr Hs].
  destruct (gest_of_fields _ _ (gest_of_debounce dt 0 rt)) as (D1 & D2 & D3 & D4 & D5 & D6).
  set (D := kb_debounce dt 0 rt) in *.
  destruct (stab_release_second D Hflip Hr ltac:(congruence) ltac:(congruence)
              ltac:(lia)) as [HE HS].
  unfold kb_key_events, kb_key_next. fold D.
  destruct (kb_stab_step D) as [S1 e1]. cbn [fst snd] in *. subst e1.
  assert (stable S1 = 0 /\ click_count S1 = 0) as [Hs1 Hc1].
  { unfold gest_of in HS. injection HS as -> _ -> _ _ _. auto. }
  rewrite gest_step_idle by (try assumption; lia). cbn [fst snd].
  split_and!; [reflexivity | exact Hc1 | lia].
Qed.

Lemma pending_click_release_is_double_click_witness :
  map pe_evt (snd (kb_scan_key 20 0 demo_node (mk_rt 0 1 0 1 0 40 0 40) []))
  = [KB_EVT_RELEASE; KB_EVT_DOUBLE_CLICK].
Proof.
  apply (pending_click_release_is_double_click
           (Some demo_blank_ctl) (Some demo_matrix_ops) (Some (mk_cb true)) demo_globals
           [CallRegister (Some demo_cfg);
            CallPoll 20 (demo_matrix_tick 1); CallPoll 20 (demo_matrix_tick 1);
            CallPoll 20 (demo_matrix_tick 0); CallPoll 20 (demo_matrix_tick 0);
            CallPoll 20 (demo_matrix_tick 1); CallPoll 20 (demo_matrix_tick 1);
            CallPoll 20 (demo_matrix_tick 0)]
           0%nat (mk_rt 0 1 0 1 0 40 0 40) 20 demo_node);
    reflexivity.
Defined.

(** X15.  The events one key records on one tick, on an empty scratch
    sequence, are one of twelve lists: a PRESS comes first and may be
    followed by REPEAT, or by LONGPRESS and REPEAT together; a RELEASE comes
    first and may be followed by exactly one of LONGPRESS_RELEASE,
    DOUBLE_CLICK and CLICK; without an edge, LONGPRESS precedes REPEAT and
    CLICK comes alone.  PRESS and RELEASE never share a tick. *)
Theorem key_tick_event_shapes
    (dt raw : Z) (node : keyboard_que_t) (rt : kb_key_runtime_t) :
  map pe_evt (snd (kb_scan_key dt raw node rt []))
  ∈ [ [];
      [KB_EVT_PRESS];
      [KB_EVT_PRESS; KB_EVT_REPEAT];
      [KB_EVT_PRESS; KB_EVT_LONGPRESS; KB_EVT_REPEAT];
      [KB_EVT_LONGPRESS];
      [KB_EVT_REPEAT];
      [KB_EVT_LONGPRESS; KB_EVT_REPEAT];
      [KB_EVT_RELEASE];
      [KB_EVT_RELEASE; KB_EVT_LONGPRESS_RELEASE];
      [KB_EVT_RELEASE; KB_EVT_DOUBLE_CLICK];
      [KB_EVT_RELEASE; KB_EVT_CLICK];
      [KB_EVT_CLICK] ].
Proof.
  destruct (kb_scan_key_events dt raw node rt) as [-> _].
  unfold kb_key_events, kb_stab_step, kb_stabilize, kb_gest_step, kb_gesture,
    kb_debounce, KB_DEBOUNCE_MS, KB_LONGPRESS_MS, KB_REPEAT_START_MS,
    KB_REPEAT_PERIOD_MS, KB_DOUBLE_CLICK_MS.
  destruct rt. zcases; first [exfalso; lia | vm_compute; elem_solve].
Qed.

Section Edges.

Lemma kb_debounce_levels dt raw rt :
  raw = 0 \/ raw = 1 -> raw_last rt = 0 \/ raw_last rt = 1 ->
  (raw_last (kb_debounce dt raw rt) = 0 \/ raw_last (kb_debounce dt raw rt) = 1)
  /\ stable (kb_debounce dt raw rt) = stable rt.
Proof.
  unfold kb_debounce. destruct rt as [rl st ls cc db pr rp cw]. zsimpl.
  intros Hraw Hrl. zcases; auto.
Qed.

Lemma kb_stab_step_edges rt :
  raw_last rt = 0 \/ raw_last rt = 1 -> stable rt = 0 \/ stable rt = 1 ->
  raw_last (fst (kb_stab_step rt)) = raw_last rt
  /\ ((List.filter kb_is_edge (snd (kb_stab_step rt)) = []
       /\ stable (fst (kb_stab_step rt)) = stable rt)
      \/ (List.filter kb_is_edge (snd (kb_stab_step rt)) = [KB_EVT_PRESS]
          /\ stable rt = 0 /\ stable (fst (kb_stab_step rt)) = 1)
      \/ (List.filter kb_is_edge (snd (kb_stab_step rt)) = [KB_EVT_RELEASE]
          /\ stable rt = 1 /\ stable (fst (kb_stab_step rt)) = 0)).
Proof.
  unfold kb_stab_step, kb_stabilize. destruct rt as [rl st ls cc db pr rp cw]. zsimpl.
  intros Hrl Hst.
  zcases; (split; [reflexivity|]);
    first [left; split; [reflexivity|lia]
          |right; left; split; [reflexivity|lia]
          |right; right; split; [reflexivity|lia]
          |exfalso; lia].
Qed.

Lemma kb_gest_step_edges dt rt :
  List.filter kb_is_edge (snd (kb_gest_step dt rt)) = []
  /\ raw_last (fst (kb_gest_step dt rt)) = raw_last rt
  /\ stable (fst (kb_gest_step dt rt)) = stable rt.
Proof.
  destruct (gest_step_db dt rt) as (H1 & _ & H3). split; [|auto].
  unfold kb_gest_step, kb_gesture. destruct rt. zcases; reflexivity.
Qed.

(** The edges of one tick of one key: none, or the one that moves the
    stable level. *)
Lemma key_tick_edges dt raw rt :
  raw = 0 \/ raw = 1 -> raw_last rt = 0 \/ raw_last rt = 1 ->
  stable rt = 0 \/ stable rt = 1 ->
  (raw_last (kb_key_next dt raw rt) = 0 \/ raw_last (kb_key_next dt raw rt) = 1)
  /\ ((List.filter kb_is_edge (kb_key_events dt raw rt) = []
       /\ stable (kb_key_next dt raw rt) = stable rt)
      \/ (List.filter kb_is_edge (kb_key_events dt raw rt) = [KB_EVT_PRESS]
          /\ stable rt = 0 /\ stable (kb_key_next dt raw rt) = 1)
      \/ (List.filter kb_is_edge (kb_key_events dt raw rt) = [KB_EVT_RELEASE]
          /\ stable rt = 1 /\ stable (kb_key_next dt raw rt) = 0)).
Proof.
  intros Hraw Hrl Hst. unfold kb_key_next, kb_key_events.
  destruct (kb_debounce_levels dt raw rt Hraw Hrl) as [D1 D2].
  set (D := kb_debounce dt raw rt) in *.
  destruct (kb_stab_step_edges D D1 ltac:(rewrite D2; exact Hst)) as [S1 S2].
  destruct (kb_stab_step D) as [rt1 e1]. cbn [fst snd] in *.
  destruct (kb_gest_step_edges dt rt1) as (G1 & G2 & G3).
  rewrite List.filter_app, G1, app_nil_r, G2, G3, S1, <- D2.
  split; [exact D1|exact S2].
Qed.

Lemma keyboard_poll_single_cases c node dt hwst rt rest :
  kb_single_key c node ->
  keyboard_poll (Some c) dt hwst (rt :: rest) = (rt :: rest, [])
  \/ exists raw,
       (raw = 0 \/ raw = 1)
       /\ keyboard_poll (Some c) dt hwst (rt :: rest)
          = (kb_key_next dt raw rt :: rest,
             map (mk_delivery (keyname node) (key_id node)) (kb_key_events dt raw rt)).
Proof.
  intros Hsingle.
  destruct (Z.eq_dec dt 0) as [->|Hdt]; [left; reflexivity|].
  destruct (kb_first_raw c node hwst) as [raw|] eqn:Hraw.
  - right. exists raw. split.
    + unfold kb_first_raw in Hraw.
      destruct (backend_mode c =? KB_BACKEND_CUSTOM).
      * destruct (scan_snapshot (keyboard_ops c)); [|discriminate].
        destruct (hw_scan_snapshot hwst (key_num c)) as [ret buf].
        destruct (ret =? 0); [|discriminate].
        injection Hraw as <-. apply kb_read_raw_bool.
      * injection Hraw as <-. apply kb_read_raw_bool.
    + apply (keyboard_poll_single c node Hsingle); assumption.
  - left. unfold keyboard_poll, kb_first_raw in *.
    destruct (Z.eqb_spec dt 0); [reflexivity|].
    destruct (backend_mode c =? KB_BACKEND_CUSTOM); [|discriminate].
    destruct (scan_snapshot (keyboard_ops c)); cbn [negb]; [|reflexivity].
    destruct (hw_scan_snapshot hwst (key_num c)) as [ret buf].
    destruct (ret =? 0); [discriminate|reflexivity].
Qed.

End Edges.

(** X16.  One registered key whose raw and stable levels are 0 or 1, and
    any ticks (any deltas, abandoned ticks included): the PRESS and RELEASE
    events delivered over the run alternate, starting with PRESS when the
    key is released and with RELEASE when it is pressed. *)
Theorem press_and_release_alternate
    (c : keyboard_control_t) (node : keyboard_que_t) (ticks : list (Z * kb_hw))
    (rt : kb_key_runtime_t) (rest : list kb_key_runtime_t) :
  kb_single_key c node ->
  raw_last rt = 0 \/ raw_last rt = 1 -> stable rt = 0 \/ stable rt = 1 ->
  kb_alternates (stable rt)
    (List.filter kb_is_edge
       (concat (kb_kinds (snd (keyboard_poll_run (Some c) ticks (rt :: rest)))))).
Proof.
  intros Hsingle. revert rt.
  induction ticks as [|[dt hwst] ticks IH]; intros rt Hrl Hst; [exact I|].
  cbn [keyboard_poll_run].
  destruct (keyboard_poll_single_cases c node dt hwst rt rest Hsingle)
    as [->|(raw & Hraw & ->)].
  - specialize (IH rt Hrl Hst).
    destruct (keyboard_poll_run (Some c) ticks (rt :: rest)) as [k evss].
    cbn [snd kb_kinds map concat app] in *. exact IH.
  - destruct (key_tick_edges dt raw rt Hraw Hrl Hst) as [Hrl' Hcase].
    specialize (IH (kb_key_next dt raw rt) Hrl').
    destruct (keyboard_poll_run (Some c) ticks (kb_key_next dt raw rt :: rest))
      as [k evss].
    cbn [snd kb_kinds map concat] in *. rewrite map_map. cbn [dl_evt].
    rewrite map_id, List.filter_app.
    destruct Hcase as [[-> Hs]|[(-> & Hs & Hs')|(-> & Hs & Hs')]].
    + cbn [app]. rewrite <- Hs. apply IH. rewrite Hs. exact Hst.
    + cbn [app kb_alternates]. rewrite Hs. cbn [Z.eqb]. split; [reflexivity|].
      rewrite <- Hs'. apply IH. auto.
    + cbn [app kb_alternates]. rewrite Hs. cbn [Z.eqb]. split; [reflexivity|].
      rewrite <- Hs'. apply IH. auto.
Qed.

Lemma press_and_release_alternate_witness :
  kb_alternates 0
    (List.filter kb_is_edge
       (concat (kb_kinds (snd (keyboard_poll_run (Some demo_ctl)
                                 (replicate 3 (demo_tick 10 1) ++ replicate 3 (demo_tick 10 0))
                                 key_rt_zero))))).
Proof.
  apply (press_and_release_alternate demo_ctl demo_node
           (replicate 3 (demo_tick 10 1) ++ replicate 3 (demo_tick 10 0))
           rt_zero (replicate 15 rt_zero)).
  - split; [reflexivity|split; [cbn; lia|reflexivity]].
  - left; reflexivity.
  - left; reflexivity.
Defined.

Section LongRelease.

Lemma gest_run_long_held dt n rt :
  stable rt <> 0 -> long_sent rt <> 0 ->
  long_sent (fst (kb_gest_run dt n rt)) = long_sent rt
  /\ Forall (Forall (eq KB_EVT_REPEAT)) (snd (kb_gest_run dt n rt)).
Proof.
  revert rt. induction n as [|n IH]; intros rt Hs Hl; [split; [reflexivity|constructor]|].
  rewrite kb_gest_run_S. cbn [fst snd].
  destruct (gest_step_hold dt rt Hs) as (H1 & _ & _ & _ & _ & H6).
  destruct (H6 (or_introl Hl)) as [H7 H8].
  destruct (IH (fst (kb_gest_step dt rt))) as [I1 I2]; [congruence | congruence |].
  split; [congruence|]. constructor; assumption.
Qed.

(** A key whose long press has been reported sees the inactive level for
    [m > d] ticks. *)
Lemma key_release_long dt m rt :
  0 < dt < 2 ^ 32 ->
  raw_last rt = 1 -> stable rt = 1 -> long_sent rt = 1 ->
  let d := ticks_for KB_DEBOUNCE_MS dt in
  (d < m)%nat ->
  let r := kb_key_run dt (replicate m 0) rt in
  exists H,
    Forall (Forall (eq KB_EVT_REPEAT)) H /\ length H = d
    /\ snd r = H ++ [KB_EVT_RELEASE; KB_EVT_LONGPRESS_RELEASE]
                    :: replicate (m - d - 1) []
    /\ gest_of (fst r) = (0, 0, 0, 0, 0, 0).
Proof.
  intros Hdt Hr Hs Hl d Hm r.
  destruct (run_edge dt 1 0 m rt Hdt Hr Hs ltac:(lia) Hm)
    as (D & F1 & F2 & F3 & F4 & F5 & F6).
  fold d in F3, F4, F5. fold r in F4, F5, F6.
  destruct (gest_run_long_held dt d rt ltac:(lia) ltac:(lia)) as [L1 L2].
  destruct (gest_of_fields _ _ F3) as (_ & D2 & _).
  destruct (stab_release_long D F1 F2 ltac:(lia)) as [HE HS].
  set (S1 := fst (kb_stab_step D)) in *.
  assert (stable S1 = 0 /\ click_count S1 = 0) as [Hs1 Hc1].
  { unfold gest_of in HS. injection HS as -> _ -> _ _ _. auto. }
  rewrite (gest_run_idle dt (m - d) S1) in F4, F5 by (try assumption; lia).
  cbn [fst snd] in F4, F5.
  exists (snd (kb_gest_run dt d rt)).
  split_and!; [exact L2 | apply kb_gest_run_length | | congruence].
  rewrite F4, HE. f_equal.
  destruct (m - d)%nat as [|k] eqn:Ek; [lia|].
  cbn [replicate cons_first app]. do 2 f_equal. lia.
Qed.

End LongRelease.

(** X17.  One registered key, settled pressed with its long press
    reported, and the inactive level for [m > d] ticks of a fixed delta,
    [d] being the number of debounce ticks.  RELEASE and LONGPRESS_RELEASE
    are delivered once each, both on tick [d + 1]; nothing but REPEAT,
    RELEASE and LONGPRESS_RELEASE is delivered, so no CLICK and no
    DOUBLE_CLICK; and the key ends released with no click pending, even if
    one was pending before. *)
Theorem long_press_release_cancels_click
    (c : keyboard_control_t) (node : keyboard_que_t) (dt : Z)
    (rt : kb_key_runtime_t) (rest : list kb_key_runtime_t) (m : nat)
    (ticks : list (Z * kb_hw)) :
  kb_single_key c node ->
  0 < dt < 2 ^ 32 ->
  raw_last rt = 1 -> stable rt = 1 -> long_sent rt = 1 ->
  let d := ticks_for KB_DEBOUNCE_MS dt in
  (d < m)%nat ->
  kb_levels c node dt ticks (replicate m 0) ->
  let r := keyboard_poll_run (Some c) ticks (rt :: rest) in
  let kinds := kb_kinds (snd r) in
  map (count_evt KB_EVT_RELEASE) kinds
  = replicate d 0%nat ++ 1%nat :: replicate (m - d - 1) 0%nat
  /\ map (count_evt KB_EVT_LONGPRESS_RELEASE) kinds
     = replicate d 0%nat ++ 1%nat :: replicate (m - d - 1) 0%nat
  /\ Forall (Forall (fun e => e = KB_EVT_REPEAT \/ e = KB_EVT_RELEASE
                              \/ e = KB_EVT_LONGPRESS_RELEASE)) kinds
  /\ exists rt',
       fst r = rt' :: rest
       /\ stable rt' = 0 /\ long_sent rt' = 0
       /\ click_count rt' = 0 /\ click_wait_ms rt' = 0.
Proof.
  intros Hsingle Hdt Hr Hs Hl d Hm Hlv r kinds.
  unfold kinds, r.
  rewrite (kb_kinds_single c node Hsingle dt ticks _ rt rest ltac:(lia) Hlv).
  rewrite (keyboard_poll_run_single c node Hsingle dt ticks _ rt rest ltac:(lia) Hlv).
  cbn [fst].
  destruct (key_release_long dt m rt Hdt Hr Hs Hl Hm) as (H & K1 & K2 & K3 & K4).
  fold d in K2, K3. rewrite K3.
  assert (forall e, e = KB_EVT_RELEASE \/ e = KB_EVT_LONGPRESS_RELEASE ->
            map (count_evt e)
                (H ++ [KB_EVT_RELEASE; KB_EVT_LONGPRESS_RELEASE]
                      :: replicate (m - d - 1) [])
            = replicate d 0%nat ++ 1%nat :: replicate (m - d - 1) 0%nat) as Hcount.
  { intros e He. rewrite map_app.
    rewrite (map_count_zero e H)
      by (eapply Forall2_impl_evt; [|exact K1]; intros x <-; destruct He; congruence).
    rewrite K2. cbn [map]. rewrite map_count_zero by apply Forall_replicate_nil.
    rewrite length_replicate. do 2 f_equal. destruct He; subst e; reflexivity. }
  split_and!.
  - apply Hcount. auto.
  - apply Hcount. auto.
  - apply Forall_app. split.
    + eapply Forall2_impl_evt; [|exact K1]. intros x <-. auto.
    + constructor; [forall_solve|]. apply Forall_replicate_nil.
  - eexists. split; [reflexivity|].
    unfold gest_of in K4. injection K4 as -> -> -> _ _ ->. auto.
Qed.

Lemma long_press_release_cancels_click_witness :
  map (count_evt KB_EVT_LONGPRESS_RELEASE)
      (kb_kinds (snd (keyboard_poll_run (Some demo_ctl) (replicate 4 (demo_tick 10 0))
                        (mk_rt 1 1 1 1 20 900 0 40 :: replicate 15 rt_zero))))
  = [0; 0; 1; 0]%nat.
Proof.
  destruct (long_press_release_cancels_click demo_ctl demo_node 10
              (mk_rt 1 1 1 1 20 900 0 40) (replicate 15 rt_zero) 4
              (replicate 4 (demo_tick 10 0))) as (_ & H & _).
  - split; [reflexivity|split; [cbn; lia|reflexivity]].
  - lia.
  - reflexivity.
  - reflexivity.
  - reflexivity.
  - vm_compute. lia.
  - repeat constructor.
  - exact H.
Defined.

(** * When an edge is reported *)

Section EdgeLatency.

Lemma map_count_cons_first e pre (ll : list (list kb_event_t)) :
  ll <> [] -> count_evt e pre = 1%nat -> Forall (Forall (fun x => x <> e)) ll ->
  map (count_evt e) (cons_first pre ll) = 1%nat :: replicate (length ll - 1) 0%nat.
Proof.
  intros Hne Hpre Hll. destruct Hll as [|l ll Hl Hll]; [congruence|].
  cbn [cons_first map length]. rewrite count_evt_app, Hpre.
  rewrite (count_evt_absent e (fun x => x <> e)) by auto.
  rewrite map_count_zero by exact Hll. f_equal. f_equal. lia.
Qed.

Lemma stab_release_any D :
  kb_flips D = true -> raw_last D = 0 ->
  count_evt KB_EVT_RELEASE (snd (kb_stab_step D)) = 1%nat
  /\ stable (fst (kb_stab_step D)) = 0.
Proof.
  unfold kb_flips, kb_stab_step, kb_stabilize. intros -> Hr.
  destruct D. cbn in Hr. subst. zcases; try contradiction; auto.
Qed.

(** The per-tick counts of the edge event when a settled key sees the
    other level for [m > d] ticks. *)
Lemma key_edge_latency dt s r m rt e :
  0 < dt < 2 ^ 32 ->
  raw_last rt = s -> stable rt = s ->
  (s = 0 /\ r = 1 /\ e = KB_EVT_PRESS) \/ (s = 1 /\ r = 0 /\ e = KB_EVT_RELEASE) ->
  let d := ticks_for KB_DEBOUNCE_MS dt in
  (d < m)%nat ->
  map (count_evt e) (snd (kb_key_run dt (replicate m r) rt))
  = replicate d 0%nat ++ 1%nat :: replicate (m - d - 1) 0%nat.
Proof.
  intros Hdt Hr Hs Hcase d Hm.
  destruct (run_edge dt s r m rt Hdt Hr Hs ltac:(lia) Hm)
    as (D & F1 & F2 & F3 & F4 & F5 & F6).
  fold d in F3, F4, F5. rewrite F4, map_app.
  assert (Forall (Forall (fun x => x <> e)) (snd (kb_gest_run dt d rt))
          /\ count_evt e (snd (kb_stab_step D)) = 1%nat
          /\ Forall (Forall (fun x => x <> e))
                    (snd (kb_gest_run dt (m - d) (fst (kb_stab_step D)))))
    as (Hbefore & Hflip & Hafter).
  { destruct Hcase as [(-> & -> & ->)|(-> & -> & ->)].
    - destruct (stab_press D F1 ltac:(lia)) as [HE HS]. split_and!.
      + eapply Forall2_impl_evt; [|apply gest_run_released; exact Hs].
        intros x <-. discriminate.
      + rewrite HE. reflexivity.
      + eapply Forall2_impl_evt; [|apply gest_run_hold].
        * intros x [->| ->]; discriminate.
        * unfold gest_of in HS. injection HS as -> _ _ _ _ _. lia.
    - destruct (stab_release_any D F1 F2) as [HE HS]. split_and!.
      + eapply Forall2_impl_evt; [|apply gest_run_hold; lia].
        intros x [->| ->]; discriminate.
      + exact HE.
      + eapply Forall2_impl_evt; [|apply gest_run_released; exact HS].
        intros x <-. discriminate. }
  rewrite (map_count_zero e _ Hbefore), kb_gest_run_length.
  rewrite map_count_cons_first;
    [|apply gest_run_nonempty; lia | exact Hflip | exact Hafter].
  rewrite kb_gest_run_length. repeat f_equal. all: lia.
Qed.

End EdgeLatency.

(** X18.  One registered key polled with a fixed delta [dt]; [d] is the
    least number of ticks whose deltas add up to the debounce time.  A
    settled released key that sees the active level for [m > d] ticks
    delivers its PRESS on tick [d + 1] and on no other; a settled pressed key
    that sees the inactive level for [m > d] ticks delivers its RELEASE on
    tick [d + 1] and on no other. *)
Theorem edges_are_reported_after_debounce
    (c : keyboard_control_t) (node : keyboard_que_t) (dt : Z)
    (rt : kb_key_runtime_t) (rest : list kb_key_runtime_t) (m : nat)
    (ticks : list (Z * kb_hw)) :
  kb_single_key c node ->
  0 < dt < 2 ^ 32 ->
  let d := ticks_for KB_DEBOUNCE_MS dt in
  (d < m)%nat ->
  (Z.of_nat d - 1) * dt < KB_DEBOUNCE_MS <= Z.of_nat d * dt
  /\ (raw_last rt = 0 -> stable rt = 0 ->
      kb_levels c node dt ticks (replicate m 1) ->
      map (count_evt KB_EVT_PRESS)
          (kb_kinds (snd (keyboard_poll_run (Some c) ticks (rt :: rest))))
      = replicate d 0%nat ++ 1%nat :: replicate (m - d - 1) 0%nat)
  /\ (raw_last rt = 1 -> stable rt = 1 ->
      kb_levels c node dt ticks (replicate m 0) ->
      map (count_evt KB_EVT_RELEASE)
          (kb_kinds (snd (keyboard_poll_run (Some c) ticks (rt :: rest))))
      = replicate d 0%nat ++ 1%nat :: replicate (m - d - 1) 0%nat).
Proof.
  intros Hsingle Hdt d Hm. split; [|split].
  - destruct (debounce_ticks_bounds dt Hdt) as (_ & H & _). exact H.
  - intros Hr Hs Hlv.
    rewrite (kb_kinds_single c node Hsingle dt ticks _ rt rest ltac:(lia) Hlv).
    apply (key_edge_latency dt 0 1 m rt); auto.
  - intros Hr Hs Hlv.
    rewrite (kb_kinds_single c node Hsingle dt ticks _ rt rest ltac:(lia) Hlv).
    apply (key_edge_latency dt 1 0 m rt); auto.
Qed.

Lemma edges_are_reported_after_debounce_witness :
  map (count_evt KB_EVT_RELEASE)
      (kb_kinds (snd (keyboard_poll_run (Some demo_ctl) (replicate 4 (demo_tick 10 0))
                        (mk_rt 1 1 0 0 20 100 0 0 :: replicate 15 rt_zero))))
  = [0; 0; 1; 0]%nat.
Proof.
  destruct (edges_are_reported_after_debounce demo_ctl demo_node 10
              (mk_rt 1 1 0 0 20 100 0 0) (replicate 15 rt_zero) 4
              (replicate 4 (demo_tick 10 0))) as (_ & _ & H).
  - split; [reflexivity|split; [cbn; lia|reflexivity]].
  - lia.
  - vm_compute. lia.
  - apply H; [reflexivity | reflexivity | repeat constructor].
Defined.

(** * Pool layout and queries *)

Section PoolLayout.

Lemma blocks_elem p stride k a :
  a ∈ blocks p stride k <-> exists i, 0 <= i < Z.of_nat k /\ a = p + i * stride.
Proof.
  revert p. induction k as [|k IH]; intros p.
  - cbn. split; [intros H; inversion H|intros (i & Hi & _); lia].
  - cbn [blocks]. rewrite elem_of_cons, IH. split.
    + intros [->|(i & Hi & ->)]; [exists 0; lia|exists (i + 1); lia].
    + intros (i & Hi & ->). destruct (Z.eq_dec i 0) as [->|Hne]; [left; lia|].
      right. exists (i - 1). lia.
Qed.

Lemma pool_within_alloc B live a fl :
  pool_within B live (a :: fl) -> pool_within B ((a + SIZEOF_MPOOL_NODE) :: live) fl.
Proof.
  unfold pool_within. cbn [map].
  replace (a + SIZEOF_MPOOL_NODE - SIZEOF_MPOOL_NODE) with a by lia.
  rewrite <- Permutation_middle. auto.
Qed.

Lemma pool_within_free B live fl h :
  NoDup live -> h ∈ live ->
  pool_within B live fl ->
  pool_within B (drop_handle h live) ((h - SIZEOF_MPOOL_NODE) :: fl).
Proof.
  unfold pool_within. intros Hnd Hin Hw.
  rewrite (drop_handle_perm h live Hnd Hin) in Hw. cbn [map] in Hw.
  rewrite <- Permutation_middle in Hw. exact Hw.
Qed.

Lemma pool_run_within B calls pool m live fl :
  pool_inv pool m live fl -> pool_within B live fl ->
  pool_calls_ok calls pool m live = true ->
  exists fl',
    pool_inv (fst (fst (pool_run calls pool m live)))
             (snd (fst (pool_run calls pool m live)))
             (snd (pool_run calls pool m live)) fl'
    /\ pool_within B (snd (pool_run calls pool m live)) fl'.
Proof.
  revert pool m live fl.
  induction calls as [|[|ptr] calls IH]; intros pool m live fl Hinv Hw Hok.
  - exists fl. auto.
  - cbn [pool_run pool_calls_ok] in *.
    pose proof (mpool_alloc_inv pool m live fl Hinv) as Ha.
    destruct fl as [|a fl'].
    + rewrite Ha in *. cbn [Z.eqb] in *. eapply IH; eassumption.
    + destruct Ha as (pool' & Ha & Hnz & Hinv'). rewrite Ha in *.
      destruct (Z.eqb_spec (a + SIZEOF_MPOOL_NODE) 0); [contradiction|].
      eapply IH; [exact Hinv'|apply pool_within_alloc; exact Hw|exact Hok].
  - cbn [pool_run pool_calls_ok] in *.
    apply andb_true_iff in Hok as [Hptr Hok].
    destruct (mpool_free pool m ptr) as [pool' m'] eqn:Hfree.
    apply orb_true_iff in Hptr as [Hz|Hin].
    + apply Z.eqb_eq in Hz. subst ptr. unfold mpool_free in Hfree.
      cbn [Z.eqb] in Hfree. injection Hfree as <- <-.
      assert (0 ∉ live) as Hnot.
      { intros Hin. destruct Hinv as (_ & _ & Hpos & _).
        rewrite Forall_forall in Hpos.
        assert (0 < 0 - SIZEOF_MPOOL_NODE) as Hbad.
        { apply Hpos. apply elem_of_app. right.
          apply (list_elem_of_fmap_2 (fun h => h - SIZEOF_MPOOL_NODE)). exact Hin. }
        unfold SIZEOF_MPOOL_NODE in Hbad. lia. }
      rewrite (drop_handle_absent 0 live Hnot) in *.
      eapply IH; eassumption.
    + apply existsb_exists in Hin as (h & Hh & Heq). apply Z.eqb_eq in Heq. subst h.
      apply list_elem_of_In in Hh.
      pose proof (mpool_free_inv pool m live fl ptr Hinv Hh) as Hinv'.
      rewrite Hfree in Hinv'. cbn [fst snd] in Hinv'.
      eapply IH; [exact Hinv'| |exact Hok].
      apply pool_within_free; [eapply pool_inv_live_NoDup; exact Hinv|exact Hh|exact Hw].
Qed.

End PoolLayout.

(** X19.  A pool initialised over a non-NULL buffer with at least one
    block and a block size of at most 65528, after any well-formed sequence
    of allocations and releases: the live handles are pairwise distinct;
    each is the handle of one of the [count] blocks laid out by
    [mpool_init]; the payload of a live handle ends before the header of
    any other live block begins; every payload lies inside the [count]
    strides of the buffer; and no live block is on the free list. *)
Theorem live_blocks_never_overlap
    (buf blk count : Z) (m0 : links) (calls : list pool_call) :
  0 < buf -> 0 <= blk <= 65528 -> 1 <= count < 2 ^ 16 ->
  let pool0 := fst (mpool_init buf blk count m0) in
  let m1 := snd (mpool_init buf blk count m0) in
  pool_calls_ok calls pool0 m1 [] = true ->
  let st := pool_run calls pool0 m1 [] in
  let live := snd st in
  NoDup live
  /\ Forall (fun h => exists i, 0 <= i < count
                                /\ h = mpool_handle buf (mpool_stride blk) i) live
  /\ (forall h1 h2, h1 ∈ live -> h2 ∈ live -> h1 <> h2 ->
        h1 + blk <= h2 - SIZEOF_MPOOL_NODE \/ h2 + blk <= h1 - SIZEOF_MPOOL_NODE)
  /\ (forall h, h ∈ live ->
        buf + SIZEOF_MPOOL_NODE <= h /\ h + blk <= buf + count * mpool_stride blk)
  /\ (forall fl h,
        free_chain (Z.to_nat count) (snd (fst st)) (free_list (fst (fst st))) = Some fl ->
        h ∈ live -> h - SIZEOF_MPOOL_NODE ∉ fl).
Proof.
  intros Hbuf Hblk Hcount pool0 m1 Hok st live.
  destruct (mpool_stride_fits blk Hblk) as [_ Hfit].
  pose proof (mpool_init_inv buf blk count m0 Hbuf ltac:(lia) Hfit Hcount) as Hinv.
  fold pool0 m1 in Hinv.
  set (B := blocks buf (mpool_stride blk) (Z.to_nat count)) in *.
  assert (pool_within B [] B) as Hw.
  { unfold pool_within. cbn [map]. rewrite app_nil_r. apply Forall_forall. auto. }
  destruct (pool_run_within B calls pool0 m1 [] B Hinv Hw Hok) as (fl' & Hinv' & Hw').
  fold st in Hinv', Hw'. fold live in Hinv', Hw'.
  assert (forall h, h ∈ live ->
            exists i, 0 <= i < count /\ h = mpool_handle buf (mpool_stride blk) i) as Hform.
  { intros h Hh. unfold pool_within in Hw'. rewrite Forall_forall in Hw'.
    assert (h - SIZEOF_MPOOL_NODE ∈ B) as HB.
    { apply Hw'. apply elem_of_app. right.
      apply (list_elem_of_fmap_2 (fun h => h - SIZEOF_MPOOL_NODE)). exact Hh. }
    apply blocks_elem in HB as (i & Hi & Heq).
    exists i. split; [lia|]. unfold mpool_handle. lia. }
  unfold SIZEOF_MPOOL_NODE in *.
  split_and!.
  - eapply pool_inv_live_NoDup. exact Hinv'.
  - apply Forall_forall. exact Hform.
  - intros h1 h2 H1 H2 Hne.
    destruct (Hform h1 H1) as (i & Hi & ->). destruct (Hform h2 H2) as (j & Hj & ->).
    unfold mpool_handle, SIZEOF_MPOOL_NODE in *.
    assert (i <> j) as Hij by (intros ->; contradiction).
    destruct (Z.lt_ge_cases i j); [left|right]; nia.
  - intros h Hh. destruct (Hform h Hh) as (i & Hi & ->).
    unfold mpool_handle, SIZEOF_MPOOL_NODE. split; nia.
  - intros fl h Hfc Hh Hin.
    destruct Hinv' as (Hc & Hnd & _ & _ & Ht & _).
    assert (total (fst (fst st)) = count) as Htot.
    { unfold st. rewrite pool_run_total. unfold pool0, mpool_init.
      destruct (mpool_init_loop _ _ _ _). reflexivity. }
    rewrite (chain_walk _ _ fl' _ Hc) in Hfc by lia.
    injection Hfc as <-.
    apply NoDup_app in Hnd as (_ & Hdis & _).
    apply (Hdis _ Hin).
    apply (list_elem_of_fmap_2 (fun h => h - 4)). exact Hh.
Qed.

Lemma live_blocks_never_overlap_witness :
  NoDup (snd (pool_run [PoolAlloc; PoolAlloc]
                       (fst (mpool_init 536870912 12 2 (fun _ => 0)))
                       (snd (mpool_init 536870912 12 2 (fun _ => 0))) [])).
Proof.
  destruct (live_blocks_never_overlap 536870912 12 2 (fun _ => 0) [PoolAlloc; PoolAlloc])
    as [H _]; [lia | lia | lia | reflexivity | exact H].
Defined.

(** X20.  A pool initialised over a non-NULL buffer with at least one
    block and a block size of at most 65528, after any well-formed sequence
    of allocations and releases: [mpool_used_count] is the number of live
    handles, [mpool_free_count] is the block count minus that number and is
    the length of the free list, and the next allocation succeeds exactly
    when [mpool_free_count] is positive. *)
Theorem pool_queries_count_blocks
    (buf blk count : Z) (m0 : links) (calls : list pool_call) :
  0 < buf -> 0 <= blk <= 65528 -> 1 <= count < 2 ^ 16 ->
  let pool0 := fst (mpool_init buf blk count m0) in
  let m1 := snd (mpool_init buf blk count m0) in
  pool_calls_ok calls pool0 m1 [] = true ->
  let st := pool_run calls pool0 m1 [] in
  let pool := fst (fst st) in
  mpool_used_count pool = Z.of_nat (length (snd st))
  /\ mpool_free_count pool = count - Z.of_nat (length (snd st))
  /\ (exists fl,
        free_chain (Z.to_nat count) (snd (fst st)) (free_list pool) = Some fl
        /\ mpool_free_count pool = Z.of_nat (length fl))
  /\ (fst (fst (mpool_alloc pool (snd (fst st)))) <> 0 <-> 0 < mpool_free_count pool).
Proof.
  intros Hbuf Hblk Hcount pool0 m1 Hok st pool.
  destruct (mpool_stride_fits blk Hblk) as [_ Hfit].
  pose proof (mpool_init_inv buf blk count m0 Hbuf ltac:(lia) Hfit Hcount) as Hinv.
  fold pool0 m1 in Hinv.
  destruct (pool_run_inv calls pool0 m1 [] _ Hinv Hok) as (fl & Hfl).
  fold st in Hfl. fold pool in Hfl.
  assert (total pool = count) as Htot.
  { unfold pool, st. rewrite pool_run_total. unfold pool0, mpool_init.
    destruct (mpool_init_loop _ _ _ _). reflexivity. }
  pose proof (mpool_alloc_inv _ _ _ _ Hfl) as Ha.
  destruct Hfl as (Hc & _ & _ & Hu & Ht & Hlt).
  assert (mpool_free_count pool = Z.of_nat (length fl)) as Hfree.
  { unfold mpool_free_count, u16. rewrite Z.mod_small by lia. lia. }
  split_and!.
  - exact Hu.
  - rewrite Hfree. lia.
  - exists fl. split; [apply chain_walk; [exact Hc|lia]|exact Hfree].
  - rewrite Hfree. destruct fl as [|a fl'].
    + rewrite Ha. cbn. split; [congruence|lia].
    + destruct Ha as (pool' & -> & Hnz & _). cbn [fst length]. split; [lia|auto].
Qed.

Lemma pool_queries_count_blocks_witness :
  mpool_free_count
    (fst (fst (pool_run [PoolAlloc; PoolAlloc; PoolFree 536870916]
                        (fst (mpool_init 536870912 12 3 (fun _ => 0)))
                        (snd (mpool_init 536870912 12 3 (fun _ => 0))) [])))
  = 2.
Proof.
  destruct (pool_queries_count_blocks 536870912 12 3 (fun _ => 0)
              [PoolAlloc; PoolAlloc; PoolFree 536870916])
    as (_ & H & _); [lia | lia | lia | reflexivity | exact H].
Defined.

(** X22.  Releasing the same non-NULL handle twice in a row links its
    block to itself: from then on every allocation returns that one handle
    again, and the free list never ends. *)
Theorem double_release_repeats_block (pool : mpool_t) (m : links) (ptr : Z) :
  ptr <> 0 -> ptr - SIZEOF_MPOOL_NODE <> 0 ->
  let st1 := mpool_free pool m ptr in
  let st2 := mpool_free (fst st1) (snd st1) ptr in
  (forall n, fst (fst (alloc_many n (fst st2) (snd st2))) = replicate n ptr)
  /\ (forall fuel, free_chain fuel (snd st2) (free_list (fst st2)) = None).
Proof.
  intros Hptr Hnode st1 st2.
  set (node := ptr - SIZEOF_MPOOL_NODE) in *.
  assert (free_list (fst st2) = node /\ snd st2 node = node) as [Hfl Hm].
  { unfold st2, st1, mpool_free. destruct (Z.eqb_spec ptr 0); [contradiction|].
    cbn [fst snd free_list]. fold node. rewrite store_same. auto. }
  clearbody st2. clear st1. destruct st2 as [pool2 m2]. cbn [fst snd] in *. split.
  - intros n. revert pool2 Hfl. induction n as [|n IH]; intros pool2 Hfl; [reflexivity|].
    cbn [alloc_many replicate]. unfold mpool_alloc. rewrite Hfl.
    destruct (Z.eqb_spec node 0); [contradiction|].
    specialize (IH (mk_pool (m2 node) (blk_size pool2) (total pool2)
                            (u16 (used pool2 + 1))) Hm).
    destruct (alloc_many n _ m2) as [[ptrs p'] m']. cbn [fst] in *.
    rewrite IH. f_equal. unfold node. lia.
  - intros fuel. rewrite Hfl. induction fuel as [|fuel IH]; cbn [free_chain];
      destruct (Z.eqb_spec node 0); try contradiction; [reflexivity|].
    rewrite Hm, IH. reflexivity.
Qed.

Lemma double_release_repeats_block_witness :
  fst (fst (alloc_many 3
     (fst (mpool_free (fst (mpool_free (mk_pool 0 12 2 2) (fun _ => 0) 536870916))
                      (snd (mpool_free (mk_pool 0 12 2 2) (fun _ => 0) 536870916))
                      536870916))
     (snd (mpool_free (fst (mpool_free (mk_pool 0 12 2 2) (fun _ => 0) 536870916))
                      (snd (mpool_free (mk_pool 0 12 2 2) (fun _ => 0) 536870916))
                      536870916))))
  = [536870916; 536870916; 536870916].
Proof.
  apply (proj1 (double_release_repeats_block (mk_pool 0 12 2 2) (fun _ => 0) 536870916
                  ltac:(lia) ltac:(unfold SIZEOF_MPOOL_NODE; lia)) 3%nat).
Defined.

(** X23.  For a size of at most 2^32 - 4, [MPOOL_ALIGN_UP] returns the
    least multiple of four that is not below the size: the result is a
    multiple of four, at least the size and less than four above it; a
    multiple of four is left as it is, and aligning twice changes
    nothing. *)
Theorem MPOOL_ALIGN_UP_rounds_up (s : Z) :
  0 <= s <= 2 ^ 32 - 4 ->
  s <= MPOOL_ALIGN_UP s < s + 4
  /\ MPOOL_ALIGN_UP s mod 4 = 0
  /\ (s mod 4 = 0 -> MPOOL_ALIGN_UP s = s)
  /\ MPOOL_ALIGN_UP (MPOOL_ALIGN_UP s) = MPOOL_ALIGN_UP s.
Proof.
  intros Hs.
  assert (forall x, 0 <= x <= 2 ^ 32 - 4 ->
            x <= MPOOL_ALIGN_UP x < x + 4 /\ MPOOL_ALIGN_UP x mod 4 = 0
            /\ (x mod 4 = 0 -> MPOOL_ALIGN_UP x = x)) as Hone.
  { intros x Hx. rewrite MPOOL_ALIGN_UP_eq by lia.
    pose proof (Z.div_mod (x + 3) 4 ltac:(lia)) as Hdm.
    pose proof (Z.mod_pos_bound (x + 3) 4 ltac:(lia)) as Hmb.
    split_and!; [lia | lia | |].
    - rewrite Z.mul_comm. apply Z.mod_mul. lia.
    - intros Hx4. pose proof (Z.div_mod x 4 ltac:(lia)) as Hdx.
      assert ((x + 3) / 4 = x / 4) as ->; [|lia].
      replace (x + 3) with (3 + x / 4 * 4) by lia.
      rewrite Z.div_add by lia. reflexivity. }
  destruct (Hone s Hs) as (H1 & H2 & H3).
  split_and!; [lia | lia | exact H2 | exact H3 |].
  assert (MPOOL_ALIGN_UP s <= 2 ^ 32 - 4) as Hup.
  { pose proof (Z.div_mod (MPOOL_ALIGN_UP s) 4 ltac:(lia)) as Hd.
    pose proof (Z.div_mod (2 ^ 32 - 4) 4 ltac:(lia)) as Hd2.
    change ((2 ^ 32 - 4) mod 4) with 0 in Hd2.
    assert (MPOOL_ALIGN_UP s / 4 <= (2 ^ 32 - 4) / 4); [|lia].
    apply Z.div_le_mono; lia. }
  destruct (Hone (MPOOL_ALIGN_UP s) ltac:(lia)) as (_ & _ & H4). apply H4. exact H2.
Qed.

Lemma MPOOL_ALIGN_UP_rounds_up_witness :
  13 <= MPOOL_ALIGN_UP 13 < 17 /\ MPOOL_ALIGN_UP 13 mod 4 = 0.
Proof.
  destruct (MPOOL_ALIGN_UP_rounds_up 13 ltac:(lia)) as (H1 & H2 & _).
  split; [exact H1|exact H2].
Defined.

(** X24.  A pool declared with [MPOOL_DEFINE] for a type of at most
    65528 bytes and a count between 1 and 65535, then set up with
    [MPOOL_INIT]: the array is [count] strides long, the pool records the
    type size and the count with nothing used, and the free list is
    [count] blocks, each of which lies with its whole stride inside the
    array. *)
Theorem MPOOL_DEFINE_buffer_holds_blocks (sizeof_type count buf : Z) (m0 : links) :
  0 < buf -> 0 <= sizeof_type <= 65528 -> 1 <= count < 2 ^ 16 ->
  let name := MPOOL_DEFINE_pool sizeof_type count in
  let len := MPOOL_DEFINE_buf_len sizeof_type count in
  let r := MPOOL_INIT buf name m0 in
  let stride := mpool_stride sizeof_type in
  len = count * stride
  /\ (blk_size (fst r), total (fst r), used (fst r)) = (sizeof_type, count, 0)
  /\ exists fl,
       free_chain (Z.to_nat count) (snd r) (free_list (fst r)) = Some fl
       /\ length fl = Z.to_nat count
       /\ Forall (fun a => buf <= a /\ a + stride <= buf + len) fl.
Proof.
  intros Hbuf Hsz Hcount name len r stride.
  destruct (mpool_stride_fits sizeof_type Hsz) as [Hst Hfit]. fold stride in Hst, Hfit.
  pose proof (Z.div_mod (sizeof_type + 7) 4 ltac:(lia)) as Hdm.
  pose proof (Z.mod_pos_bound (sizeof_type + 7) 4 ltac:(lia)) as Hmb.
  assert (len = count * stride) as Hlen.
  { unfold len, MPOOL_DEFINE_buf_len, SIZEOF_MPOOL_NODE, u32.
    rewrite MPOOL_ALIGN_UP_eq by lia.
    replace (sizeof_type + 4 + 3) with (sizeof_type + 7) by lia. rewrite <- Hst.
    apply Z.mod_small. nia. }
  assert (r = mpool_init buf sizeof_type count m0) as Hr.
  { unfold r, MPOOL_INIT, name, MPOOL_DEFINE_pool. cbn [blk_size total].
    unfold u16. rewrite !Z.mod_small by lia. reflexivity. }
  pose proof (mpool_init_inv buf sizeof_type count m0 Hbuf ltac:(lia) Hfit Hcount) as Hinv.
  rewrite <- Hr in Hinv. fold stride in Hinv.
  destruct Hinv as (Hc & _ & _ & Hu & Ht & _).
  cbn [length] in Ht. rewrite blocks_length in Ht.
  split_and!.
  - exact Hlen.
  - rewrite Hr. unfold mpool_init. destruct (mpool_init_loop _ _ _ _). reflexivity.
  - exists (blocks buf stride (Z.to_nat count)). split_and!.
    + apply chain_walk; [exact Hc|]. rewrite blocks_length. lia.
    + apply blocks_length.
    + apply Forall_forall. intros a Ha. apply blocks_elem in Ha as (i & Hi & ->).
      rewrite Hlen. unfold SIZEOF_MPOOL_NODE in *. nia.
Qed.

Lemma MPOOL_DEFINE_buffer_holds_blocks_witness :
  MPOOL_DEFINE_buf_len 12 16 = 256.
Proof.
  destruct (MPOOL_DEFINE_buffer_holds_blocks 12 16 536870912 (fun _ => 0))
    as [H _]; [lia | lia | lia |]. exact H.
Defined.

Section AllocationOrder.

Lemma blocks_seq p stride k :
  blocks p stride k = map (fun i => p + Z.of_nat i * stride) (seq 0 k).
Proof.
  revert p. induction k as [|k IH]; intros p; [reflexivity|].
  cbn [blocks seq map]. rewrite IH, <- seq_shift, map_map. f_equal; [lia|].
  apply map_ext. intros i. lia.
Qed.

End AllocationOrder.

(** X21.  From a freshly initialised pool, [count] allocations in a row
    return the blocks in address order: allocation number [i + 1] returns
    the handle of block [i], one header past [buf + i * stride].  After
    them every block is used and the free list is empty. *)
Theorem fresh_pool_allocates_in_address_order (buf blk count : Z) (m0 : links) :
  0 < buf -> 0 <= blk <= 65528 -> 1 <= count < 2 ^ 16 ->
  let pool0 := fst (mpool_init buf blk count m0) in
  let m1 := snd (mpool_init buf blk count m0) in
  let r := alloc_many (Z.to_nat count) pool0 m1 in
  fst (fst r)
  = map (fun i => mpool_handle buf (mpool_stride blk) (Z.of_nat i))
        (seq 0 (Z.to_nat count))
  /\ used (snd (fst r)) = count
  /\ free_list (snd (fst r)) = 0.
Proof.
  intros Hbuf Hblk Hcount pool0 m1 r.
  destruct (mpool_stride_fits blk Hblk) as [_ Hfit].
  pose proof (mpool_init_inv buf blk count m0 Hbuf ltac:(lia) Hfit Hcount) as Hinv.
  fold pool0 m1 in Hinv.
  set (B := blocks buf (mpool_stride blk) (Z.to_nat count)) in *.
  assert (forall fl pool live,
            pool_inv pool m1 live fl ->
            fst (fst (alloc_many (length fl) pool m1))
            = map (fun a => a + SIZEOF_MPOOL_NODE) fl
            /\ used (snd (fst (alloc_many (length fl) pool m1)))
               = used pool + Z.of_nat (length fl)
            /\ free_list (snd (fst (alloc_many (length fl) pool m1))) = 0) as Hall.
  { induction fl as [|a fl IH]; intros pool live Hi.
    - cbn [length alloc_many fst snd map]. destruct Hi as (Hc & _). cbn in Hc.
      split_and!; [reflexivity | lia | exact Hc].
    - destruct (mpool_alloc_inv pool m1 live (a :: fl) Hi) as (pool' & Ha & _ & Hi').
      cbn [length alloc_many]. rewrite Ha.
      destruct (IH pool' _ Hi') as (I1 & I2 & I3).
      destruct (alloc_many (length fl) pool' m1) as [[ptrs pool2] m2].
      cbn [fst snd map] in *. rewrite I1, I2, I3.
      split_and!; [reflexivity | | reflexivity].
      destruct Hi as (_ & _ & _ & Hu & Ht & Hlt).
      destruct Hi' as (_ & _ & _ & Hu' & _).
      cbn [length] in *. lia. }
  destruct (Hall B pool0 [] Hinv) as (A1 & A2 & A3).
  unfold B in A1, A2, A3. rewrite blocks_length in A1, A2, A3. fold r in A1, A2, A3.
  split_and!.
  - rewrite A1, blocks_seq, map_map. apply map_ext. intros i.
    unfold mpool_handle. reflexivity.
  - rewrite A2. destruct Hinv as (_ & _ & _ & Hu & _). cbn [length] in Hu. lia.
  - exact A3.
Qed.

Lemma fresh_pool_allocates_in_address_order_witness :
  fst (fst (alloc_many 3 (fst (mpool_init 536870912 12 3 (fun _ => 0)))
                       (snd (mpool_init 536870912 12 3 (fun _ => 0)))))
  = [536870916; 536870932; 536870948].
Proof.
  destruct (fresh_pool_allocates_in_address_order 536870912 12 3 (fun _ => 0))
    as [H _]; [lia | lia | lia |]. exact H.
Defined.
